(** * Valuation engines of the financial-modeling platform

    A shallow embedding of the two analytics models of the repository,
    [DCFModel.js] (discounted cash flow) and [LBOModel.js] (leveraged
    buyout), and the properties their specification states about them.

    Numbers.  A JavaScript number is modelled as an exact rational extended
    with [Infinity], [-Infinity] and [NaN]: the arithmetic below is the
    IEEE-754 arithmetic of the source with rounding, overflow and the sign
    of zero left out.  [undefined] (an absent property, an index outside an
    array) is [None] of [value].

    Control.  A function that can throw returns a [result]; the instance
    fields that the DCF loops overwrite and restore are passed and returned
    explicitly; [Math.random] is a stream of draws read through a counter. *)

From Stdlib Require Import QArith Qabs Qcanon Qcabs ZArith List String Bool Lia Psatz.
From Stdlib Require Import Reals.
Import ListNotations.

(* ================================================================== *)
(** * JavaScript numbers                                                *)
(* ================================================================== *)

Module JS.

Inductive num : Type :=
| Fin (q : Qc)
| PInf
| NInf
| NaN.

(** A decimal literal of the source. *)
Definition dec (q : Q) : num := Fin (Q2Qc q).

(** An integer loop counter used as a number. *)
Definition ofNat (n : nat) : num := Fin (Q2Qc (inject_Z (Z.of_nat n))).

Definition zero : num := dec 0.
Definition one : num := dec 1.

Definition isFinite (x : num) : bool :=
  match x with Fin _ => true | _ => false end.

Definition isNaN (x : num) : bool :=
  match x with NaN => true | _ => false end.

(** Sign of a number that is not [NaN]: [Lt] negative, [Eq] zero, [Gt] positive. *)
Definition sgn (x : num) : comparison :=
  match x with
  | Fin q => (q ?= Q2Qc 0)%Qc
  | PInf => Gt
  | NInf => Lt
  | NaN => Eq
  end.

Definition sgn_mul (a b : comparison) : comparison :=
  match a, b with
  | Eq, _ | _, Eq => Eq
  | Gt, Gt | Lt, Lt => Gt
  | Gt, Lt | Lt, Gt => Lt
  end.

(** The infinity of a given sign; a zero sign stands for [0 * Infinity] and
    [0 / 0], which are [NaN]. *)
Definition inf_of (s : comparison) : num :=
  match s with Gt => PInf | Lt => NInf | Eq => NaN end.

Definition neg (x : num) : num :=
  match x with
  | Fin q => Fin (- q)%Qc
  | PInf => NInf
  | NInf => PInf
  | NaN => NaN
  end.

Definition add (x y : num) : num :=
  match x, y with
  | NaN, _ | _, NaN => NaN
  | Fin a, Fin b => Fin (a + b)%Qc
  | PInf, NInf | NInf, PInf => NaN
  | PInf, _ | _, PInf => PInf
  | NInf, _ | _, NInf => NInf
  end.

Definition sub (x y : num) : num := add x (neg y).

Definition mul (x y : num) : num :=
  match x, y with
  | NaN, _ | _, NaN => NaN
  | Fin a, Fin b => Fin (a * b)%Qc
  | _, _ => inf_of (sgn_mul (sgn x) (sgn y))
  end.

Definition div (x y : num) : num :=
  match x, y with
  | NaN, _ | _, NaN => NaN
  | Fin a, Fin b =>
      if Qc_eq_dec b (Q2Qc 0) then inf_of (sgn x) else Fin (a / b)%Qc
  | Fin _, _ => zero
  | _, Fin b => if Qc_eq_dec b (Q2Qc 0) then x else inf_of (sgn_mul (sgn x) (sgn y))
  | _, _ => NaN
  end.

(** [x < y], [x <= y], [x > y], [x >= y]: false as soon as a side is [NaN]. *)
Definition cmp (x y : num) : option comparison :=
  match x, y with
  | NaN, _ | _, NaN => None
  | Fin a, Fin b => Some (a ?= b)%Qc
  | PInf, PInf | NInf, NInf => Some Eq
  | PInf, _ | _, NInf => Some Gt
  | NInf, _ | _, PInf => Some Lt
  end.

Definition ltb (x y : num) : bool :=
  match cmp x y with Some Lt => true | _ => false end.
Definition leb (x y : num) : bool :=
  match cmp x y with Some Lt | Some Eq => true | _ => false end.
Definition gtb (x y : num) : bool := ltb y x.
Definition geb (x y : num) : bool := leb y x.

(** [Math.abs], [Math.max] and [Math.min] of two arguments. *)
Definition Math_abs (x : num) : num :=
  match x with
  | Fin q => Fin (Qcabs q)
  | NaN => NaN
  | _ => PInf
  end.

Definition Math_max (x y : num) : num :=
  match cmp x y with
  | None => NaN
  | Some Lt => y
  | Some _ => x
  end.

Definition Math_min (x y : num) : num :=
  match cmp x y with
  | None => NaN
  | Some Gt => y
  | Some _ => x
  end.

(** [Math.max(...xs)] and [Math.min(...xs)]. *)
Definition Math_max_list (xs : list num) : num := fold_left Math_max xs NInf.
Definition Math_min_list (xs : list num) : num := fold_left Math_min xs PInf.

(** [Math.pow(x, n)] for the integer exponents the source uses: repeated
    multiplication, with [Math.pow(x, 0) = 1] for every [x]. *)
Fixpoint pown (x : num) (n : nat) : num :=
  match n with
  | O => one
  | S k => mul x (pown x k)
  end.

Definition Math_pow (x : num) (e : Z) : num :=
  if (e <? 0)%Z then div one (pown x (Z.to_nat (- e))) else pown x (Z.to_nat e).

(** Values: a number or [undefined]. *)
Definition value : Type := option num.

Definition undefined : value := None.

(** [ToNumber]. *)
Definition toNumber (v : value) : num :=
  match v with Some x => x | None => NaN end.

(** [ToBoolean]: [undefined], [0] and [NaN] are falsy. *)
Definition truthy (v : value) : bool :=
  match v with
  | None => false
  | Some NaN => false
  | Some (Fin q) => if Qc_eq_dec q (Q2Qc 0) then false else true
  | Some _ => true
  end.

(** [v || d], and the same where the default is a number. *)
Definition orValue (v d : value) : value :=
  if truthy v then v else d.

Definition orElse (v : value) (d : num) : num :=
  if truthy v then toNumber v else d.

(** [a[i]] for a counter and for an integer that may be negative. *)
Definition index {A : Type} (a : list A) (i : nat) : option A := nth_error a i.

Definition indexZ {A : Type} (a : list A) (i : Z) : option A :=
  if (i <? 0)%Z then None else nth_error a (Z.to_nat i).

(** Results of code that may throw; the payload of [Throw] is the message
    of the error. *)
Inductive result (A : Type) : Type :=
| Ok (a : A)
| Throw (message : string).

Arguments Ok {A} a.
Arguments Throw {A} message.

Definition bind {A B : Type} (r : result A) (k : A -> result B) : result B :=
  match r with
  | Ok a => k a
  | Throw m => Throw m
  end.

(** A loop whose body may throw: the state is threaded through the
    iterations and the first exception leaves the loop. *)
Fixpoint forEach {S A : Type} (body : S -> A -> result S) (xs : list A) (s : S)
  : result S :=
  match xs with
  | [] => Ok s
  | x :: rest =>
      match body s x with
      | Ok s' => forEach body rest s'
      | Throw m => Throw m
      end
  end.

(** [try { body } catch (error) { throw new Error(prefix + error.message) }]. *)
Definition rethrow {A : Type} (prefix : string) (r : result A) : result A :=
  match r with
  | Ok a => Ok a
  | Throw m => Throw (prefix ++ m)
  end.

(** The longest array there is: [2^32 - 1] entries. *)
Definition maxArrayLength : Z := 4294967295.

(** [Array(n).fill(x)] for an integer [n]: a length that is negative or
    above [2^32 - 1] is a [RangeError]. *)
Definition arrayFill (n : Z) (x : num) : result (list num) :=
  if orb (n <? 0)%Z (maxArrayLength <? n)%Z then Throw "Invalid array length"
  else Ok (repeat x (Z.to_nat n)).

(** [a[i]] where the array itself may be an absent property: reading an
    index of [undefined] is a [TypeError].  Its message is the one of V8
    without the name of the property read. *)
Definition read (a : option (list num)) (i : nat) : result value :=
  match a with
  | Some l => Ok (index l i)
  | None => Throw "Cannot read properties of undefined"
  end.

End JS.

Import JS.

Declare Scope js_scope.
Delimit Scope js_scope with js.
Bind Scope js_scope with num.
Infix "+" := add : js_scope.
Infix "-" := sub : js_scope.
Infix "*" := mul : js_scope.
Infix "/" := div : js_scope.
Infix "<?" := ltb : js_scope.
Infix "<=?" := leb : js_scope.
Infix ">?" := gtb : js_scope.
Infix ">=?" := geb : js_scope.
Notation "v '|||' d" := (orElse v d) (at level 50, left associativity) : js_scope.
Notation "x <- r ;; k" := (bind r (fun x => k))
  (at level 61, r at next level, right associativity) : js_scope.

Open Scope string_scope.
Open Scope list_scope.
Open Scope js_scope.

(* ================================================================== *)
(** * Library functions and random draws                                *)
(* ================================================================== *)

(** The transcendental functions of [Math] that [normalRandom] calls. *)
Class MathLib : Type := {
  Math_sqrt : num -> num;
  Math_log : num -> num;
  Math_cos : num -> num;
  Math_PI : num
}.

(** The functions of the [simple-statistics] package that the Monte Carlo
    summaries call; the package is not part of the repository, and its
    functions may throw (on an empty sample, for one). *)
Class StatsLib : Type := {
  stats_mean : list num -> result num;
  stats_median : list num -> result num;
  stats_standardDeviation : list num -> result num;
  stats_quantile : list num -> num -> result num
}.

(** The successive values that [Math.random()] returns. *)
Class RandomSource : Type := Math_random : nat -> num.

(** Code that draws random numbers and may throw: it reads the stream from
    a position and returns the position it reached, also when it throws. *)
Module Rand.

Definition t (A : Type) : Type := nat -> result A * nat.

Definition ret {A : Type} (a : A) : t A := fun k => (Ok a, k).

Definition bind {A B : Type} (c : t A) (f : A -> t B) : t B :=
  fun k =>
    match c k with
    | (Ok a, k') => f a k'
    | (Throw m, k') => (Throw m, k')
    end.

Definition lift {A : Type} (r : result A) : t A := fun k => (r, k).

Definition random `{RandomSource} : t num := fun k => (Ok (Math_random k), S k).

(** [try { c } catch (error) { }], the outcome handed to the continuation. *)
Definition try {A : Type} (c : t A) : t (result A) :=
  fun k => let (r, k') := c k in (Ok r, k').

Fixpoint forEach {S A : Type} (body : S -> A -> t S) (xs : list A) (s : S) : t S :=
  match xs with
  | [] => ret s
  | x :: rest => bind (body s x) (forEach body rest)
  end.

End Rand.

Notation "x <~ c ;; k" := (Rand.bind c (fun x => k))
  (at level 61, c at next level, right associativity) : js_scope.

(* ================================================================== *)
(** * DCFModel.js                                                       *)
(* ================================================================== *)

Module DCF.

Module Options.
Record t : Type := {
    discountRate : value;
    terminalGrowthRate : value;
    projectionYears : option Z;
    taxRate : value
  }.
End Options.

(** The instance fields set by the constructor ([this]). *)
Record Model : Type := {
  discountRate : num;
  terminalGrowthRate : num;
  projectionYears : Z;
  taxRate : num
}.

Definition constructor (options : Options.t) : Model :=
  {| discountRate := Options.discountRate options ||| dec 0.10;
     terminalGrowthRate := Options.terminalGrowthRate options ||| dec 0.025;
     projectionYears :=
       match Options.projectionYears options with
       | Some n => if (n =? 0)%Z then 5%Z else n
       | None => 5%Z
       end;
     taxRate := Options.taxRate options ||| dec 0.25 |}.

Definition withRates (this : Model) (dr tg : num) : Model :=
  {| discountRate := dr;
     terminalGrowthRate := tg;
     projectionYears := projectionYears this;
     taxRate := taxRate this |}.

Module FinancialData.
Record t : Type := {
    revenue : value;
    sharesOutstanding : value;
    currentPrice : value
  }.
End FinancialData.

Module Projections.
Record t : Type := {
    revenueGrowth : option (list num);
    ebitdaMargin : option (list num);
    depreciation : option (list num);
    capex : option (list num);
    workingCapitalChange : option (list num)
  }.
End Projections.

Module YearRecord.
Record t : Type := {
    year : nat;
    revenue : num;
    ebitda : num;
    ebit : num;
    nopat : num;
    freeCashFlow : num;
    presentValue : num
  }.
End YearRecord.

Module Result.
Record t : Type := {
    projectedCashFlows : list YearRecord.t;
    terminalValue : num;
    presentValue : num;
    sharesOutstanding : num;
    intrinsicValue : num;
    currentPrice : num;
    upside : num;
    assumptions : Model
  }.
End Result.

(** Body of the projection loop (lines 42-62) for one [year], from the
    revenue of the year before. *)
Definition projectYear (this : Model) (projections : Projections.t)
    (lastRevenue : num) (year : nat) : result YearRecord.t :=
  g <- read (Projections.revenueGrowth projections) (year - 1) ;;
  let revenueGrowth := g ||| zero in
  let revenue := lastRevenue * (one + revenueGrowth) in
  m <- read (Projections.ebitdaMargin projections) (year - 1) ;;
  let ebitda := revenue * (m ||| dec 0.15) in
  d <- read (Projections.depreciation projections) (year - 1) ;;
  let ebit := ebitda - (d ||| revenue * dec 0.03) in
  let tax := ebit * taxRate this in
  let nopat := ebit - tax in
  c <- read (Projections.capex projections) (year - 1) ;;
  let capex := c ||| revenue * dec 0.04 in
  w <- read (Projections.workingCapitalChange projections) (year - 1) ;;
  let workingCapitalChange := w ||| zero in
  let freeCashFlow :=
    nopat + (d ||| revenue * dec 0.03) - capex - workingCapitalChange in
  let presentValue :=
    freeCashFlow / Math_pow (one + discountRate this) (Z.of_nat year) in
  Ok {| YearRecord.year := year;
        YearRecord.revenue := revenue;
        YearRecord.ebitda := ebitda;
        YearRecord.ebit := ebit;
        YearRecord.nopat := nopat;
        YearRecord.freeCashFlow := freeCashFlow;
        YearRecord.presentValue := presentValue |}.

(** The variables the loop updates. *)
Record LoopState : Type := {
  cashFlows : list YearRecord.t;
  totalPV : num;
  lastRevenue : num
}.

Definition loopBody (this : Model) (projections : Projections.t)
    (st : LoopState) (year : nat) : result LoopState :=
  r <- projectYear this projections (lastRevenue st) year ;;
  Ok {| cashFlows := cashFlows st ++ [r];
        totalPV := totalPV st + YearRecord.presentValue r;
        lastRevenue := YearRecord.revenue r |}.

(** [for (let year = 1; year <= this.projectionYears; year++)]. *)
Definition years (this : Model) : list nat :=
  seq 1 (Z.to_nat (projectionYears this)).

Definition calculateDCF_body (this : Model) (financialData : FinancialData.t)
    (projections : Projections.t) : result Result.t :=
  let sharesOutstanding := FinancialData.sharesOutstanding financialData ||| zero in
  let currentPrice := FinancialData.currentPrice financialData ||| zero in
  let init := {| cashFlows := [];
                 totalPV := zero;
                 lastRevenue := FinancialData.revenue financialData ||| zero |} in
  st <- forEach (loopBody this projections) (years this) init ;;
  match indexZ (cashFlows st) (projectionYears this - 1) with
  | None => Throw "Cannot read properties of undefined"
  | Some last =>
      let terminalCashFlow :=
        YearRecord.freeCashFlow last * (one + terminalGrowthRate this) in
      let terminalValue :=
        terminalCashFlow / (discountRate this - terminalGrowthRate this) in
      let terminalPV :=
        terminalValue / Math_pow (one + discountRate this) (projectionYears this) in
      let presentValue := totalPV st + terminalPV in
      let intrinsicValue :=
        if sharesOutstanding >? zero then presentValue / sharesOutstanding else zero in
      let upside :=
        if sharesOutstanding >? zero then
          if currentPrice >? zero
          then (intrinsicValue - currentPrice) / currentPrice
          else zero
        else zero in
      Ok {| Result.projectedCashFlows := cashFlows st;
            Result.terminalValue := terminalValue;
            Result.presentValue := presentValue;
            Result.sharesOutstanding := sharesOutstanding;
            Result.intrinsicValue := intrinsicValue;
            Result.currentPrice := currentPrice;
            Result.upside := upside;
            Result.assumptions := this |}
  end.

Definition calculateDCF (this : Model) (financialData : FinancialData.t)
    (projections : Projections.t) : result Result.t :=
  rethrow "DCF calculation failed: "
    (calculateDCF_body this financialData projections).

(** ** Sensitivity grid (lines 97-127) *)

Module Ranges.
Record t : Type := {
    discountRates : option (list num);
    terminalGrowthRates : option (list num)
  }.
End Ranges.

Module Row.
Record t : Type := {
    discountRate : num;
    terminalGrowthRate : num;
    intrinsicValue : num;
    upside : num
  }.
End Row.

Definition defaultDiscountRates : list num :=
  map dec [0.08; 0.09; 0.10; 0.11; 0.12]%Q.
Definition defaultTerminalGrowthRates : list num :=
  map dec [0.015; 0.020; 0.025; 0.030; 0.035]%Q.

(** The inner loop over the terminal growth rates, for one discount rate.
    The instance is overwritten for the call and restored after it; an
    exception of [calculateDCF] is not caught here, so it leaves the grid
    with the instance still overwritten. *)
Fixpoint sensitivityInner (financialData : FinancialData.t)
    (projections : Projections.t) (discountRate' : num)
    (terminalGrowthRates : list num) (this : Model) (results : list Row.t)
  : Model * result (list Row.t) :=
  match terminalGrowthRates with
  | [] => (this, Ok results)
  | terminalGrowthRate' :: rest =>
      let originalDiscount := discountRate this in
      let originalTerminal := terminalGrowthRate this in
      let this1 := withRates this discountRate' terminalGrowthRate' in
      match calculateDCF this1 financialData projections with
      | Throw m => (this1, Throw m)
      | Ok dcfResult =>
          let row := {| Row.discountRate := discountRate';
                        Row.terminalGrowthRate := terminalGrowthRate';
                        Row.intrinsicValue := Result.intrinsicValue dcfResult;
                        Row.upside := Result.upside dcfResult |} in
          let this2 := withRates this1 originalDiscount originalTerminal in
          sensitivityInner financialData projections discountRate' rest this2
            (results ++ [row])
      end
  end.

Fixpoint sensitivityOuter (financialData : FinancialData.t)
    (projections : Projections.t) (discountRates terminalGrowthRates : list num)
    (this : Model) (results : list Row.t) : Model * result (list Row.t) :=
  match discountRates with
  | [] => (this, Ok results)
  | discountRate' :: rest =>
      match sensitivityInner financialData projections discountRate'
              terminalGrowthRates this results with
      | (this', Throw m) => (this', Throw m)
      | (this', Ok results') =>
          sensitivityOuter financialData projections rest terminalGrowthRates
            this' results'
      end
  end.

(** Returns the instance as the call leaves it, and the rows or the
    exception. *)
Definition sensitivityAnalysis (this : Model) (financialData : FinancialData.t)
    (projections : Projections.t) (sensitivityRanges : Ranges.t)
  : Model * result (list Row.t) :=
  let discountRates :=
    match Ranges.discountRates sensitivityRanges with
    | Some l => l
    | None => defaultDiscountRates
    end in
  let terminalGrowthRates :=
    match Ranges.terminalGrowthRates sensitivityRanges with
    | Some l => l
    | None => defaultTerminalGrowthRates
    end in
  sensitivityOuter financialData projections discountRates terminalGrowthRates
    this [].

(** ** Monte Carlo simulation (lines 136-234) *)

(** The five arrays under construction. *)
Record RandomArrays : Type := {
  ra_revenueGrowth : list num;
  ra_ebitdaMargin : list num;
  ra_depreciation : list num;
  ra_capex : list num;
  ra_workingCapitalChange : list num
}.

Module Sample.
Record t : Type := {
    intrinsicValue : num;
    upside : num;
    presentValue : num
  }.
End Sample.

Module IntrinsicStats.
Record t : Type := {
    mean : num; median : num; std : num;
    percentile10 : num; percentile90 : num;
    min : num; max : num
  }.
End IntrinsicStats.

Module UpsideStats.
Record t : Type := {
    mean : num; median : num; std : num;
    percentile10 : num; percentile90 : num
  }.
End UpsideStats.

Module MonteCarloResult.
Record t : Type := {
    simulations : nat;
    intrinsicValue : IntrinsicStats.t;
    upside : UpsideStats.t;
    probabilityOfPositiveUpside : num;
    results : list Sample.t
  }.
End MonteCarloResult.

Section MonteCarlo.

Context `{MathLib} `{StatsLib} `{RandomSource}.

(** Box-Muller transformation (lines 228-234). *)
Definition normalRandom (mean std : num) : Rand.t num :=
  u1 <~ Rand.random ;;
  u2 <~ Rand.random ;;
  let z0 :=
    Math_sqrt (dec (-2) * Math_log u1) * Math_cos (dec 2 * Math_PI * u2) in
  Rand.ret (mean + z0 * std).

Definition randomYear (projections : Projections.t) (acc : RandomArrays)
    (year : nat) : Rand.t RandomArrays :=
  g <~ Rand.lift (read (Projections.revenueGrowth projections) year) ;;
  g' <~ normalRandom (g ||| dec 0.05) (dec 0.02) ;;
  m <~ Rand.lift (read (Projections.ebitdaMargin projections) year) ;;
  m' <~ normalRandom (m ||| dec 0.15) (dec 0.03) ;;
  d <~ Rand.lift (read (Projections.depreciation projections) year) ;;
  d' <~ normalRandom (d ||| zero) (dec 0.01) ;;
  c <~ Rand.lift (read (Projections.capex projections) year) ;;
  c' <~ normalRandom (c ||| zero) (dec 0.01) ;;
  w <~ Rand.lift (read (Projections.workingCapitalChange projections) year) ;;
  w' <~ normalRandom (w ||| zero) (dec 0.005) ;;
  Rand.ret {| ra_revenueGrowth := ra_revenueGrowth acc ++ [g'];
              ra_ebitdaMargin := ra_ebitdaMargin acc ++ [m'];
              ra_depreciation := ra_depreciation acc ++ [Math_abs d'];
              ra_capex := ra_capex acc ++ [Math_abs c'];
              ra_workingCapitalChange := ra_workingCapitalChange acc ++ [w'] |}.

Definition generateRandomProjections (this : Model) (projections : Projections.t)
  : Rand.t Projections.t :=
  acc <~ Rand.forEach (randomYear projections)
           (seq 0 (Z.to_nat (projectionYears this)))
           {| ra_revenueGrowth := []; ra_ebitdaMargin := []; ra_depreciation := [];
              ra_capex := []; ra_workingCapitalChange := [] |} ;;
  Rand.ret {| Projections.revenueGrowth := Some (ra_revenueGrowth acc);
              Projections.ebitdaMargin := Some (ra_ebitdaMargin acc);
              Projections.depreciation := Some (ra_depreciation acc);
              Projections.capex := Some (ra_capex acc);
              Projections.workingCapitalChange := Some (ra_workingCapitalChange acc) |}.

(** The rates of one iteration (lines 144-151) from its two draws. *)
Definition randomDiscountRate (this : Model) (u : num) : num :=
  discountRate this + (u - dec 0.5) * dec 0.04.

Definition randomTerminalGrowth (this : Model) (u : num) : num :=
  terminalGrowthRate this + (u - dec 0.5) * dec 0.02.

Definition simulationModel (this : Model) (ud ut : num) : Model :=
  withRates this
    (Math_max (dec 0.05) (randomDiscountRate this ud))
    (Math_max zero (Math_min (dec 0.05) (randomTerminalGrowth this ut))).

(** One iteration of the simulation loop (lines 139-168): the instance and
    the samples so far go in and come out.  [generateRandomProjections] is
    called before the [try], so its exception leaves the loop. *)
Definition simulation (financialData : FinancialData.t)
    (projections : Projections.t) (st : Model * list Sample.t) (i : nat)
  : Rand.t (Model * list Sample.t) :=
  let (this, results) := st in
  randomProjections <~ generateRandomProjections this projections ;;
  ud <~ Rand.random ;;
  ut <~ Rand.random ;;
  let originalDiscount := discountRate this in
  let originalTerminal := terminalGrowthRate this in
  let this1 := simulationModel this ud ut in
  let results' :=
    match calculateDCF this1 financialData randomProjections with
    | Ok dcfResult =>
        (results ++ [ {| Sample.intrinsicValue := Result.intrinsicValue dcfResult;
                         Sample.upside := Result.upside dcfResult;
                         Sample.presentValue := Result.presentValue dcfResult |} ])%list
    | Throw _ => results
    end in
  Rand.ret (withRates this1 originalDiscount originalTerminal, results').

(** The two samples the statistics are computed on (lines 171-172). *)
Definition intrinsicValues (results : list Sample.t) : list num :=
  filter (fun v => v >? zero) (map Sample.intrinsicValue results).

Definition upsides (results : list Sample.t) : list num :=
  filter (fun v => negb (isNaN v)) (map Sample.upside results).

(** Lines 174-194. *)
Definition summarize (results : list Sample.t) : result MonteCarloResult.t :=
  let ivs := intrinsicValues results in
  let ups := upsides results in
  iMean <- stats_mean ivs ;;
  iMedian <- stats_median ivs ;;
  iStd <- stats_standardDeviation ivs ;;
  iP10 <- stats_quantile ivs (dec 0.1) ;;
  iP90 <- stats_quantile ivs (dec 0.9) ;;
  uMean <- stats_mean ups ;;
  uMedian <- stats_median ups ;;
  uStd <- stats_standardDeviation ups ;;
  uP10 <- stats_quantile ups (dec 0.1) ;;
  uP90 <- stats_quantile ups (dec 0.9) ;;
  Ok {| MonteCarloResult.simulations := List.length results;
        MonteCarloResult.intrinsicValue :=
          {| IntrinsicStats.mean := iMean; IntrinsicStats.median := iMedian;
             IntrinsicStats.std := iStd;
             IntrinsicStats.percentile10 := iP10;
             IntrinsicStats.percentile90 := iP90;
             IntrinsicStats.min := Math_min_list ivs;
             IntrinsicStats.max := Math_max_list ivs |};
        MonteCarloResult.upside :=
          {| UpsideStats.mean := uMean; UpsideStats.median := uMedian;
             UpsideStats.std := uStd;
             UpsideStats.percentile10 := uP10;
             UpsideStats.percentile90 := uP90 |};
        MonteCarloResult.probabilityOfPositiveUpside :=
          ofNat (List.length (filter (fun u => u >? zero) ups)) / ofNat (List.length ups);
        MonteCarloResult.results := firstn 100 results |}.

(** [simulations] is the requested number of iterations (10000 when the
    caller gives none). *)
Definition monteCarloDCF (this : Model) (financialData : FinancialData.t)
    (projections : Projections.t) (simulations : option Z)
  : Rand.t (Model * MonteCarloResult.t) :=
  let n := match simulations with Some n => n | None => 10000%Z end in
  st <~ Rand.forEach (simulation financialData projections)
          (seq 0 (Z.to_nat n)) (this, []) ;;
  r <~ Rand.lift (summarize (snd st)) ;;
  Rand.ret (fst st, r).

End MonteCarlo.

(** ** Cost of capital (lines 241-265) *)

Module WACCParams.
Record t : Type := {
  marketValueEquity : value;
  marketValueDebt : value;
  costOfEquity : value;
  costOfDebt : value;
  taxRate : value
}.
End WACCParams.

Definition calculateWACC (params : WACCParams.t) : num :=
  let marketValueEquity := toNumber (WACCParams.marketValueEquity params) in
  let marketValueDebt := toNumber (WACCParams.marketValueDebt params) in
  let costOfEquity := toNumber (WACCParams.costOfEquity params) in
  let costOfDebt := toNumber (WACCParams.costOfDebt params) in
  let taxRate := toNumber (WACCParams.taxRate params) in
  let totalValue := marketValueEquity + marketValueDebt in
  let equityWeight := marketValueEquity / totalValue in
  let debtWeight := marketValueDebt / totalValue in
  equityWeight * costOfEquity + debtWeight * costOfDebt * (one - taxRate).

Module CAPMParams.
Record t : Type := {
  riskFreeRate : value;
  beta : value;
  marketRiskPremium : value
}.
End CAPMParams.

Definition calculateCostOfEquity (params : CAPMParams.t) : num :=
  toNumber (CAPMParams.riskFreeRate params)
  + toNumber (CAPMParams.beta params)
    * toNumber (CAPMParams.marketRiskPremium params).

End DCF.

(* ================================================================== *)
(** * LBOModel.js                                                       *)
(* ================================================================== *)

Module LBO.

Module Options.
Record t : Type := {
    targetIRR : value;
    holdPeriod : option Z;
    maxDebtMultiple : value;
    minEquityContribution : value
  }.
End Options.

Record Model : Type := {
  targetIRR : num;
  holdPeriod : Z;
  maxDebtMultiple : num;
  minEquityContribution : num
}.

Definition constructor (options : Options.t) : Model :=
  {| targetIRR := Options.targetIRR options ||| dec 0.20;
     holdPeriod :=
       match Options.holdPeriod options with
       | Some n => if (n =? 0)%Z then 5%Z else n
       | None => 5%Z
       end;
     maxDebtMultiple := Options.maxDebtMultiple options ||| dec 6.0;
     minEquityContribution := Options.minEquityContribution options ||| dec 0.3 |}.

Module InterestRates.
Record t : Type := {
    weighted : value;
    termLoanA : value;
    termLoanB : value;
    subordinated : value
  }.
(** [{}] *)
Definition empty : t :=
    {| weighted := None; termLoanA := None; termLoanB := None;
       subordinated := None |}.
End InterestRates.

Module DealParams.
Record t : Type := {
    enterpriseValue : value;
    ebitda : value;
    debtMultiple : value;
    revolver : value;
    termLoanA : value;
    termLoanB : value;
    subordinatedDebt : value;
    exitMultiple : value;
    revenueGrowth : option (list num);
    ebitdaMargin : option (list num);
    capexAsPercentOfRevenue : option (list num);
    workingCapitalChange : option (list num);
    fees : value;
    baseRevenue : value;
    interestRates : option InterestRates.t;
    taxRate : value;
    debtPaydownRate : value
  }.
End DealParams.

Module CreditMetrics.
Record t : Type := {
    debtToEbitda : num;
    ebitdaToInterest : num;
    fcfToDebt : num
  }.
End CreditMetrics.

Module YearProjection.
Record t : Type := {
    year : nat;
    revenue : num;
    ebitda : num;
    ebit : num;
    netIncome : num;
    freeCashFlow : num;
    debtBalance : num;
    debtPaydown : num;
    cashToSponsor : num;
    creditMetrics : CreditMetrics.t
  }.
End YearProjection.

Module Sources.
Record t : Type := {
    revolver : num;
    termLoanA : num;
    termLoanB : num;
    subordinatedDebt : num;
    totalDebt : num;
    equityContribution : num;
    totalSources : num
  }.
End Sources.

Module Uses.
Record t : Type := {
    enterpriseValue : num;
    fees : num;
    totalUses : num
  }.
End Uses.

Module Returns.
Record t : Type := {
    entryEquity : num;
    exitEquityValue : num;
    totalCashDistributed : num;
    totalCashReturned : num;
    totalMultiple : num;
    irr : num;
    exitMultiple : num;
    exitEbitda : num
  }.
End Returns.

Module CreditSummary.
Record t : Type := {
    entryDebtToEbitda : num;
    maxDebtToEbitda : num;
    minEbitdaToInterest : num;
    debtPaydownOverHoldPeriod : num;
    debtPaydownPercent : num
  }.
End CreditSummary.

Module KeyMetrics.
Record t : Type := {
    meetsTaxgetIRR : bool;
    leverageWithinLimits : bool;
    adequateEquityBuffer : bool;
    riskAdjustedReturn : num
  }.
End KeyMetrics.

Module Result.
Record t : Type := {
    sources : Sources.t;
    uses : Uses.t;
    returns : Returns.t;
    creditMetrics : CreditSummary.t;
    projections : list YearProjection.t;
    keyMetrics : KeyMetrics.t
  }.
End Result.

(** ** Interest expense (lines 161-168) *)

Definition calculateInterestExpense (totalDebt : num)
    (interestRates : InterestRates.t) : num :=
  let blended :=
    toNumber (InterestRates.termLoanA interestRates) * dec 0.3
    + toNumber (InterestRates.termLoanB interestRates) * dec 0.5
    + toNumber (InterestRates.subordinated interestRates) * dec 0.2 in
  let avgRate :=
    orValue (InterestRates.weighted interestRates) (Some blended) ||| dec 0.08 in
  totalDebt * avgRate.

(** ** Internal rate of return by Newton-Raphson (lines 177-211) *)

Definition maxIterations : nat := 1000.
Definition tolerance : num := dec 0.000001.

(** [[-initialInvestment, ...cashFlows]] with [terminalValue] added to its
    last entry. *)
Definition allCashFlows (initialInvestment : num) (cashFlows : list num)
    (terminalValue : num) : list num :=
  let flows := neg initialInvestment :: cashFlows in
  (removelast flows ++ [last flows NaN + terminalValue])%list.

(** The inner [for] loop: the net present value and its derivative at
    [rate], accumulated over the indexed cash flows. *)
Definition npvStep (rate : num) (acc : num * num) (entry : nat * num)
  : num * num :=
  let (npv, npvDerivative) := acc in
  let (i, cf) := entry in
  let denominator := Math_pow (one + rate) (Z.of_nat i) in
  (npv + cf / denominator,
   npvDerivative - ofNat i * cf / Math_pow (one + rate) (Z.of_nat (i + 1))).

Definition indexed (flows : list num) : list (nat * num) :=
  combine (seq 0 (List.length flows)) flows.

Definition npvAndDerivative (flows : list num) (rate : num) : num * num :=
  fold_left (npvStep rate) (indexed flows) (zero, zero).

Definition NPV (flows : list num) (rate : num) : num :=
  fst (npvAndDerivative flows rate).

Definition NPV' (flows : list num) (rate : num) : num :=
  snd (npvAndDerivative flows rate).

(** The [while] loop, by recursion on [maxIterations - iteration]: when no
    iteration remains the loop condition fails and line 206 throws. *)
Fixpoint newton (flows : list num) (remaining : nat) (rate : num) : result num :=
  match remaining with
  | O => Throw "IRR calculation failed: maximum iterations reached"
  | S remaining' =>
      let npv := NPV flows rate in
      let npvDerivative := NPV' flows rate in
      if Math_abs npv <? tolerance then Ok rate
      else if Math_abs npvDerivative <? tolerance
      then Throw "IRR calculation failed: derivative too small"
      else newton flows remaining' (rate - npv / npvDerivative)
  end.

Definition calculateIRR (initialInvestment : num) (cashFlows : list num)
    (terminalValue : num) : result num :=
  newton (allCashFlows initialInvestment cashFlows terminalValue)
    maxIterations (dec 0.15).

(** ** Point estimate (lines 18-153) *)

(** Body of the projection loop (lines 71-102) for one [year]:
    [currentRevenue] is the baseline, [currentDebt] the balance carried
    from the year before. *)
Definition projectYear (dealParams : DealParams.t) (currentRevenue : num)
    (currentDebt : num) (year : nat) : result YearProjection.t :=
  revenue <-
    (if Nat.eqb year 0 then Ok currentRevenue
     else
       g <- read (DealParams.revenueGrowth dealParams) (year - 1) ;;
       Ok (currentRevenue * Math_pow (one + toNumber g) (Z.of_nat year))) ;;
  m <- read (DealParams.ebitdaMargin dealParams) year ;;
  m0 <- (if truthy m then Ok m else read (DealParams.ebitdaMargin dealParams) 0) ;;
  let ebitdaAmount := revenue * toNumber m0 in
  c <- read (DealParams.capexAsPercentOfRevenue dealParams) year ;;
  let capex := revenue * (c ||| dec 0.03) in
  let depreciation := capex in
  let ebit := ebitdaAmount - depreciation in
  let interest :=
    calculateInterestExpense currentDebt
      (match DealParams.interestRates dealParams with
       | Some r => r
       | None => InterestRates.empty
       end) in
  let ebt := ebit - interest in
  let taxes := Math_max zero (ebt * (DealParams.taxRate dealParams ||| dec 0.25)) in
  let netIncome := ebt - taxes in
  w <- read (DealParams.workingCapitalChange dealParams) year ;;
  let freeCashFlow := netIncome + depreciation - capex - (w ||| zero) in
  let debtPaydown :=
    Math_max zero (freeCashFlow * (DealParams.debtPaydownRate dealParams ||| dec 0.5)) in
  let cashToSponsor := freeCashFlow - debtPaydown in
  let currentDebt' := Math_max zero (currentDebt - debtPaydown) in
  Ok {| YearProjection.year := year;
        YearProjection.revenue := revenue;
        YearProjection.ebitda := ebitdaAmount;
        YearProjection.ebit := ebit;
        YearProjection.netIncome := netIncome;
        YearProjection.freeCashFlow := freeCashFlow;
        YearProjection.debtBalance := currentDebt';
        YearProjection.debtPaydown := debtPaydown;
        YearProjection.cashToSponsor := cashToSponsor;
        YearProjection.creditMetrics :=
          {| CreditMetrics.debtToEbitda := currentDebt' / ebitdaAmount;
             CreditMetrics.ebitdaToInterest := ebitdaAmount / interest;
             CreditMetrics.fcfToDebt := freeCashFlow / currentDebt' |} |}.

(** The variables the loop updates. *)
Record LoopState : Type := {
  projected : list YearProjection.t;
  currentDebt : num
}.

Definition loopBody (dealParams : DealParams.t) (currentRevenue : num)
    (st : LoopState) (year : nat) : result LoopState :=
  p <- projectYear dealParams currentRevenue (currentDebt st) year ;;
  Ok {| projected := projected st ++ [p];
        currentDebt := YearProjection.debtBalance p |}.

(** [for (let year = 0; year <= this.holdPeriod; year++)]. *)
Definition years (this : Model) : list nat :=
  seq 0 (Z.to_nat (holdPeriod this + 1)).

Definition calculateLBO_body (this : Model) (dealParams : DealParams.t)
  : result Result.t :=
  let enterpriseValue := toNumber (DealParams.enterpriseValue dealParams) in
  let ebitda := toNumber (DealParams.ebitda dealParams) in
  let exitMultiple := toNumber (DealParams.exitMultiple dealParams) in
  let revolver := DealParams.revolver dealParams ||| zero in
  let termLoanA := DealParams.termLoanA dealParams ||| zero in
  let termLoanB := DealParams.termLoanB dealParams ||| zero in
  let subordinatedDebt := DealParams.subordinatedDebt dealParams ||| zero in
  let fees := DealParams.fees dealParams ||| zero in
  (* Sources and Uses *)
  let totalDebt := revolver + termLoanA + termLoanB + subordinatedDebt in
  let equityContribution := enterpriseValue - totalDebt + fees in
  (* Financial Projections *)
  currentRevenue <-
    (if truthy (DealParams.baseRevenue dealParams)
     then Ok (toNumber (DealParams.baseRevenue dealParams))
     else
       m <- read (DealParams.ebitdaMargin dealParams) 0 ;;
       Ok (ebitda / (m ||| dec 0.2))) ;;
  st <- forEach (loopBody dealParams currentRevenue) (years this)
          {| projected := []; currentDebt := totalDebt |} ;;
  let projections := projected st in
  (* Exit Analysis *)
  match indexZ projections (holdPeriod this) with
  | None => Throw "Cannot read properties of undefined"
  | Some exit =>
      let exitEbitda := YearProjection.ebitda exit in
      let exitEnterpriseValue := exitEbitda * exitMultiple in
      let exitDebt := YearProjection.debtBalance exit in
      let exitEquityValue := exitEnterpriseValue - exitDebt in
      (* Return Calculations *)
      let sponsorFlows := map YearProjection.cashToSponsor (tl projections) in
      let totalCashDistributed := fold_left add sponsorFlows zero in
      let totalCashReturned := totalCashDistributed + exitEquityValue in
      let totalMultiple := totalCashReturned / equityContribution in
      irr <- calculateIRR equityContribution sponsorFlows exitEquityValue ;;
      (* Key Credit Metrics *)
      let maxDebtToEbitda :=
        Math_max_list
          (map (fun p => CreditMetrics.debtToEbitda (YearProjection.creditMetrics p))
             projections) in
      let minEbitdaToInterest :=
        Math_min_list
          (map (fun p => CreditMetrics.ebitdaToInterest (YearProjection.creditMetrics p))
             projections) in
      Ok {| Result.sources :=
              {| Sources.revolver := revolver;
                 Sources.termLoanA := termLoanA;
                 Sources.termLoanB := termLoanB;
                 Sources.subordinatedDebt := subordinatedDebt;
                 Sources.totalDebt := totalDebt;
                 Sources.equityContribution := equityContribution;
                 Sources.totalSources := totalDebt + equityContribution |};
            Result.uses :=
              {| Uses.enterpriseValue := enterpriseValue;
                 Uses.fees := fees;
                 Uses.totalUses := enterpriseValue + fees |};
            Result.returns :=
              {| Returns.entryEquity := equityContribution;
                 Returns.exitEquityValue := exitEquityValue;
                 Returns.totalCashDistributed := totalCashDistributed;
                 Returns.totalCashReturned := totalCashReturned;
                 Returns.totalMultiple := totalMultiple;
                 Returns.irr := irr;
                 Returns.exitMultiple := exitMultiple;
                 Returns.exitEbitda := exitEbitda |};
            Result.creditMetrics :=
              {| CreditSummary.entryDebtToEbitda := totalDebt / ebitda;
                 CreditSummary.maxDebtToEbitda := maxDebtToEbitda;
                 CreditSummary.minEbitdaToInterest := minEbitdaToInterest;
                 CreditSummary.debtPaydownOverHoldPeriod := totalDebt - exitDebt;
                 CreditSummary.debtPaydownPercent := (totalDebt - exitDebt) / totalDebt |};
            Result.projections := projections;
            Result.keyMetrics :=
              {| KeyMetrics.meetsTaxgetIRR := irr >=? targetIRR this;
                 KeyMetrics.leverageWithinLimits :=
                   maxDebtToEbitda <=? maxDebtMultiple this;
                 KeyMetrics.adequateEquityBuffer :=
                   equityContribution / enterpriseValue >=? minEquityContribution this;
                 KeyMetrics.riskAdjustedReturn := irr / (maxDebtToEbitda / dec 6.0) |} |}
  end.

Definition calculateLBO (this : Model) (dealParams : DealParams.t)
  : result Result.t :=
  rethrow "LBO calculation failed: " (calculateLBO_body this dealParams).

(** ** Sensitivity grid (lines 219-249) *)

Module Ranges.
Record t : Type := {
    exitMultiples : option (list num);
    revenueGrowthRates : option (list num)
  }.
End Ranges.

Module Row.
Record t : Type := {
    exitMultiple : num;
    revenueGrowth : num;
    irr : num;
    totalMultiple : num;
    maxLeverage : num
  }.
End Row.

Definition defaultExitMultiples : list num := map dec [8; 9; 10; 11; 12]%Q.
Definition defaultRevenueGrowthRates : list num :=
  map dec [0.03; 0.05; 0.07; 0.09; 0.11]%Q.

(** [{ ...dealParams, exitMultiple, revenueGrowth }]. *)
Definition withExitAndGrowth (dealParams : DealParams.t) (exitMultiple' : value)
    (revenueGrowth' : option (list num)) : DealParams.t :=
  {| DealParams.enterpriseValue := DealParams.enterpriseValue dealParams;
     DealParams.ebitda := DealParams.ebitda dealParams;
     DealParams.debtMultiple := DealParams.debtMultiple dealParams;
     DealParams.revolver := DealParams.revolver dealParams;
     DealParams.termLoanA := DealParams.termLoanA dealParams;
     DealParams.termLoanB := DealParams.termLoanB dealParams;
     DealParams.subordinatedDebt := DealParams.subordinatedDebt dealParams;
     DealParams.exitMultiple := exitMultiple';
     DealParams.revenueGrowth := revenueGrowth';
     DealParams.ebitdaMargin := DealParams.ebitdaMargin dealParams;
     DealParams.capexAsPercentOfRevenue := DealParams.capexAsPercentOfRevenue dealParams;
     DealParams.workingCapitalChange := DealParams.workingCapitalChange dealParams;
     DealParams.fees := DealParams.fees dealParams;
     DealParams.baseRevenue := DealParams.baseRevenue dealParams;
     DealParams.interestRates := DealParams.interestRates dealParams;
     DealParams.taxRate := DealParams.taxRate dealParams;
     DealParams.debtPaydownRate := DealParams.debtPaydownRate dealParams |}.

Definition withEbitdaMargin (dealParams : DealParams.t)
    (ebitdaMargin' : option (list num)) : DealParams.t :=
  {| DealParams.enterpriseValue := DealParams.enterpriseValue dealParams;
     DealParams.ebitda := DealParams.ebitda dealParams;
     DealParams.debtMultiple := DealParams.debtMultiple dealParams;
     DealParams.revolver := DealParams.revolver dealParams;
     DealParams.termLoanA := DealParams.termLoanA dealParams;
     DealParams.termLoanB := DealParams.termLoanB dealParams;
     DealParams.subordinatedDebt := DealParams.subordinatedDebt dealParams;
     DealParams.exitMultiple := DealParams.exitMultiple dealParams;
     DealParams.revenueGrowth := DealParams.revenueGrowth dealParams;
     DealParams.ebitdaMargin := ebitdaMargin';
     DealParams.capexAsPercentOfRevenue := DealParams.capexAsPercentOfRevenue dealParams;
     DealParams.workingCapitalChange := DealParams.workingCapitalChange dealParams;
     DealParams.fees := DealParams.fees dealParams;
     DealParams.baseRevenue := DealParams.baseRevenue dealParams;
     DealParams.interestRates := DealParams.interestRates dealParams;
     DealParams.taxRate := DealParams.taxRate dealParams;
     DealParams.debtPaydownRate := DealParams.debtPaydownRate dealParams |}.

(** One cell of the grid: the parameters are rebuilt before the [try], the
    point estimate runs inside it, and a failed cell adds no row. *)
Definition sensitivityCell (this : Model) (dealParams : DealParams.t)
    (exitMultiple' : num) (results : list Row.t) (revenueGrowth' : num)
  : result (list Row.t) :=
  filled <- arrayFill (holdPeriod this) revenueGrowth' ;;
  let modifiedParams :=
    withExitAndGrowth dealParams (Some exitMultiple') (Some filled) in
  match calculateLBO this modifiedParams with
  | Ok lboResult =>
      Ok (results ++
          [ {| Row.exitMultiple := exitMultiple';
               Row.revenueGrowth := revenueGrowth';
               Row.irr := Returns.irr (Result.returns lboResult);
               Row.totalMultiple := Returns.totalMultiple (Result.returns lboResult);
               Row.maxLeverage :=
                 CreditSummary.maxDebtToEbitda (Result.creditMetrics lboResult) |} ])
  | Throw _ => Ok results
  end.

Definition sensitivityAnalysis (this : Model) (dealParams : DealParams.t)
    (sensitivityRanges : Ranges.t) : result (list Row.t) :=
  let exitMultiples :=
    match Ranges.exitMultiples sensitivityRanges with
    | Some l => l
    | None => defaultExitMultiples
    end in
  let revenueGrowthRates :=
    match Ranges.revenueGrowthRates sensitivityRanges with
    | Some l => l
    | None => defaultRevenueGrowthRates
    end in
  forEach
    (fun results exitMultiple' =>
       forEach (sensitivityCell this dealParams exitMultiple')
         revenueGrowthRates results)
    exitMultiples [].

(** ** Monte Carlo simulation (lines 258-347) *)

Module Distribution.
Record t : Type := { mean : value; std : value }.
End Distribution.

Module Distributions.
Record t : Type := {
    exitMultiple : option Distribution.t;
    revenueGrowth : option Distribution.t;
    ebitdaMargin : option Distribution.t
  }.
End Distributions.

Module Sample.
Record t : Type := {
    irr : num;
    totalMultiple : num;
    maxLeverage : num;
    exitEquityValue : num
  }.
End Sample.

Module Stats5.
Record t : Type := {
    mean : num; median : num; std : num;
    percentile10 : num; percentile90 : num
  }.
End Stats5.

Module Stats3.
Record t : Type := { mean : num; median : num; std : num }.
End Stats3.

Module MonteCarloResult.
Record t : Type := {
    simulations : nat;
    irr : Stats5.t;
    multiple : Stats5.t;
    maxLeverage : Stats3.t;
    probabilityOfTargetIRR : num;
    results : list Sample.t
  }.
End MonteCarloResult.

Section MonteCarlo.

Context `{MathLib} `{StatsLib} `{RandomSource}.

(** Lines 342-347, the same transformation as in the DCF model. *)
Definition normalRandom (mean std : num) : Rand.t num :=
  u1 <~ Rand.random ;;
  u2 <~ Rand.random ;;
  let z0 :=
    Math_sqrt (dec (-2) * Math_log u1) * Math_cos (dec 2 * Math_PI * u2) in
  Rand.ret (mean + z0 * std).

(** [Array(n).fill(null).map(() => this.normalRandom(mean, std))]. *)
Definition randomArray (n : Z) (d : Distribution.t) : Rand.t (list num) :=
  blank <~ Rand.lift (arrayFill n NaN) ;;
  Rand.forEach
    (fun acc _ =>
       x <~ normalRandom (toNumber (Distribution.mean d))
              (toNumber (Distribution.std d)) ;;
       Rand.ret (acc ++ [x]))
    blank [].

Definition generateRandomLBOParams (this : Model) (baseParams : DealParams.t)
    (distributions : option Distributions.t) : Rand.t DealParams.t :=
  match distributions with
  | None => Rand.lift (Throw "Cannot read properties of undefined")
  | Some ds =>
      p1 <~ match Distributions.exitMultiple ds with
            | Some d =>
                x <~ normalRandom (toNumber (Distribution.mean d))
                       (toNumber (Distribution.std d)) ;;
                Rand.ret (withExitAndGrowth baseParams (Some x)
                            (DealParams.revenueGrowth baseParams))
            | None => Rand.ret baseParams
            end ;;
      p2 <~ match Distributions.revenueGrowth ds with
            | Some d =>
                xs <~ randomArray (holdPeriod this) d ;;
                Rand.ret (withExitAndGrowth p1 (DealParams.exitMultiple p1) (Some xs))
            | None => Rand.ret p1
            end ;;
      match Distributions.ebitdaMargin ds with
      | Some d =>
          xs <~ randomArray (holdPeriod this + 1) d ;;
          Rand.ret (withEbitdaMargin p2 (Some xs))
      | None => Rand.ret p2
      end
  end.

(** One iteration (lines 262-274): everything is inside the [try]. *)
Definition simulation (this : Model) (dealParams : DealParams.t)
    (distributions : option Distributions.t) (results : list Sample.t) (i : nat)
  : Rand.t (list Sample.t) :=
  attempt <~ Rand.try
    (randomParams <~ generateRandomLBOParams this dealParams distributions ;;
     Rand.lift (calculateLBO this randomParams)) ;;
  match attempt with
  | Ok lboResult =>
      Rand.ret (results ++
        [ {| Sample.irr := Returns.irr (Result.returns lboResult);
             Sample.totalMultiple := Returns.totalMultiple (Result.returns lboResult);
             Sample.maxLeverage :=
               CreditSummary.maxDebtToEbitda (Result.creditMetrics lboResult);
             Sample.exitEquityValue :=
               Returns.exitEquityValue (Result.returns lboResult) |} ])
  | Throw _ => Rand.ret results
  end.

Definition notNaN (xs : list num) : list num :=
  filter (fun v => negb (isNaN v)) xs.

Definition stats5 (xs : list num) : result Stats5.t :=
  mean <- stats_mean xs ;;
  median <- stats_median xs ;;
  std <- stats_standardDeviation xs ;;
  p10 <- stats_quantile xs (dec 0.1) ;;
  p90 <- stats_quantile xs (dec 0.9) ;;
  Ok {| Stats5.mean := mean; Stats5.median := median; Stats5.std := std;
        Stats5.percentile10 := p10; Stats5.percentile90 := p90 |}.

(** Lines 277-305. *)
Definition summarize (this : Model) (results : list Sample.t)
  : result MonteCarloResult.t :=
  let irrs := notNaN (map Sample.irr results) in
  let multiples := notNaN (map Sample.totalMultiple results) in
  let leverages := notNaN (map Sample.maxLeverage results) in
  irrStats <- stats5 irrs ;;
  multipleStats <- stats5 multiples ;;
  lMean <- stats_mean leverages ;;
  lMedian <- stats_median leverages ;;
  lStd <- stats_standardDeviation leverages ;;
  Ok {| MonteCarloResult.simulations := List.length results;
        MonteCarloResult.irr := irrStats;
        MonteCarloResult.multiple := multipleStats;
        MonteCarloResult.maxLeverage :=
          {| Stats3.mean := lMean; Stats3.median := lMedian; Stats3.std := lStd |};
        MonteCarloResult.probabilityOfTargetIRR :=
          ofNat (List.length (filter (fun irr => irr >=? targetIRR this) irrs))
          / ofNat (List.length irrs);
        MonteCarloResult.results := firstn 100 results |}.

(** [simulations] is the requested number of iterations (5000 when the
    caller gives none). *)
Definition monteCarioLBO (this : Model) (dealParams : DealParams.t)
    (distributions : option Distributions.t) (simulations : option Z)
  : Rand.t MonteCarloResult.t :=
  let n := match simulations with Some n => n | None => 5000%Z end in
  results <~ Rand.forEach (simulation this dealParams distributions)
               (seq 0 (Z.to_nat n)) [] ;;
  Rand.lift (summarize this results).

End MonteCarlo.

End LBO.

(* ================================================================== *)
(** * Specification vocabulary                                          *)
(* ================================================================== *)

Module DCFSpec.
Import DCF.

(** The records of consecutive years, each computed by [projectYear] from
    the revenue of the record before it ([prev] for the first). *)
Fixpoint Chain (this : Model) (p : Projections.t) (prev : num) (y : nat)
    (recs : list YearRecord.t) : Prop :=
  match recs with
  | [] => True
  | r :: rs =>
      projectYear this p prev y = Ok r
      /\ Chain this p (YearRecord.revenue r) (S y) rs
  end.

(** Revenue that year [y] (counted from 1) starts from. *)
Definition previousRevenue (fd : FinancialData.t) (recs : list YearRecord.t)
    (y : nat) : num :=
  match y with
  | O | S O => FinancialData.revenue fd ||| zero
  | S (S j) => match nth_error recs j with
               | Some r => YearRecord.revenue r
               | None => NaN
               end
  end.

(** All five projection arrays are supplied. *)
Definition complete (p : Projections.t) : Prop :=
  Projections.revenueGrowth p <> None
  /\ Projections.ebitdaMargin p <> None
  /\ Projections.depreciation p <> None
  /\ Projections.capex p <> None
  /\ Projections.workingCapitalChange p <> None.

(** Entry of year [y] (counted from 1) of an array, [undefined] when the
    array or the entry is absent. *)
Definition entry (a : option (list num)) (y : nat) : value :=
  match a with
  | Some l => index l (y - 1)
  | None => None
  end.

(** The sum [0 + x1 + ... + xn] as the loop accumulates it. *)
Definition sum (xs : list num) : num := fold_left add xs zero.

(** The assumptions of year [y] as the loop body reads them: the entry
    when it is truthy, the default of the source otherwise. *)
Definition growthOf (p : Projections.t) (y : nat) : num :=
  entry (Projections.revenueGrowth p) y ||| zero.
Definition marginOf (p : Projections.t) (y : nat) : num :=
  entry (Projections.ebitdaMargin p) y ||| dec 0.15.
Definition depreciationOf (p : Projections.t) (y : nat) (revenue : num) : num :=
  entry (Projections.depreciation p) y ||| revenue * dec 0.03.
Definition capexOf (p : Projections.t) (y : nat) (revenue : num) : num :=
  entry (Projections.capex p) y ||| revenue * dec 0.04.
Definition workingCapitalChangeOf (p : Projections.t) (y : nat) : num :=
  entry (Projections.workingCapitalChange p) y ||| zero.

(** Only finite numbers among the assumptions. *)
Definition allFinite (a : option (list num)) : Prop :=
  match a with
  | Some l => Forall (fun x => isFinite x = true) l
  | None => True
  end.

Definition finiteAssumptions (this : Model) (p : Projections.t) : Prop :=
  isFinite (taxRate this) = true
  /\ allFinite (Projections.revenueGrowth p)
  /\ allFinite (Projections.ebitdaMargin p)
  /\ allFinite (Projections.depreciation p)
  /\ allFinite (Projections.capex p)
  /\ allFinite (Projections.workingCapitalChange p).

(** The sample recorded for a result (lines 155-159). *)
Definition sampleOf (d : Result.t) : Sample.t :=
  {| Sample.intrinsicValue := Result.intrinsicValue d;
     Sample.upside := Result.upside d;
     Sample.presentValue := Result.presentValue d |}.

(** The samples after one evaluation: one more when it succeeded. *)
Definition record (results : list Sample.t) (outcome : result Result.t)
  : list Sample.t :=
  match outcome with
  | Ok d => results ++ [sampleOf d]
  | Throw _ => results
  end.

(** An entry that the source replaces by its default: a zero, or none. *)
Definition zeroOrMissing (v : value) : Prop := v = Some zero \/ v = None.

(** [|x - y| <= eps]. *)
Definition within (x y eps : num) : bool := Math_abs (x - y) <=? eps.

End DCFSpec.

(** ** Inputs used as examples *)

Module DCFExamples.
Import DCF.

(** [new DCFModel()]. *)
Definition defaultModel : Model :=
  constructor {| Options.discountRate := None;
                 Options.terminalGrowthRate := None;
                 Options.projectionYears := None;
                 Options.taxRate := None |}.

(** The data of the analytics test of the setup script. *)
Definition testFinancialData : FinancialData.t :=
  {| FinancialData.revenue := Some (dec 1000);
     FinancialData.sharesOutstanding := Some (dec 100);
     FinancialData.currentPrice := Some (dec 150) |}.

(** The same company with no shares on record, and with no quoted price. *)
Definition noShares : FinancialData.t :=
  {| FinancialData.revenue := Some (dec 1000);
     FinancialData.sharesOutstanding := Some (dec 0);
     FinancialData.currentPrice := Some (dec 150) |}.

Definition noPrice : FinancialData.t :=
  {| FinancialData.revenue := Some (dec 1000);
     FinancialData.sharesOutstanding := Some (dec 100);
     FinancialData.currentPrice := Some (dec 0) |}.

Definition testProjections : Projections.t :=
  {| Projections.revenueGrowth := Some (map dec [0.05; 0.04; 0.03; 0.03; 0.02]%Q);
     Projections.ebitdaMargin := Some (map dec [0.20; 0.21; 0.22; 0.22; 0.23]%Q);
     Projections.depreciation := Some (map dec [30; 32; 34; 36; 38]%Q);
     Projections.capex := Some (map dec [40; 38; 36; 34; 32]%Q);
     Projections.workingCapitalChange := Some (map dec [5; 3; 2; 1; 0]%Q) |}.

(** [new DCFModel({ discountRate: 0.02, terminalGrowthRate: 0.03 })]. *)
Definition invertedRates : Model :=
  constructor {| Options.discountRate := Some (dec 0.02);
                 Options.terminalGrowthRate := Some (dec 0.03);
                 Options.projectionYears := None;
                 Options.taxRate := None |}.

(** [new DCFModel({ discountRate: 0.03, terminalGrowthRate: 0.03 })]. *)
Definition equalRates : Model :=
  constructor {| Options.discountRate := Some (dec 0.03);
                 Options.terminalGrowthRate := Some (dec 0.03);
                 Options.projectionYears := None;
                 Options.taxRate := None |}.

(** [new DCFModel({ projectionYears: 1 })]. *)
Definition oneYear : Model :=
  constructor {| Options.discountRate := None;
                 Options.terminalGrowthRate := None;
                 Options.projectionYears := Some 1%Z;
                 Options.taxRate := None |}.

(** One year with an EBITDA margin of zero. *)
Definition zeroMargin : Projections.t :=
  {| Projections.revenueGrowth := Some [dec 0.05];
     Projections.ebitdaMargin := Some [dec 0];
     Projections.depreciation := Some [dec 30];
     Projections.capex := Some [dec 40];
     Projections.workingCapitalChange := Some [dec 5] |}.

(** One year whose free cash flow is 100: revenue 1000, EBITDA 200,
    EBIT 170, NOPAT 127.5, and 127.5 + 30 - 57.5 - 0 = 100. *)
Definition cashFlow100 : Projections.t :=
  {| Projections.revenueGrowth := Some [dec 0];
     Projections.ebitdaMargin := Some [dec 0.2];
     Projections.depreciation := Some [dec 30];
     Projections.capex := Some [dec 57.5];
     Projections.workingCapitalChange := Some [dec 0] |}.

(** One year with a zero entry in each of margin, depreciation and capex. *)
Definition zeroEntries : Projections.t :=
  {| Projections.revenueGrowth := Some [dec 0.05];
     Projections.ebitdaMargin := Some [dec 0];
     Projections.depreciation := Some [dec 0];
     Projections.capex := Some [dec 0];
     Projections.workingCapitalChange := Some [dec 5] |}.

(** Projections of a caller that leaves the optional arrays out. *)
Definition growthAndMarginOnly : Projections.t :=
  {| Projections.revenueGrowth := Some (map dec [0.05; 0.04; 0.03; 0.03; 0.02]%Q);
     Projections.ebitdaMargin := Some (map dec [0.20; 0.21; 0.22; 0.22; 0.23]%Q);
     Projections.depreciation := None;
     Projections.capex := None;
     Projections.workingCapitalChange := None |}.

Definition defaultRanges : Ranges.t :=
  {| Ranges.discountRates := None; Ranges.terminalGrowthRates := None |}.

End DCFExamples.

(** The Box-Muller transformation of [normalRandom] read over the real
    numbers, where the square root, the logarithm and the cosine have their
    meaning. *)
Module Real.

(** The real value of a finite number. *)
Definition toR (x : num) : R :=
  match x with
  | Fin q => Q2R (this q)
  | _ => 0%R
  end.

(** [z0] of lines 230-232. *)
Definition boxMuller (u1 u2 : R) : R :=
  (sqrt (-2 * ln u1) * cos (2 * PI * u2))%R.

(** Line 233. *)
Definition normalRandom (mean std u1 u2 : R) : R :=
  (mean + boxMuller u1 u2 * std)%R.

(** The rates of a simulation as the specification describes them:
    the base rate plus a normal sample of standard deviation 0.04 floored
    at 5%, and the base rate plus a normal sample of standard deviation
    0.02 kept within 0% and 5%. *)
Definition normalDiscountRate (base u1 u2 : R) : R :=
  Rmax 0.05 (normalRandom base 0.04 u1 u2).

Definition normalTerminalGrowth (base u1 u2 : R) : R :=
  Rmax 0 (Rmin 0.05 (normalRandom base 0.02 u1 u2)).

End Real.

Module LBOSpec.
Import LBO.

(** The projections of consecutive years, each computed by [projectYear]
    from the constant [baseline] revenue and the debt balance of the
    projection before it ([debt] for the first). *)
Fixpoint Chain (dp : DealParams.t) (baseline : num) (debt : num) (y : nat)
    (recs : list YearProjection.t) : Prop :=
  match recs with
  | [] => True
  | r :: rs =>
      projectYear dp baseline debt y = Ok r
      /\ Chain dp baseline (YearProjection.debtBalance r) (S y) rs
  end.

(** [totalDebt] of the sources and uses. *)
Definition totalDebtOf (dp : DealParams.t) : num :=
  (DealParams.revolver dp ||| zero) + (DealParams.termLoanA dp ||| zero)
  + (DealParams.termLoanB dp ||| zero) + (DealParams.subordinatedDebt dp ||| zero).

(** The year-0 baseline revenue when its computation does not throw. *)
Definition baselineOf (dp : DealParams.t) (baseline : num) : Prop :=
  if truthy (DealParams.baseRevenue dp)
  then baseline = toNumber (DealParams.baseRevenue dp)
  else exists m,
      read (DealParams.ebitdaMargin dp) 0 = Ok m
      /\ baseline = toNumber (DealParams.ebitda dp) / (m ||| dec 0.2).

(** [revenueGrowth[y - 1]] as a number. *)
Definition growth (dp : DealParams.t) (y : nat) : num :=
  toNumber (DCFSpec.entry (DealParams.revenueGrowth dp) y).

(** [equityContribution] of the sources and uses. *)
Definition equityOf (dp : DealParams.t) : num :=
  toNumber (DealParams.enterpriseValue dp) - totalDebtOf dp
  + (DealParams.fees dp ||| zero).

(** The state the projection loop starts from. *)
Definition initial (dp : DealParams.t) : LoopState :=
  {| projected := []; currentDebt := totalDebtOf dp |}.

(** The interest charged in a year on the balance [debt]. *)
Definition interestOn (dp : DealParams.t) (debt : num) : num :=
  calculateInterestExpense debt
    (match DealParams.interestRates dp with
     | Some r => r
     | None => InterestRates.empty
     end).






(** The parameters of a cell of the sensitivity grid. *)
Definition cellParams (this : Model) (dp : DealParams.t) (em rg : num)
  : DealParams.t :=
  withExitAndGrowth dp (Some em)
    (Some (repeat rg (Z.to_nat (holdPeriod this)))).

(** The rows a cell contributes: one when its point estimate returns,
    none when it throws. *)
Definition cellRows (this : Model) (dp : DealParams.t) (em rg : num)
  : list Row.t :=
  match calculateLBO this (cellParams this dp em rg) with
  | Ok lboResult =>
      [ {| Row.exitMultiple := em;
           Row.revenueGrowth := rg;
           Row.irr := Returns.irr (Result.returns lboResult);
           Row.totalMultiple := Returns.totalMultiple (Result.returns lboResult);
           Row.maxLeverage :=
             CreditSummary.maxDebtToEbitda (Result.creditMetrics lboResult) |} ]
  | Throw _ => []
  end.

Definition derivativeTooSmall : string :=
  "IRR calculation failed: derivative too small".
Definition maximumIterationsReached : string :=
  "IRR calculation failed: maximum iterations reached".

End LBOSpec.

Module LBOExamples.
Import LBO.

(** [new LBOModel()]. *)
Definition defaultModel : Model :=
  constructor {| Options.targetIRR := None; Options.holdPeriod := None;
                 Options.maxDebtMultiple := None;
                 Options.minEquityContribution := None |}.

(** [new LBOModel({ holdPeriod: 1 })] and [new LBOModel({ holdPeriod: 2 })]. *)
Definition oneYearHold : Model :=
  constructor {| Options.targetIRR := None; Options.holdPeriod := Some 1%Z;
                 Options.maxDebtMultiple := None;
                 Options.minEquityContribution := None |}.

Definition twoYearHold : Model :=
  constructor {| Options.targetIRR := None; Options.holdPeriod := Some 2%Z;
                 Options.maxDebtMultiple := None;
                 Options.minEquityContribution := None |}.

(** The deal of the analytics test of the setup script. *)
Definition testDeal : DealParams.t :=
  {| DealParams.enterpriseValue := Some (dec 1000);
     DealParams.ebitda := Some (dec 100);
     DealParams.debtMultiple := None;
     DealParams.revolver := Some (dec 50);
     DealParams.termLoanA := Some (dec 200);
     DealParams.termLoanB := Some (dec 300);
     DealParams.subordinatedDebt := None;
     DealParams.exitMultiple := Some (dec 10);
     DealParams.revenueGrowth := Some (map dec [0.05; 0.04; 0.03; 0.03; 0.02]%Q);
     DealParams.ebitdaMargin := Some (map dec [0.20; 0.21; 0.22; 0.22; 0.23]%Q);
     DealParams.capexAsPercentOfRevenue :=
       Some (map dec [0.04; 0.04; 0.03; 0.03; 0.03]%Q);
     DealParams.workingCapitalChange := Some (map dec [5; 3; 2; 1; 0]%Q);
     DealParams.fees := None;
     DealParams.baseRevenue := Some (dec 500);
     DealParams.interestRates := None;
     DealParams.taxRate := None;
     DealParams.debtPaydownRate := None |}.

(** The same deal without an enterprise value. *)
Definition noEnterpriseValue : DealParams.t :=
  {| DealParams.enterpriseValue := None;
     DealParams.ebitda := Some (dec 100);
     DealParams.debtMultiple := None;
     DealParams.revolver := Some (dec 50);
     DealParams.termLoanA := Some (dec 200);
     DealParams.termLoanB := Some (dec 300);
     DealParams.subordinatedDebt := None;
     DealParams.exitMultiple := Some (dec 10);
     DealParams.revenueGrowth := Some (map dec [0.05; 0.04; 0.03; 0.03; 0.02]%Q);
     DealParams.ebitdaMargin := Some (map dec [0.20; 0.21; 0.22; 0.22; 0.23]%Q);
     DealParams.capexAsPercentOfRevenue :=
       Some (map dec [0.04; 0.04; 0.03; 0.03; 0.03]%Q);
     DealParams.workingCapitalChange := Some (map dec [5; 3; 2; 1; 0]%Q);
     DealParams.fees := None;
     DealParams.baseRevenue := Some (dec 500);
     DealParams.interestRates := None;
     DealParams.taxRate := None;
     DealParams.debtPaydownRate := None |}.

(** The same deal with an EBITDA margin of zero in year 0. *)
Definition zeroEbitdaDeal : DealParams.t :=
  withEbitdaMargin testDeal (Some (map dec [0; 0.21; 0.22; 0.22; 0.23]%Q)).

End LBOExamples.

(** ** Vocabulary for the grids, the simulations and the cost of capital *)

Module GridSpec.

(** The projections cut to their first [n] entries. *)
Definition truncated (n : nat) (p : DCF.Projections.t) : DCF.Projections.t :=
  {| DCF.Projections.revenueGrowth :=
       option_map (firstn n) (DCF.Projections.revenueGrowth p);
     DCF.Projections.ebitdaMargin :=
       option_map (firstn n) (DCF.Projections.ebitdaMargin p);
     DCF.Projections.depreciation :=
       option_map (firstn n) (DCF.Projections.depreciation p);
     DCF.Projections.capex :=
       option_map (firstn n) (DCF.Projections.capex p);
     DCF.Projections.workingCapitalChange :=
       option_map (firstn n) (DCF.Projections.workingCapitalChange p) |}.

(** The row of the DCF grid for a result at a pair of rates. *)
Definition rowOf (dr tg : num) (d : DCF.Result.t) : DCF.Row.t :=
  {| DCF.Row.discountRate := dr;
     DCF.Row.terminalGrowthRate := tg;
     DCF.Row.intrinsicValue := DCF.Result.intrinsicValue d;
     DCF.Row.upside := DCF.Result.upside d |}.

(** A row is the one of its cell: it carries the rates of the cell and the
    values of the point estimate at those rates. *)
Definition rowAt (this : DCF.Model) (fd : DCF.FinancialData.t)
    (p : DCF.Projections.t) (cell : num * num) (row : DCF.Row.t) : Prop :=
  exists d,
    DCF.calculateDCF (DCF.withRates this (fst cell) (snd cell)) fd p = Ok d
    /\ row = rowOf (fst cell) (snd cell) d.

(** The two lists of a DCF grid. *)
Definition discountRatesOf (ranges : DCF.Ranges.t) : list num :=
  match DCF.Ranges.discountRates ranges with
  | Some l => l
  | None => DCF.defaultDiscountRates
  end.

Definition terminalGrowthRatesOf (ranges : DCF.Ranges.t) : list num :=
  match DCF.Ranges.terminalGrowthRates ranges with
  | Some l => l
  | None => DCF.defaultTerminalGrowthRates
  end.

(** The two lists of an LBO grid. *)
Definition exitMultiplesOf (ranges : LBO.Ranges.t) : list num :=
  match LBO.Ranges.exitMultiples ranges with
  | Some l => l
  | None => LBO.defaultExitMultiples
  end.

Definition revenueGrowthRatesOf (ranges : LBO.Ranges.t) : list num :=
  match LBO.Ranges.revenueGrowthRates ranges with
  | Some l => l
  | None => LBO.defaultRevenueGrowthRates
  end.

(** The sample of the LBO simulation for a result (lines 266-271). *)
Definition lboSampleOf (r : LBO.Result.t) : LBO.Sample.t :=
  {| LBO.Sample.irr := LBO.Returns.irr (LBO.Result.returns r);
     LBO.Sample.totalMultiple := LBO.Returns.totalMultiple (LBO.Result.returns r);
     LBO.Sample.maxLeverage :=
       LBO.CreditSummary.maxDebtToEbitda (LBO.Result.creditMetrics r);
     LBO.Sample.exitEquityValue :=
       LBO.Returns.exitEquityValue (LBO.Result.returns r) |}.

(** No distribution at all: [{}]. *)
Definition noDistributions : LBO.Distributions.t :=
  {| LBO.Distributions.exitMultiple := None;
     LBO.Distributions.revenueGrowth := None;
     LBO.Distributions.ebitdaMargin := None |}.

(** The shape the arrays of [generateRandomProjections] have after each
    year: equal lengths, no negative depreciation or capex. *)
Definition WellShaped (n : nat) (acc : DCF.RandomArrays) : Prop :=
  List.length (DCF.ra_revenueGrowth acc) = n
  /\ List.length (DCF.ra_ebitdaMargin acc) = n
  /\ List.length (DCF.ra_depreciation acc) = n
  /\ List.length (DCF.ra_capex acc) = n
  /\ List.length (DCF.ra_workingCapitalChange acc) = n
  /\ Forall (fun x => (x <? zero) = false) (DCF.ra_depreciation acc)
  /\ Forall (fun x => (x <? zero) = false) (DCF.ra_capex acc).

(** [x <= y] and [x < y] as propositions. *)
Definition le (x y : num) : Prop := (x <=? y) = true.

End GridSpec.

(** Libraries and draws to run the simulations on: the theorems hold for
    every library and every stream of draws, these only give the examples
    something to compute with. *)
Module SampleLibraries.

Definition flatMath : MathLib :=
  {| Math_sqrt := fun _ => zero;
     Math_log := fun _ => zero;
     Math_cos := fun _ => one;
     Math_PI := dec 3.14159 |}.

Definition silentStats : StatsLib :=
  {| stats_mean := fun _ => Ok zero;
     stats_median := fun _ => Ok zero;
     stats_standardDeviation := fun _ => Ok zero;
     stats_quantile := fun _ _ => Ok zero |}.

Definition halves : RandomSource := fun _ => dec 0.5.

(** Tranche rates of which only one is given. *)
Definition termLoanAOnly : LBO.InterestRates.t :=
  {| LBO.InterestRates.weighted := None;
     LBO.InterestRates.termLoanA := Some (dec 0.06);
     LBO.InterestRates.termLoanB := None;
     LBO.InterestRates.subordinated := None |}.

(** [new LBOModel({ holdPeriod: -1 })]. *)
Definition negativeHold : LBO.Model :=
  LBO.constructor {| LBO.Options.targetIRR := None;
                     LBO.Options.holdPeriod := Some (-1)%Z;
                     LBO.Options.maxDebtMultiple := None;
                     LBO.Options.minEquityContribution := None |}.

(** The test deal with a growth array of two entries only. *)
Definition shortGrowthDeal : LBO.DealParams.t :=
  LBO.withExitAndGrowth LBOExamples.testDeal (Some (dec 10))
    (Some (map dec [0.05; 0.04]%Q)).

(** A capital structure of 600 equity and 400 debt. *)
Definition sixtyForty : DCF.WACCParams.t :=
  {| DCF.WACCParams.marketValueEquity := Some (dec 600);
     DCF.WACCParams.marketValueDebt := Some (dec 400);
     DCF.WACCParams.costOfEquity := Some (dec 0.12);
     DCF.WACCParams.costOfDebt := Some (dec 0.06);
     DCF.WACCParams.taxRate := Some (dec 0.25) |}.

(** A deal held for one year with a working-capital build of 300 in
    year 1, sold at 12.2 times EBITDA. *)
Definition cashBurnDeal : LBO.DealParams.t :=
  {| LBO.DealParams.enterpriseValue := Some (dec 1000);
     LBO.DealParams.ebitda := Some (dec 100);
     LBO.DealParams.debtMultiple := None;
     LBO.DealParams.revolver := Some (dec 50);
     LBO.DealParams.termLoanA := Some (dec 200);
     LBO.DealParams.termLoanB := Some (dec 300);
     LBO.DealParams.subordinatedDebt := None;
     LBO.DealParams.exitMultiple := Some (dec 12.2);
     LBO.DealParams.revenueGrowth := Some (map dec [0.05; 0.04]%Q);
     LBO.DealParams.ebitdaMargin := Some (map dec [0.20; 0.21]%Q);
     LBO.DealParams.capexAsPercentOfRevenue := Some (map dec [0.04; 0.04]%Q);
     LBO.DealParams.workingCapitalChange := Some (map dec [5; 300]%Q);
     LBO.DealParams.fees := Some (dec 20);
     LBO.DealParams.baseRevenue := Some (dec 500);
     LBO.DealParams.interestRates := None;
     LBO.DealParams.taxRate := None;
     LBO.DealParams.debtPaydownRate := None |}.

(** A distribution for each of the three sampled parameters. *)
Definition allDistributions : LBO.Distributions.t :=
  {| LBO.Distributions.exitMultiple :=
       Some {| LBO.Distribution.mean := Some (dec 10);
               LBO.Distribution.std := Some (dec 1) |};
     LBO.Distributions.revenueGrowth :=
       Some {| LBO.Distribution.mean := Some (dec 0.05);
               LBO.Distribution.std := Some (dec 0.02) |};
     LBO.Distributions.ebitdaMargin :=
       Some {| LBO.Distribution.mean := Some (dec 0.2);
               LBO.Distribution.std := Some (dec 0.02) |} |}.


End SampleLibraries.

(** ** Vocabulary for the analysis of the root finder on the example stream *)

Module RootAnalysis.
Local Open Scope Q_scope.

(** [a^n]. *)
Fixpoint qpow (a : Q) (n : nat) : Q :=
  match n with
  | O => 1
  | S k => a * qpow a k
  end.

(** The net present value of the flows [cs], the first of them paid at
    time [i], where [a] is one plus the rate; and the derivative of it in
    the rate, with its sign changed. *)
Fixpoint value (i : nat) (cs : list Q) (a : Q) : Q :=
  match cs with
  | [] => 0
  | c :: rest => c / qpow a i + value (S i) rest a
  end.








End RootAnalysis.

(* ================================================================== *)
(** * Facts about numbers                                               *)
(* ================================================================== *)

Section Numbers.

Lemma orElse_zero (d : num) : Some zero ||| d = d.
Proof.
  unfold orElse, truthy, zero, dec.
  destruct (Qc_eq_dec (Q2Qc 0) (Q2Qc 0)) as [_ | Hne]; [reflexivity | now elim Hne].
Qed.

Lemma orElse_undefined (d : num) : undefined ||| d = d.
Proof. reflexivity. Qed.

Lemma orElse_truthy (v : value) (d : num) :
  truthy v = true -> v ||| d = toNumber v.
Proof. unfold orElse; now intros ->. Qed.

Lemma orElse_falsy (v : value) (d : num) :
  truthy v = false -> v ||| d = d.
Proof. unfold orElse; now intros ->. Qed.


Lemma Math_pow_nonneg (x : num) (e : Z) :
  (0 <= e)%Z -> Math_pow x e = pown x (Z.to_nat e).
Proof.
  intros He. unfold Math_pow.
  destruct (Z.ltb_spec e 0); [lia | reflexivity].
Qed.

(** On finite numbers [a - a * t] is [a * (1 - t)]. *)
Lemma sub_mul_factor (a t : Qc) :
  Fin a - Fin a * Fin t = Fin a * (one - Fin t).
Proof.
  unfold sub, one, dec; simpl. f_equal.
  change (Q2Qc 1) with 1%Qc. ring.
Qed.

(** Two finite numbers are equal when their rationals are: the proofs of
    canonicity inside [Qc] play no part. *)
Lemma Fin_eq (a b : Qc) : (a == b)%Q -> Fin a = Fin b.
Proof. intros Heq. f_equal. now apply Qc_is_canon. Qed.

(** Finite numbers are closed under the ring operations. *)
Lemma isFinite_inv (x : num) : isFinite x = true -> exists q, x = Fin q.
Proof. destruct x; try discriminate; eauto. Qed.

Lemma isFinite_add (x y : num) :
  isFinite x = true -> isFinite y = true -> isFinite (x + y) = true.
Proof. now destruct x, y. Qed.

Lemma isFinite_sub (x y : num) :
  isFinite x = true -> isFinite y = true -> isFinite (x - y) = true.
Proof. now destruct x, y. Qed.

Lemma isFinite_mul (x y : num) :
  isFinite x = true -> isFinite y = true -> isFinite (x * y) = true.
Proof. now destruct x, y. Qed.

Lemma isFinite_orElse (v : value) (d : num) :
  (forall x, v = Some x -> isFinite x = true) -> isFinite d = true ->
  isFinite (v ||| d) = true.
Proof.
  intros Hv Hd. unfold orElse. destruct (truthy v) eqn:Ht; [| exact Hd].
  destruct v as [x |]; [now apply Hv | discriminate Ht].
Qed.

Lemma isFinite_index (l : list num) (i : nat) (x : num) :
  Forall (fun x => isFinite x = true) l -> index l i = Some x ->
  isFinite x = true.
Proof.
  intros Hall Hi. rewrite Forall_forall in Hall.
  apply Hall. eapply nth_error_In, Hi.
Qed.

(** The order on numbers. *)
Lemma cmp_antisym (x y : num) : cmp y x = option_map CompOpp (cmp x y).
Proof.
  destruct x as [a | | |], y as [b | | |]; simpl; try reflexivity.
  f_equal. unfold Qccompare. now rewrite <- Qcompare_antisym.
Qed.

Lemma leb_not_gtb (x y : num) : (x <=? y) = true -> (x >? y) = false.
Proof.
  unfold leb, gtb, ltb. rewrite (cmp_antisym x y).
  destruct (cmp x y) as [[ | | ] |]; simpl; congruence.
Qed.

Lemma Qccompare_spec (a b : Qc) :
  CompareSpec (a = b) (a < b)%Qc (b < a)%Qc (a ?= b)%Qc.
Proof.
  destruct (a ?= b)%Qc eqn:Hc; constructor.
  - now apply Qc_is_canon, Qeq_alt.
  - exact Hc.
  - unfold Qclt. apply Qgt_alt. exact Hc.
Qed.

Lemma Qc_eq_Qeq (x y : Qc) : x = y -> (this x == this y)%Q.
Proof. now intros ->. Qed.

End Numbers.

(** Equality of two closed finite numbers, by evaluation. *)
Ltac num_eq := vm_compute; apply Fin_eq; reflexivity.

(** Linear arithmetic on canonical rationals, through [Q]. *)
Ltac qc_lra :=
  repeat match goal with
  | H : @eq Qc _ _ |- _ => apply Qc_eq_Qeq in H
  end;
  unfold Qclt, Qcle in *;
  cbn [this Qcplus Qcopp Qcminus Qcmult Q2Qc] in *;
  rewrite ?Qred_correct in *; lra.

(** Case analysis on every comparison of rationals in the goal. *)
Ltac qc_cases :=
  repeat match goal with
  | |- context [(?x ?= ?y)%Qc] => destruct (Qccompare_spec x y); simpl
  end.

Section NaNAndOrder.

(** [NaN] absorbs. *)
Lemma add_NaN_l (x : num) : NaN + x = NaN.
Proof. reflexivity. Qed.

Lemma add_NaN_r (x : num) : x + NaN = NaN.
Proof. now destruct x. Qed.

Lemma sub_NaN_l (x : num) : NaN - x = NaN.
Proof. reflexivity. Qed.

Lemma sub_NaN_r (x : num) : x - NaN = NaN.
Proof. now destruct x. Qed.

Lemma mul_NaN_l (x : num) : NaN * x = NaN.
Proof. reflexivity. Qed.

Lemma mul_NaN_r (x : num) : x * NaN = NaN.
Proof. now destruct x. Qed.

Lemma div_NaN_l (x : num) : NaN / x = NaN.
Proof. reflexivity. Qed.

Lemma Math_max_NaN_r (x : num) : Math_max x NaN = NaN.
Proof. now destruct x. Qed.

Lemma ltb_NaN_l (x : num) : (NaN <? x) = false.
Proof. reflexivity. Qed.

(** A paydown is never negative, so the balance carried forward neither
    rises above a non-negative balance nor falls below zero. *)
Lemma paydown_bounds (d z : num) :
  (zero <=? d) = true ->
  Math_max zero (d - Math_max zero z) <> NaN ->
  (Math_max zero (d - Math_max zero z) <=? d) = true.
Proof.
  unfold leb, Math_max, zero, dec, sub.
  destruct d as [a | | |], z as [b | | |]; simpl;
    try discriminate; try congruence.
  all: qc_cases; try discriminate; try congruence.
  all: try (intros; exfalso; qc_lra).
Qed.

Lemma Math_max_zero_nonneg (x : num) :
  Math_max zero x <> NaN -> (zero <=? Math_max zero x) = true.
Proof.
  unfold leb, Math_max, zero, dec.
  destruct x as [a | | |]; simpl; try congruence.
  qc_cases; try congruence; try (intros; exfalso; qc_lra).
Qed.

(** A quotient by zero is never a finite number. *)
Lemma div_zero_not_finite (x : num) : isFinite (x / zero) = false.
Proof.
  unfold zero, dec.
  destruct x as [a | | |]; simpl; try reflexivity;
    destruct (Qc_eq_dec (Q2Qc 0) (Q2Qc 0)) as [_ | Hne];
    try reflexivity; try (now elim Hne).
  now destruct (a ?= Q2Qc 0)%Qc.
Qed.

Lemma leb_Fin (a b : Qc) : (Fin a <=? Fin b) = true <-> (a <= b)%Qc.
Proof.
  unfold leb; simpl.
  destruct (Qccompare_spec a b) as [-> | Hlt | Hgt]; split; intros Hle;
    try reflexivity; try discriminate.
  - apply Qcle_refl.
  - now apply Qclt_le_weak.
  - exfalso. now apply (Qclt_not_le _ _ Hgt).
Qed.

End NaNAndOrder.

(* ================================================================== *)
(** * The DCF point estimate                                            *)
(* ================================================================== *)

Section DCFPointEstimate.
Import DCF DCFSpec.

Variable this : Model.
Variable fd : FinancialData.t.
Variable p : Projections.t.

(** What the projection loop leaves behind after [n] years from year [y]. *)
Lemma loop_chain (n : nat) :
  forall (y : nat) (st st' : LoopState),
    forEach (loopBody this p) (seq y n) st = Ok st' ->
    exists recs,
      cashFlows st' = cashFlows st ++ recs
      /\ List.length recs = n
      /\ Chain this p (lastRevenue st) y recs
      /\ totalPV st' = fold_left add (map YearRecord.presentValue recs) (totalPV st).
Proof.
  induction n as [| n IH]; intros y st st' Hrun; simpl in Hrun.
  - injection Hrun as <-. exists []. rewrite app_nil_r. now repeat split.
  - unfold loopBody at 1 in Hrun.
    destruct (projectYear this p (lastRevenue st) y) as [r | m] eqn:Hyear;
      simpl in Hrun; [| discriminate].
    apply IH in Hrun as (recs & Hcf & Hlen & Hchain & Hpv); simpl in *.
    exists (r :: recs). repeat split; simpl; auto.
    now rewrite Hcf, <- app_assoc.
Qed.

(** With the five arrays supplied the loop never throws. *)
Lemma projectYear_complete (prev : num) (y : nat) :
  complete p -> exists r, projectYear this p prev y = Ok r.
Proof.
  intros (Hg & Hm & Hd & Hc & Hw). unfold projectYear.
  destruct (Projections.revenueGrowth p); [| now elim Hg].
  destruct (Projections.ebitdaMargin p); [| now elim Hm].
  destruct (Projections.depreciation p); [| now elim Hd].
  destruct (Projections.capex p); [| now elim Hc].
  destruct (Projections.workingCapitalChange p); [| now elim Hw].
  simpl. eauto.
Qed.

Lemma loop_complete (n : nat) :
  complete p ->
  forall (y : nat) (st : LoopState),
    exists st', forEach (loopBody this p) (seq y n) st = Ok st'.
Proof.
  intros Hp. induction n as [| n IH]; intros y st; simpl.
  - eauto.
  - unfold loopBody at 1.
    destruct (projectYear_complete (lastRevenue st) y Hp) as [r ->]. simpl.
    apply IH.
Qed.

(** A record of a chain is [projectYear] of its own year, from the revenue
    of the record before it. *)
Lemma Chain_nth (recs : list YearRecord.t) :
  forall (prev : num) (y k : nat) (r : YearRecord.t),
    Chain this p prev y recs ->
    nth_error recs k = Some r ->
    projectYear this p
      (match k with
       | O => prev
       | S j => match nth_error recs j with
                | Some r' => YearRecord.revenue r'
                | None => NaN
                end
       end) (y + k) = Ok r.
Proof.
  induction recs as [| r0 rs IH]; intros prev y k r Hchain Hk.
  - destruct k; discriminate.
  - destruct Hchain as [H0 Hrest]. destruct k as [| k]; simpl in Hk.
    + injection Hk as <-. now rewrite Nat.add_0_r.
    + specialize (IH _ _ _ _ Hrest Hk).
      replace (y + S k)%nat with (S y + k)%nat by lia.
      destruct k as [| j]; simpl in *; exact IH.
Qed.

(** Everything a successful call has computed. *)
Lemma calculateDCF_Ok (r : Result.t) :
  calculateDCF this fd p = Ok r ->
  let N := Z.to_nat (projectionYears this) in
  (1 <= projectionYears this)%Z
  /\ List.length (Result.projectedCashFlows r) = N
  /\ Chain this p (FinancialData.revenue fd ||| zero) 1 (Result.projectedCashFlows r)
  /\ exists final,
       nth_error (Result.projectedCashFlows r) (N - 1) = Some final
       /\ Result.terminalValue r =
            YearRecord.freeCashFlow final * (one + terminalGrowthRate this)
            / (discountRate this - terminalGrowthRate this)
       /\ Result.presentValue r =
            sum (map YearRecord.presentValue (Result.projectedCashFlows r))
            + Result.terminalValue r / Math_pow (one + discountRate this) (projectionYears this)
       /\ Result.sharesOutstanding r = (FinancialData.sharesOutstanding fd ||| zero)
       /\ Result.currentPrice r = (FinancialData.currentPrice fd ||| zero)
       /\ Result.intrinsicValue r =
            (if Result.sharesOutstanding r >? zero
             then Result.presentValue r / Result.sharesOutstanding r else zero)
       /\ Result.upside r =
            (if Result.sharesOutstanding r >? zero then
               if Result.currentPrice r >? zero
               then (Result.intrinsicValue r - Result.currentPrice r) / Result.currentPrice r
               else zero
             else zero).
Proof.
  intros Hrun N. unfold calculateDCF, calculateDCF_body, years in Hrun.
  destruct (forEach _ _ _) as [st | m] eqn:Hloop; simpl in Hrun; [| discriminate].
  apply loop_chain in Hloop as (recs & Hcf & Hlen & Hchain & Hpv); simpl in *.
  unfold indexZ in Hrun.
  destruct (Z.ltb_spec (projectionYears this - 1) 0) as [Hneg | Hpos];
    [discriminate |].
  destruct (nth_error (cashFlows st) (Z.to_nat (projectionYears this - 1)))
    as [final |] eqn:Hfinal; [| discriminate].
  injection Hrun as <-; simpl.
  rewrite Hcf in *. repeat split; auto; try lia.
  exists final. replace (N - 1)%nat with (Z.to_nat (projectionYears this - 1))
    by (unfold N; lia).
  repeat split; auto.
  unfold sum. now rewrite Hpv.
Qed.

(** With [N >= 1] years and the five arrays, the call returns. *)
Lemma calculateDCF_returns :
  (1 <= projectionYears this)%Z -> complete p ->
  exists r, calculateDCF this fd p = Ok r.
Proof.
  intros HN Hp. unfold calculateDCF, calculateDCF_body, years.
  match goal with
  | |- context [forEach ?b ?l ?s] =>
      destruct (loop_complete (Z.to_nat (projectionYears this)) Hp 1 s) as [st Hloop]
  end.
  rewrite Hloop; simpl.
  apply loop_chain in Hloop as (recs & Hcf & Hlen & _); simpl in Hcf.
  unfold indexZ.
  destruct (Z.ltb_spec (projectionYears this - 1) 0) as [Hneg | _]; [lia |].
  destruct (nth_error (cashFlows st) (Z.to_nat (projectionYears this - 1)))
    eqn:Hnth.
  - simpl. eauto.
  - apply nth_error_None in Hnth. rewrite Hcf, Hlen in Hnth. lia.
Qed.

End DCFPointEstimate.

Section DCFYear.
Import DCF DCFSpec.

Variable this : Model.
Variable p : Projections.t.

Lemma read_entry (a : option (list num)) (y : nat) (v : value) :
  read a (y - 1) = Ok v -> entry a y = v.
Proof. destruct a; simpl; [now intros [= <-] | discriminate]. Qed.

(** What one year of the loop computes, in the vocabulary of the
    specification. *)
Lemma projectYear_Ok (prev : num) (y : nat) (r : YearRecord.t) :
  projectYear this p prev y = Ok r ->
  YearRecord.year r = y
  /\ YearRecord.revenue r = prev * (one + growthOf p y)
  /\ YearRecord.ebitda r = YearRecord.revenue r * marginOf p y
  /\ YearRecord.ebit r =
       YearRecord.ebitda r - depreciationOf p y (YearRecord.revenue r)
  /\ YearRecord.nopat r = YearRecord.ebit r - YearRecord.ebit r * taxRate this
  /\ YearRecord.freeCashFlow r =
       YearRecord.nopat r + depreciationOf p y (YearRecord.revenue r)
       - capexOf p y (YearRecord.revenue r) - workingCapitalChangeOf p y
  /\ YearRecord.presentValue r =
       YearRecord.freeCashFlow r / Math_pow (one + discountRate this) (Z.of_nat y).
Proof.
  unfold projectYear, growthOf, marginOf, depreciationOf, capexOf,
    workingCapitalChangeOf.
  destruct (read (Projections.revenueGrowth p) (y - 1)) as [g |] eqn:Hg;
    [| discriminate].
  destruct (read (Projections.ebitdaMargin p) (y - 1)) as [m |] eqn:Hm;
    [| discriminate].
  destruct (read (Projections.depreciation p) (y - 1)) as [d |] eqn:Hd;
    [| discriminate].
  destruct (read (Projections.capex p) (y - 1)) as [c |] eqn:Hc;
    [| discriminate].
  destruct (read (Projections.workingCapitalChange p) (y - 1)) as [w |] eqn:Hw;
    [| discriminate].
  apply read_entry in Hg, Hm, Hd, Hc, Hw. subst. simpl.
  intros [= <-]. simpl. repeat split; reflexivity.
Qed.

Lemma isFinite_entry (a : option (list num)) (y : nat) (d : num) :
  allFinite a -> isFinite d = true -> isFinite (entry a y ||| d) = true.
Proof.
  intros Ha Hd. apply isFinite_orElse; [| exact Hd].
  destruct a as [l |]; simpl; [| discriminate].
  intros x Hx. eapply isFinite_index; eauto.
Qed.

(** From finite assumptions a year yields a finite revenue and a finite
    EBIT. *)
Lemma projectYear_finite (prev : num) (y : nat) (r : YearRecord.t) :
  finiteAssumptions this p -> isFinite prev = true ->
  projectYear this p prev y = Ok r ->
  isFinite (YearRecord.revenue r) = true /\ isFinite (YearRecord.ebit r) = true.
Proof.
  intros (Ht & Hg & Hm & Hd & Hc & Hw) Hprev Hyear.
  apply projectYear_Ok in Hyear as (_ & Hrev & Hebitda & Hebit & _).
  assert (Hr : isFinite (YearRecord.revenue r) = true).
  { rewrite Hrev. apply isFinite_mul; [exact Hprev |].
    apply isFinite_add; [reflexivity |]. now apply isFinite_entry. }
  split; [exact Hr |].
  rewrite Hebit, Hebitda. apply isFinite_sub.
  - apply isFinite_mul; [exact Hr |]. now apply isFinite_entry.
  - apply isFinite_entry; [exact Hd |]. now apply isFinite_mul.
Qed.

Lemma Chain_finite (recs : list YearRecord.t) :
  finiteAssumptions this p ->
  forall (prev : num) (y : nat),
    isFinite prev = true -> Chain this p prev y recs ->
    Forall (fun r => isFinite (YearRecord.revenue r) = true
                     /\ isFinite (YearRecord.ebit r) = true) recs.
Proof.
  intros Hfin. induction recs as [| r rs IH]; intros prev y Hprev Hchain.
  - constructor.
  - destruct Hchain as [Hyear Hrest].
    pose proof (projectYear_finite prev y r Hfin Hprev Hyear) as Hr.
    constructor; [exact Hr |]. eapply IH; [exact (proj1 Hr) | exact Hrest].
Qed.

End DCFYear.

Section DCFClaims.
Import DCF DCFSpec DCFExamples.

(** The record of year [y] of a successful call is the loop body run on
    the revenue of the year before. *)
Lemma record_of_year (this : Model) (fd : FinancialData.t) (p : Projections.t)
    (r : Result.t) (y : nat) (rec : YearRecord.t) :
  calculateDCF this fd p = Ok r -> (1 <= y)%nat ->
  nth_error (Result.projectedCashFlows r) (y - 1) = Some rec ->
  projectYear this p (previousRevenue fd (Result.projectedCashFlows r) y) y = Ok rec.
Proof.
  intros Hrun Hy Hrec.
  apply calculateDCF_Ok in Hrun as (_ & _ & Hchain & _).
  pose proof (Chain_nth this p _ _ 1 (y - 1) rec Hchain Hrec) as Hyear.
  replace (1 + (y - 1))%nat with y in Hyear by lia.
  destruct y as [| [| j]]; [lia | exact Hyear | exact Hyear].
Qed.

(** C1, counterexample.  With [discountRate = 0.02] and
    [terminalGrowthRate = 0.03] on the data of the repository's own test the
    call does not fail: it returns a result whose terminal value is
    negative. *)
Lemma calculateDCF_inverted_rates_return :
  (discountRate invertedRates <=? terminalGrowthRate invertedRates) = true
  /\ exists r,
       calculateDCF invertedRates testFinancialData testProjections = Ok r
       /\ (Result.terminalValue r <? zero) = true.
Proof.
  split; [vm_compute; reflexivity |].
  eexists. split; [vm_compute; reflexivity | vm_compute; reflexivity].
Qed.

(** With equal rates the denominator is zero and the terminal value of the
    same data is [Infinity]. *)
Example calculateDCF_equal_rates_return :
  exists r,
    calculateDCF equalRates testFinancialData testProjections = Ok r
    /\ Result.terminalValue r = PInf
    /\ Result.presentValue r = PInf.
Proof.
  eexists. split; [vm_compute; reflexivity |].
  split; vm_compute; reflexivity.
Qed.

(** C1, as the code has it.  [calculateDCF] makes no test on the two
    rates: given at least one projection year and the five projection
    arrays it returns a result whatever [discountRate] and
    [terminalGrowthRate] are, and the terminal value of that result is the
    quotient [freeCashFlow_N * (1 + terminalGrowthRate) /
    (discountRate - terminalGrowthRate)], also when the denominator is
    negative or zero. *)
Theorem calculateDCF_no_rate_guard (this : Model) (fd : FinancialData.t)
    (p : Projections.t) :
  (1 <= projectionYears this)%Z -> complete p ->
  exists r final,
    calculateDCF this fd p = Ok r
    /\ nth_error (Result.projectedCashFlows r)
         (Z.to_nat (projectionYears this) - 1) = Some final
    /\ Result.terminalValue r =
         YearRecord.freeCashFlow final * (one + terminalGrowthRate this)
         / (discountRate this - terminalGrowthRate this).
Proof.
  intros HN Hp.
  destruct (calculateDCF_returns this fd p HN Hp) as [r Hrun].
  destruct (calculateDCF_Ok this fd p r Hrun) as (_ & _ & _ & final & Hfinal & Htv & _).
  exists r, final. auto.
Qed.

Lemma calculateDCF_no_rate_guard_witness :
  exists r final,
    calculateDCF invertedRates testFinancialData testProjections = Ok r
    /\ nth_error (Result.projectedCashFlows r)
         (Z.to_nat (projectionYears invertedRates) - 1) = Some final
    /\ Result.terminalValue r =
         YearRecord.freeCashFlow final * (one + terminalGrowthRate invertedRates)
         / (discountRate invertedRates - terminalGrowthRate invertedRates).
Proof.
  apply calculateDCF_no_rate_guard.
  - vm_compute. discriminate.
  - repeat split; discriminate.
Defined.

(** A number taken with the default zero is never [NaN]: it is at most
    zero or above it. *)
Lemma orElse_zero_ordered (v : value) :
  ((v ||| zero) <=? zero) = true \/ ((v ||| zero) >? zero) = true.
Proof.
  unfold orElse, truthy, gtb, ltb, leb.
  destruct v as [[q | | |] |]; simpl; auto.
  - destruct (Qc_eq_dec q (Q2Qc 0)) as [-> | Hne]; simpl; [now left |].
    unfold zero, dec; simpl.
    destruct (Qccompare_spec q (Q2Qc 0)) as [Heq | Hlt | Hgt]; auto.
    right. destruct (Qccompare_spec (Q2Qc 0) q) as [Heq | Hlt | Hlt'];
      try reflexivity; exfalso; qc_lra.
Qed.

(** C10.  A result always carries [intrinsicValue] and [upside] as
    numbers, next to the valuation they are derived from: the records of
    the [N >= 1] projected years, each the loop body run on the revenue of
    the year before, the terminal value and the present value that sums
    them.  The shares outstanding and the current price of the result are
    those of the caller, or 0, and each is either at most 0 or above 0.
    When [sharesOutstanding <= 0] the intrinsic value and the upside are
    both 0, whatever the current price; when [sharesOutstanding > 0] the
    intrinsic value is [presentValue / sharesOutstanding], and the upside
    is 0 when [currentPrice <= 0] and
    [(intrinsicValue - currentPrice) / currentPrice] otherwise. *)
Theorem calculateDCF_guarded_fields (this : Model) (fd : FinancialData.t)
    (p : Projections.t) (r : Result.t) :
  calculateDCF this fd p = Ok r ->
  let N := Z.to_nat (projectionYears this) in
  let records := Result.projectedCashFlows r in
  ((1 <= N)%nat /\ List.length records = N)
  /\ (forall y rec,
        (1 <= y)%nat -> nth_error records (y - 1) = Some rec ->
        projectYear this p (previousRevenue fd records y) y = Ok rec)
  /\ (exists final,
        nth_error records (N - 1) = Some final
        /\ Result.terminalValue r =
             YearRecord.freeCashFlow final * (one + terminalGrowthRate this)
             / (discountRate this - terminalGrowthRate this))
  /\ Result.presentValue r =
       sum (map YearRecord.presentValue records)
       + Result.terminalValue r
         / Math_pow (one + discountRate this) (projectionYears this)
  /\ Result.sharesOutstanding r = (FinancialData.sharesOutstanding fd ||| zero)
  /\ Result.currentPrice r = (FinancialData.currentPrice fd ||| zero)
  /\ ((Result.sharesOutstanding r <=? zero) = true
      \/ (Result.sharesOutstanding r >? zero) = true)
  /\ ((Result.currentPrice r <=? zero) = true
      \/ (Result.currentPrice r >? zero) = true)
  /\ ((Result.sharesOutstanding r <=? zero) = true ->
      Result.intrinsicValue r = zero /\ Result.upside r = zero)
  /\ ((Result.sharesOutstanding r >? zero) = true ->
      Result.intrinsicValue r = Result.presentValue r / Result.sharesOutstanding r
      /\ ((Result.currentPrice r <=? zero) = true -> Result.upside r = zero)
      /\ ((Result.currentPrice r >? zero) = true ->
          Result.upside r =
            (Result.intrinsicValue r - Result.currentPrice r)
            / Result.currentPrice r)).
Proof.
  intros Hrun N records.
  pose proof (calculateDCF_Ok this fd p r Hrun)
    as (HN & Hlen & _ & final & Hfinal & Htv & Hpv & Hso & Hcp & Hiv & Hup).
  split; [split; [unfold N; lia | exact Hlen] |].
  split; [intros y rec Hy Hrec; exact (record_of_year this fd p r y rec Hrun Hy Hrec) |].
  split; [exists final; split; [exact Hfinal | exact Htv] |].
  split; [exact Hpv |]. split; [exact Hso |]. split; [exact Hcp |].
  split; [rewrite Hso; apply orElse_zero_ordered |].
  split; [rewrite Hcp; apply orElse_zero_ordered |].
  split.
  - intros Hle. apply leb_not_gtb in Hle.
    rewrite Hiv, Hup, Hle. now split.
  - intros Hgt. split; [now rewrite Hiv, Hgt |]. split.
    + intros Hle. apply leb_not_gtb in Hle. now rewrite Hup, Hgt, Hle.
    + intros Hgt'. now rewrite Hup, Hgt, Hgt'.
Qed.

Lemma calculateDCF_guarded_fields_witness :
  (exists r,
     calculateDCF defaultModel noShares testProjections = Ok r
     /\ List.length (Result.projectedCashFlows r) = 5%nat
     /\ within (Result.presentValue r) (dec 2105.45) (dec 0.01) = true
     /\ Result.currentPrice r = dec 150
     /\ Result.intrinsicValue r = zero
     /\ Result.upside r = zero)
  /\ (exists r,
        calculateDCF defaultModel noPrice testProjections = Ok r
        /\ within (Result.presentValue r) (dec 2105.45) (dec 0.01) = true
        /\ Result.intrinsicValue r = Result.presentValue r / dec 100
        /\ within (Result.intrinsicValue r) (dec 21.05) (dec 0.01) = true
        /\ Result.upside r = zero).
Proof.
  split.
  - assert (Hreturns :
              exists r,
                calculateDCF defaultModel noShares testProjections = Ok r
                /\ within (Result.presentValue r) (dec 2105.45) (dec 0.01) = true).
    { eexists. split; vm_compute; reflexivity. }
    destruct Hreturns as (r & Hrun & Hpv).
    destruct (calculateDCF_guarded_fields defaultModel noShares testProjections
                r Hrun)
      as ((_ & Hlen) & _ & _ & _ & Hso & Hcp & _ & _ & Hzero & _).
    exists r. split; [exact Hrun |]. split; [exact Hlen |].
    split; [exact Hpv |]. split; [exact Hcp |].
    apply Hzero. rewrite Hso. vm_compute. reflexivity.
  - assert (Hreturns :
              exists r,
                calculateDCF defaultModel noPrice testProjections = Ok r
                /\ within (Result.presentValue r) (dec 2105.45) (dec 0.01) = true
                /\ within (Result.presentValue r / dec 100) (dec 21.05) (dec 0.01)
                   = true).
    { eexists. split; [vm_compute; reflexivity |].
      split; vm_compute; reflexivity. }
    destruct Hreturns as (r & Hrun & Hpv & Hiv).
    destruct (calculateDCF_guarded_fields defaultModel noPrice testProjections
                r Hrun)
      as (_ & _ & _ & _ & Hso & Hcp & _ & _ & _ & Hpos).
    destruct Hpos as (Hvalue & Hnoprice & _);
      [rewrite Hso; vm_compute; reflexivity |].
    assert (Hshares : Result.sharesOutstanding r = dec 100) by exact Hso.
    rewrite Hshares in Hvalue.
    exists r. split; [exact Hrun |]. split; [exact Hpv |].
    split; [exact Hvalue |]. split; [rewrite Hvalue; exact Hiv |].
    apply Hnoprice. rewrite Hcp. vm_compute. reflexivity.
Defined.

(** C2, counterexample.  With one projection year and an EBITDA margin
    entry of 0 the record has [ebitda = revenue * 0.15 = 157.5], not
    [revenue * 0]. *)
Lemma calculateDCF_zero_margin_ebitda :
  exists r rec,
    calculateDCF oneYear testFinancialData zeroMargin = Ok r
    /\ nth_error (Result.projectedCashFlows r) 0 = Some rec
    /\ entry (Projections.ebitdaMargin zeroMargin) 1 = Some (dec 0)
    /\ YearRecord.revenue rec = dec 1050
    /\ YearRecord.ebitda rec = dec 157.5
    /\ YearRecord.ebitda rec <> YearRecord.revenue rec * dec 0.
Proof.
  eexists. eexists. split; [vm_compute; reflexivity |].
  split; [vm_compute; reflexivity |].
  split; [reflexivity |].
  split; [num_eq |].
  split; [num_eq |].
  vm_compute. intros [= Heq].
Qed.

(** C2, as the code has it.  For finite assumptions, a positive revenue,
    [N >= 1] projection years and the five projection arrays, the call
    returns and every year record satisfies the recurrences, where the
    margin, depreciation and capex of a year (and its growth and
    working-capital change) are the supplied entry when it is non-zero and
    the default of the source when it is zero or missing; the terminal
    value is [freeCashFlow_N * (1 + terminalGrowthRate) /
    (discountRate - terminalGrowthRate)], which for rates 0.10 and 0.025
    and a final free cash flow of 100 lies within 0.01 of 1366.67; and the
    present value is the sum of the yearly present values plus the
    discounted terminal value. *)
Theorem calculateDCF_recurrences (this : Model) (fd : FinancialData.t)
    (p : Projections.t) (q : Qc) :
  FinancialData.revenue fd = Some (Fin q) -> (0 < q)%Qc ->
  (1 <= projectionYears this)%Z ->
  complete p -> finiteAssumptions this p ->
  exists r,
    calculateDCF this fd p = Ok r
    /\ let N := Z.to_nat (projectionYears this) in
       let records := Result.projectedCashFlows r in
       List.length records = N
       /\ previousRevenue fd records 1 = Fin q
       /\ (forall y rec,
             (1 <= y)%nat -> nth_error records (y - 1) = Some rec ->
             YearRecord.year rec = y
             /\ YearRecord.revenue rec =
                  previousRevenue fd records y * (one + growthOf p y)
             /\ YearRecord.ebitda rec = YearRecord.revenue rec * marginOf p y
             /\ YearRecord.ebit rec =
                  YearRecord.ebitda rec
                  - depreciationOf p y (YearRecord.revenue rec)
             /\ YearRecord.nopat rec =
                  YearRecord.ebit rec * (one - taxRate this)
             /\ YearRecord.freeCashFlow rec =
                  YearRecord.nopat rec
                  + depreciationOf p y (YearRecord.revenue rec)
                  - capexOf p y (YearRecord.revenue rec)
                  - workingCapitalChangeOf p y
             /\ YearRecord.presentValue rec =
                  YearRecord.freeCashFlow rec
                  / Math_pow (one + discountRate this) (Z.of_nat y))
       /\ (exists final,
             nth_error records (N - 1) = Some final
             /\ Result.terminalValue r =
                  YearRecord.freeCashFlow final * (one + terminalGrowthRate this)
                  / (discountRate this - terminalGrowthRate this)
             /\ (discountRate this = dec 0.10 ->
                 terminalGrowthRate this = dec 0.025 ->
                 YearRecord.freeCashFlow final = dec 100 ->
                 within (Result.terminalValue r) (dec 1366.67) (dec 0.01) = true))
       /\ Result.presentValue r =
            sum (map YearRecord.presentValue records)
            + Result.terminalValue r
              / Math_pow (one + discountRate this) (projectionYears this).
Proof.
  intros Hrev Hq HN1 Hp Hfin.
  destruct (calculateDCF_returns this fd p HN1 Hp) as [r Hrun].
  exists r. split; [exact Hrun |]. intros N records.
  pose proof (calculateDCF_Ok this fd p r Hrun)
    as (HN & Hlen & Hchain & final & Hfinal & Htv & Hpv & _).
  assert (Hbase : (FinancialData.revenue fd ||| zero) = Fin q).
  { rewrite Hrev. apply orElse_truthy. simpl.
    destruct (Qc_eq_dec q (Q2Qc 0)) as [-> | _]; [| reflexivity].
    now apply Qclt_not_le in Hq; elim Hq; apply Qcle_refl. }
  split; [exact Hlen |]. split; [exact Hbase |].
  split; [| split; [| exact Hpv]].
  - intros y rec Hy Hrec.
    pose proof (record_of_year this fd p r y rec Hrun Hy Hrec) as Hyear.
    pose proof (Chain_finite this p _ Hfin _ 1 (eq_refl : isFinite (Fin q) = true)
                  (eq_ind_r (fun b => Chain this p b 1 records) Hchain (eq_sym Hbase)))
      as Hall.
    rewrite Forall_forall in Hall.
    destruct (Hall rec (nth_error_In _ _ Hrec)) as [_ Hebit].
    apply projectYear_Ok in Hyear
      as (Hyr & Hr & Hebitda & He & Hnopat & Hfcf & Hpvy).
    repeat (split; [assumption |]). split; [| split; assumption].
    apply isFinite_inv in Hebit as [a Ha].
    destruct Hfin as [Htax _]. apply isFinite_inv in Htax as [t Ht].
    rewrite Hnopat, Ha, Ht. apply sub_mul_factor.
  - exists final. split; [exact Hfinal |]. split; [exact Htv |].
    intros Hdr Htg Hfcf. rewrite Htv, Hdr, Htg, Hfcf.
    vm_compute. reflexivity.
Qed.

Lemma calculateDCF_recurrences_witness :
  exists r,
    calculateDCF oneYear testFinancialData cashFlow100 = Ok r
    /\ within (Result.terminalValue r) (dec 1366.67) (dec 0.01) = true.
Proof.
  destruct (calculateDCF_recurrences oneYear testFinancialData cashFlow100
              (Q2Qc 1000))
    as (r & Hrun & _ & _ & _ & (final & Hfinal & _ & Hexample) & _).
  - reflexivity.
  - reflexivity.
  - vm_compute. discriminate.
  - repeat split; discriminate.
  - repeat split; repeat constructor.
  - exists r. split; [exact Hrun |].
    apply Hexample; [reflexivity | reflexivity |].
    vm_compute in Hrun. injection Hrun as <-.
    vm_compute in Hfinal. injection Hfinal as <-. num_eq.
Defined.

(** C9.  In a successful call the revenue of year [y] is the revenue of
    the year before (the caller's revenue for year 1) times one plus the
    growth of the year, and an entry of the year that is exactly zero is
    replaced by the default that a missing entry gets: a zero EBITDA margin
    by 0.15, a zero depreciation by 3% of the year's revenue (in EBIT and
    in the free cash flow), a zero capex by 4% of the year's revenue.  With
    all three zero or missing, the EBITDA, the EBIT, the NOPAT and the free
    cash flow of the year are those of a margin of 15%, a depreciation of
    3% and a capex of 4% of the revenue: no zero enters them. *)
Theorem calculateDCF_zero_entries (this : Model) (fd : FinancialData.t)
    (p : Projections.t) (r : Result.t) (y : nat) (rec : YearRecord.t) :
  calculateDCF this fd p = Ok r -> (1 <= y)%nat ->
  nth_error (Result.projectedCashFlows r) (y - 1) = Some rec ->
  let revenue :=
    previousRevenue fd (Result.projectedCashFlows r) y * (one + growthOf p y) in
  YearRecord.revenue rec = revenue
  /\ YearRecord.nopat rec = YearRecord.ebit rec - YearRecord.ebit rec * taxRate this
  /\ (zeroOrMissing (entry (Projections.ebitdaMargin p) y) ->
      YearRecord.ebitda rec = revenue * dec 0.15)
  /\ (zeroOrMissing (entry (Projections.depreciation p) y) ->
      YearRecord.ebit rec = revenue * marginOf p y - revenue * dec 0.03
      /\ YearRecord.freeCashFlow rec =
           YearRecord.nopat rec + revenue * dec 0.03
           - capexOf p y revenue - workingCapitalChangeOf p y)
  /\ (zeroOrMissing (entry (Projections.capex p) y) ->
      YearRecord.freeCashFlow rec =
        YearRecord.nopat rec + depreciationOf p y revenue
        - revenue * dec 0.04 - workingCapitalChangeOf p y)
  /\ (zeroOrMissing (entry (Projections.ebitdaMargin p) y) ->
      zeroOrMissing (entry (Projections.depreciation p) y) ->
      zeroOrMissing (entry (Projections.capex p) y) ->
      let ebit := revenue * dec 0.15 - revenue * dec 0.03 in
      YearRecord.ebitda rec = revenue * dec 0.15
      /\ YearRecord.ebit rec = ebit
      /\ YearRecord.nopat rec = ebit - ebit * taxRate this
      /\ YearRecord.freeCashFlow rec =
           ebit - ebit * taxRate this + revenue * dec 0.03
           - revenue * dec 0.04 - workingCapitalChangeOf p y).
Proof.
  intros Hrun Hy Hrec revenue.
  pose proof (record_of_year this fd p r y rec Hrun Hy Hrec) as Hyear.
  apply projectYear_Ok in Hyear
    as (_ & Hrev & Hebitda & Hebit & Hnopat & Hfcf & _).
  fold revenue in Hrev. rewrite Hrev in Hebitda, Hebit, Hfcf.
  assert (Hdefault : forall v d, zeroOrMissing v -> (v ||| d) = d).
  { intros v d [-> | ->]; [apply orElse_zero | apply orElse_undefined]. }
  split; [exact Hrev |]. split; [exact Hnopat |].
  split; [| split; [| split]].
  - intros Hz. rewrite Hebitda. unfold marginOf. now rewrite Hdefault.
  - intros Hz. rewrite Hebit, Hfcf, Hebitda. unfold depreciationOf.
    now rewrite !Hdefault.
  - intros Hz. rewrite Hfcf. unfold capexOf. now rewrite Hdefault.
  - intros Hm Hd Hc ebit.
    assert (He : YearRecord.ebitda rec = revenue * dec 0.15).
    { rewrite Hebitda. unfold marginOf. now rewrite Hdefault. }
    assert (Hb : YearRecord.ebit rec = ebit).
    { rewrite Hebit, He. unfold depreciationOf. now rewrite Hdefault. }
    split; [exact He |]. split; [exact Hb |].
    split; [now rewrite Hnopat, Hb |].
    rewrite Hfcf, Hnopat, Hb. unfold depreciationOf, capexOf.
    now rewrite !Hdefault.
Qed.

Lemma calculateDCF_zero_entries_witness :
  exists r rec,
    calculateDCF oneYear testFinancialData zeroEntries = Ok r
    /\ nth_error (Result.projectedCashFlows r) 0 = Some rec
    /\ YearRecord.revenue rec = dec 1050
    /\ YearRecord.ebitda rec = dec 157.5
    /\ YearRecord.ebit rec = dec 126
    /\ YearRecord.nopat rec = dec 94.5
    /\ YearRecord.freeCashFlow rec = dec 79.
Proof.
  assert (Hreturns :
            exists r rec,
              calculateDCF oneYear testFinancialData zeroEntries = Ok r
              /\ nth_error (Result.projectedCashFlows r) 0 = Some rec).
  { do 2 eexists. split; vm_compute; reflexivity. }
  destruct Hreturns as (r & rec & Hrun & Hrec).
  exists r, rec. split; [exact Hrun |]. split; [exact Hrec |].
  destruct (calculateDCF_zero_entries oneYear testFinancialData zeroEntries
              r 1 rec Hrun (le_n 1) Hrec) as (Hrev & _ & _ & _ & _ & Hall).
  destruct Hall as (Hebitda & Hebit & Hnopat & Hfcf);
    try (left; reflexivity).
  rewrite Hrev, Hebitda, Hebit, Hnopat, Hfcf.
  repeat split; num_eq.
Defined.

End DCFClaims.

(* ================================================================== *)
(** * The root finder                                                   *)
(* ================================================================== *)

Section RootFinder.
Import LBO LBOSpec.

Variable flows : list num.







End RootFinder.

Section RootFinderClaim.
Import LBO LBOSpec.






End RootFinderClaim.

(* ================================================================== *)
(** * The root finder on the example stream                             *)
(* ================================================================== *)

Section DecimalNumbers.
Local Open Scope Q_scope.








End DecimalNumbers.

Section ExampleStream.
Import LBO LBOSpec RootAnalysis.
Local Open Scope Q_scope.



















End ExampleStream.

Section RootFinderWitness.
Import LBO LBOSpec RootAnalysis.


End RootFinderWitness.

Section RootFinderExamples.
Import LBO LBOSpec.

(** The three outcomes on small streams: [[-100, 115]] has its root at the
    starting guess, [[-100]] has a zero derivative, and a stream with a
    [NaN] never converges. *)
Example calculateIRR_converges :
  exists r, calculateIRR (dec 100) [dec 115] zero = Ok r /\ r = dec 0.15.
Proof. eexists. split; [vm_compute; reflexivity | num_eq]. Qed.

Example calculateIRR_flat :
  calculateIRR (dec 100) [] zero = Throw derivativeTooSmall.
Proof. vm_compute. reflexivity. Qed.

Example calculateIRR_exhausted :
  calculateIRR NaN [dec 115] zero = Throw maximumIterationsReached.
Proof. vm_compute. reflexivity. Qed.

End RootFinderExamples.

(* ================================================================== *)
(** * The LBO point estimate                                            *)
(* ================================================================== *)

Section LBOPointEstimate.
Import LBO LBOSpec.

Variable this : Model.
Variable dp : DealParams.t.

Lemma loop_chain_lbo (baseline : num) (n : nat) :
  forall (y : nat) (st st' : LoopState),
    forEach (loopBody dp baseline) (seq y n) st = Ok st' ->
    exists recs,
      projected st' = projected st ++ recs
      /\ List.length recs = n
      /\ Chain dp baseline (currentDebt st) y recs.
Proof.
  induction n as [| n IH]; intros y st st' Hrun; simpl in Hrun.
  - injection Hrun as <-. exists []. rewrite app_nil_r. now repeat split.
  - unfold loopBody at 1 in Hrun.
    destruct (projectYear dp baseline (currentDebt st) y) as [r | m] eqn:Hyear;
      simpl in Hrun; [| discriminate].
    apply IH in Hrun as (recs & Hcf & Hlen & Hchain); simpl in *.
    exists (r :: recs). repeat split; simpl; auto.
    now rewrite Hcf, <- app_assoc.
Qed.

(** A projection of a chain is [projectYear] of its own year, from the
    balance of the projection before it. *)
Lemma Chain_nth_lbo (baseline : num) (recs : list YearProjection.t) :
  forall (debt : num) (y k : nat) (r : YearProjection.t),
    Chain dp baseline debt y recs ->
    nth_error recs k = Some r ->
    projectYear dp baseline
      (match k with
       | O => debt
       | S j => match nth_error recs j with
                | Some r' => YearProjection.debtBalance r'
                | None => NaN
                end
       end) (y + k) = Ok r.
Proof.
  induction recs as [| r0 rs IH]; intros debt y k r Hchain Hk.
  - destruct k; discriminate.
  - destruct Hchain as [H0 Hrest]. destruct k as [| k]; simpl in Hk.
    + injection Hk as <-. now rewrite Nat.add_0_r.
    + specialize (IH _ _ _ _ Hrest Hk).
      replace (y + S k)%nat with (S y + k)%nat by lia.
      destruct k as [| j]; simpl in *; exact IH.
Qed.

(** Everything a successful call has computed. *)
Lemma calculateLBO_Ok (r : Result.t) :
  calculateLBO this dp = Ok r ->
  exists baseline exit,
    baselineOf dp baseline
    /\ (0 <= holdPeriod this)%Z
    /\ List.length (Result.projections r) = S (Z.to_nat (holdPeriod this))
    /\ Chain dp baseline (totalDebtOf dp) 0 (Result.projections r)
    /\ nth_error (Result.projections r) (Z.to_nat (holdPeriod this)) = Some exit
    /\ Returns.exitEquityValue (Result.returns r)
       = YearProjection.ebitda exit * toNumber (DealParams.exitMultiple dp)
         - YearProjection.debtBalance exit
    /\ calculateIRR (Returns.entryEquity (Result.returns r))
         (map YearProjection.cashToSponsor (tl (Result.projections r)))
         (Returns.exitEquityValue (Result.returns r))
       = Ok (Returns.irr (Result.returns r)).
Proof.
  intros Hrun. unfold calculateLBO, calculateLBO_body, years in Hrun.
  fold (totalDebtOf dp) in Hrun.
  match type of Hrun with
  | rethrow _ (bind ?b _) = _ => destruct b as [baseline | m] eqn:Hbase
  end; simpl in Hrun; [| discriminate].
  destruct (forEach _ _ _) as [st | m] eqn:Hloop; simpl in Hrun; [| discriminate].
  apply loop_chain_lbo in Hloop as (recs & Hcf & Hlen & Hchain); simpl in *.
  unfold indexZ in Hrun.
  destruct (Z.ltb_spec (holdPeriod this) 0) as [Hneg | Hpos]; [discriminate |].
  destruct (nth_error (projected st) (Z.to_nat (holdPeriod this)))
    as [exit |] eqn:Hexit; [| discriminate].
  destruct (calculateIRR _ _ _) as [irr | m] eqn:Hirr; simpl in Hrun;
    [| discriminate].
  injection Hrun as <-; simpl.
  exists baseline, exit. rewrite Hcf in *.
  split.
  { unfold baselineOf.
    destruct (truthy (DealParams.baseRevenue dp)).
    - now injection Hbase as <-.
    - destruct (read (DealParams.ebitdaMargin dp) 0) as [m |] eqn:Hm;
        simpl in Hbase; [| discriminate].
      injection Hbase as <-. eauto. }
  repeat split; auto; lia.
Qed.

End LBOPointEstimate.

Section RootFinderNaN.
Import LBO LBOSpec.

Lemma npvStep_NaN_acc (rate : num) (entry : nat * num) :
  npvStep rate (NaN, NaN) entry = (NaN, NaN).
Proof. now destruct entry. Qed.

Lemma npvStep_NaN_flow (rate : num) (acc : num * num) (i : nat) :
  npvStep rate acc (i, NaN) = (NaN, NaN).
Proof.
  destruct acc as [npv d]. unfold npvStep.
  now rewrite div_NaN_l, add_NaN_r, mul_NaN_r, div_NaN_l, sub_NaN_r.
Qed.

Lemma fold_npvStep_NaN (rate : num) (entries : list (nat * num)) :
  forall acc : num * num,
    acc = (NaN, NaN) \/ (exists i, In (i, NaN) entries) ->
    fold_left (npvStep rate) entries acc = (NaN, NaN).
Proof.
  induction entries as [| e rest IH]; intros acc Hnan; simpl.
  - destruct Hnan as [-> | [i []]]. reflexivity.
  - apply IH. destruct Hnan as [-> | [i [-> | Hin]]].
    + left. apply npvStep_NaN_acc.
    + left. apply npvStep_NaN_flow.
    + right. eauto.
Qed.

Lemma In_indexed (x : num) (l : list num) :
  forall s : nat,
    In x l -> exists i, In (i, x) (combine (seq s (List.length l)) l).
Proof.
  induction l as [| a l IH]; intros s Hin; [destruct Hin |].
  destruct Hin as [-> | Hin]; simpl.
  - exists s. now left.
  - destruct (IH (S s) Hin) as [i Hi]. exists i. now right.
Qed.

(** A [NaN] among the cash flows makes the net present value and its
    derivative [NaN] at every rate. *)
Lemma NPV_NaN (flows : list num) (rate : num) :
  In NaN flows -> NPV flows rate = NaN /\ NPV' flows rate = NaN.
Proof.
  intros Hin. unfold NPV, NPV', npvAndDerivative.
  rewrite fold_npvStep_NaN; [split; reflexivity |].
  right. unfold indexed. now apply In_indexed.
Qed.

(** ... so the loop runs out of iterations. *)
Lemma newton_NaN (flows : list num) (n : nat) :
  In NaN flows -> forall rate, exists m, newton flows n rate = Throw m.
Proof.
  intros Hin. induction n as [| n IH]; intros rate; simpl; [eauto |].
  destruct (NPV_NaN flows rate Hin) as [-> ->]. simpl. apply IH.
Qed.

Lemma allCashFlows_NaN (initialInvestment : num) (cashFlows : list num)
    (terminalValue : num) :
  In NaN cashFlows \/ terminalValue = NaN ->
  In NaN (allCashFlows initialInvestment cashFlows terminalValue).
Proof.
  intros Hnan. unfold allCashFlows.
  set (flows := neg initialInvestment :: cashFlows).
  apply in_or_app.
  destruct Hnan as [Hin | ->].
  - assert (Hflows : In NaN flows) by now right.
    rewrite (app_removelast_last NaN) in Hflows by discriminate.
    apply in_app_or in Hflows as [Hfront | [Hlast | []]]; [now left |].
    right. left. now rewrite Hlast.
  - right. left. apply add_NaN_r.
Qed.

Lemma calculateIRR_NaN (initialInvestment : num) (cashFlows : list num)
    (terminalValue : num) :
  In NaN cashFlows \/ terminalValue = NaN ->
  exists m, calculateIRR initialInvestment cashFlows terminalValue = Throw m.
Proof.
  intros Hnan. apply newton_NaN. now apply allCashFlows_NaN.
Qed.

End RootFinderNaN.

Section LBOYear.
Import LBO LBOSpec.

Variable dp : DealParams.t.

(** What one year of the loop computes. *)
Lemma projectYear_Ok_lbo (baseline debt : num) (y : nat) (r : YearProjection.t) :
  projectYear dp baseline debt y = Ok r ->
  YearProjection.year r = y
  /\ YearProjection.revenue r =
       (if Nat.eqb y 0 then baseline
        else baseline * Math_pow (one + growth dp y) (Z.of_nat y))
  /\ YearProjection.debtPaydown r =
       Math_max zero
         (YearProjection.freeCashFlow r
          * (DealParams.debtPaydownRate dp ||| dec 0.5))
  /\ YearProjection.cashToSponsor r =
       YearProjection.freeCashFlow r - YearProjection.debtPaydown r
  /\ YearProjection.debtBalance r =
       Math_max zero (debt - YearProjection.debtPaydown r)
  /\ CreditMetrics.debtToEbitda (YearProjection.creditMetrics r) =
       YearProjection.debtBalance r / YearProjection.ebitda r
  /\ CreditMetrics.ebitdaToInterest (YearProjection.creditMetrics r) =
       YearProjection.ebitda r / interestOn dp debt
  /\ CreditMetrics.fcfToDebt (YearProjection.creditMetrics r) =
       YearProjection.freeCashFlow r / YearProjection.debtBalance r
  /\ (debt = NaN ->
      YearProjection.cashToSponsor r = NaN /\ YearProjection.debtBalance r = NaN).
Proof.
  unfold projectYear, growth, interestOn.
  destruct (Nat.eqb y 0) eqn:Hy0.
  - simpl.
    destruct (read (DealParams.ebitdaMargin dp) y) as [m |]; [| discriminate].
    simpl.
    destruct (if truthy m then Ok m else read (DealParams.ebitdaMargin dp) 0)
      as [m0 |]; [| discriminate].
    simpl.
    destruct (read (DealParams.capexAsPercentOfRevenue dp) y) as [c |];
      [| discriminate].
    simpl.
    destruct (read (DealParams.workingCapitalChange dp) y) as [w |];
      [| discriminate].
    simpl. intros [= <-]. simpl. repeat (split; [reflexivity |]).
    intros ->. unfold calculateInterestExpense.
    rewrite ?mul_NaN_l, ?sub_NaN_r, ?mul_NaN_l, ?Math_max_NaN_r,
      ?sub_NaN_r, ?add_NaN_l, ?sub_NaN_l, ?mul_NaN_l, ?Math_max_NaN_r,
      ?sub_NaN_l, ?Math_max_NaN_r.
    now split.
  - destruct (read (DealParams.revenueGrowth dp) (y - 1)) as [g |] eqn:Hg;
      [| discriminate].
    apply read_entry in Hg. simpl.
    destruct (read (DealParams.ebitdaMargin dp) y) as [m |]; [| discriminate].
    simpl.
    destruct (if truthy m then Ok m else read (DealParams.ebitdaMargin dp) 0)
      as [m0 |]; [| discriminate].
    simpl.
    destruct (read (DealParams.capexAsPercentOfRevenue dp) y) as [c |];
      [| discriminate].
    simpl.
    destruct (read (DealParams.workingCapitalChange dp) y) as [w |];
      [| discriminate].
    simpl. intros [= <-]. simpl. rewrite Hg. repeat (split; [reflexivity |]).
    intros ->. unfold calculateInterestExpense.
    rewrite ?mul_NaN_l, ?sub_NaN_r, ?mul_NaN_l, ?Math_max_NaN_r,
      ?sub_NaN_r, ?add_NaN_l, ?sub_NaN_l, ?mul_NaN_l, ?Math_max_NaN_r,
      ?sub_NaN_l, ?Math_max_NaN_r.
    now split.
Qed.

End LBOYear.

Section LBOClaims.
Import LBO LBOSpec LBOExamples.

(** The projection of year [y] of a successful call is the loop body run
    on the balance of the year before. *)
Lemma projection_of_year (this : Model) (dp : DealParams.t) (r : Result.t)
    (y : nat) (p : YearProjection.t) :
  calculateLBO this dp = Ok r ->
  nth_error (Result.projections r) y = Some p ->
  exists baseline,
    baselineOf dp baseline
    /\ projectYear dp baseline
         (match y with
          | O => totalDebtOf dp
          | S j => match nth_error (Result.projections r) j with
                   | Some p' => YearProjection.debtBalance p'
                   | None => NaN
                   end
          end) y = Ok p.
Proof.
  intros Hrun Hp.
  apply calculateLBO_Ok in Hrun as (baseline & _ & Hbase & _ & _ & Hchain & _).
  exists baseline. split; [exact Hbase |].
  exact (Chain_nth_lbo dp baseline _ _ 0 y p Hchain Hp).
Qed.

(** C6.  In a successful call the revenue of year 0 is the baseline, and
    the revenue of every year [y >= 1] is that same baseline multiplied by
    [(1 + revenueGrowth[y - 1])^y]. *)
Theorem calculateLBO_revenue_from_baseline (this : Model) (dp : DealParams.t)
    (r : Result.t) :
  calculateLBO this dp = Ok r ->
  exists baseline,
    baselineOf dp baseline
    /\ (forall p, nth_error (Result.projections r) 0 = Some p ->
          YearProjection.revenue p = baseline)
    /\ (forall y p, (1 <= y)%nat ->
          nth_error (Result.projections r) y = Some p ->
          YearProjection.revenue p
          = baseline * Math_pow (one + growth dp y) (Z.of_nat y)).
Proof.
  intros Hrun.
  pose proof (calculateLBO_Ok this dp r Hrun)
    as (baseline & _ & Hbase & _ & _ & Hchain & _).
  exists baseline. split; [exact Hbase |]. split.
  - intros p Hp.
    pose proof (Chain_nth_lbo dp baseline _ _ 0 0 p Hchain Hp) as Hyear.
    now apply projectYear_Ok_lbo in Hyear as (_ & Hrev & _).
  - intros y p Hy Hp.
    pose proof (Chain_nth_lbo dp baseline _ _ 0 y p Hchain Hp) as Hyear.
    apply projectYear_Ok_lbo in Hyear as (_ & Hrev & _). simpl in Hrev.
    destruct y as [| y]; [lia | exact Hrev].
Qed.

Lemma calculateLBO_revenue_from_baseline_witness :
  exists r p1 p2,
    calculateLBO twoYearHold testDeal = Ok r
    /\ nth_error (Result.projections r) 1 = Some p1
    /\ nth_error (Result.projections r) 2 = Some p2
    /\ YearProjection.revenue p1 = dec 525
    /\ YearProjection.revenue p2 = dec 540.8
    /\ YearProjection.revenue p2 <> YearProjection.revenue p1 * (one + dec 0.04).
Proof.
  assert (Hreturns :
            exists r p1 p2,
              calculateLBO twoYearHold testDeal = Ok r
              /\ nth_error (Result.projections r) 1 = Some p1
              /\ nth_error (Result.projections r) 2 = Some p2).
  { do 3 eexists. split; [vm_compute; reflexivity |].
    split; vm_compute; reflexivity. }
  destruct Hreturns as (r & p1 & p2 & Hrun & Hp1 & Hp2).
  exists r, p1, p2.
  split; [exact Hrun |]. split; [exact Hp1 |]. split; [exact Hp2 |].
  destruct (calculateLBO_revenue_from_baseline twoYearHold testDeal r Hrun)
    as (baseline & Hbase & _ & Hyears).
  unfold baselineOf in Hbase. simpl in Hbase.
  assert (H1 : YearProjection.revenue p1 = dec 525).
  { rewrite (Hyears 1%nat p1 (le_n 1) Hp1), Hbase. num_eq. }
  assert (H2 : YearProjection.revenue p2 = dec 540.8).
  { rewrite (Hyears 2%nat p2 (le_S 1 1 (le_n 1)) Hp2), Hbase. num_eq. }
  split; [exact H1 |]. split; [exact H2 |].
  rewrite H1, H2. vm_compute. intros [= Heq].
Defined.

(** The growth of a year is not chained onto the revenue of the year
    before: with growth 5% then 4% on a baseline of 500 the loop gives
    [500 * 1.04^2 = 540.8] for year 2, not [500 * 1.05 * 1.04 = 546]. *)
Example revenue_not_chained :
  exists st p,
    forEach (loopBody testDeal (dec 500)) (years defaultModel) (initial testDeal)
    = Ok st
    /\ nth_error (projected st) 2 = Some p
    /\ YearProjection.revenue p = dec 540.8
    /\ YearProjection.revenue p <> dec 500 * dec 1.05 * dec 1.04.
Proof.
  eexists. eexists. split; [vm_compute; reflexivity |].
  split; [vm_compute; reflexivity |].
  split; [num_eq |].
  vm_compute. intros [= Heq].
Qed.

(** A successful call has no [NaN] among its debt balances: a [NaN]
    balance would reach the cash-flow stream of the root finder, which
    then runs out of iterations. *)
Lemma debtBalance_not_NaN (this : Model) (dp : DealParams.t) (r : Result.t)
    (y : nat) (p : YearProjection.t) :
  calculateLBO this dp = Ok r ->
  nth_error (Result.projections r) y = Some p ->
  YearProjection.debtBalance p <> NaN.
Proof.
  intros Hrun Hp Hnan.
  pose proof (calculateLBO_Ok this dp r Hrun)
    as (baseline & exit & _ & Hh & Hlen & Hchain & Hexit & Hequity & Hirr).
  destruct (calculateIRR_NaN (Returns.entryEquity (Result.returns r))
              (map YearProjection.cashToSponsor (tl (Result.projections r)))
              (Returns.exitEquityValue (Result.returns r))) as [m Hm];
    [| congruence].
  assert (Hy : (y < List.length (Result.projections r))%nat)
    by (apply nth_error_Some; congruence).
  destruct (Nat.eq_dec y (Z.to_nat (holdPeriod this))) as [-> | Hne].
  - (* the balance at exit *)
    right. rewrite Hequity.
    replace exit with p by congruence. rewrite Hnan. apply sub_NaN_r.
  - (* the balance of an earlier year *)
    left.
    destruct (nth_error (Result.projections r) (S y)) as [q |] eqn:Hq;
      [| apply nth_error_None in Hq; lia].
    pose proof (Chain_nth_lbo dp baseline _ _ 0 (S y) q Hchain Hq) as Hyear.
    simpl in Hyear. rewrite Hp, Hnan in Hyear.
    apply projectYear_Ok_lbo in Hyear as (_ & _ & _ & _ & _ & _ & _ & _ & Hq').
    destruct (Hq' eq_refl) as [Hcash _].
    rewrite <- Hcash. apply in_map.
    destruct (Result.projections r) as [| p0 rest]; [discriminate |].
    simpl in *. eapply nth_error_In; exact Hq.
Qed.

(** C3.  In every successful call the debt balances never increase from
    one year to the next and are never negative, whatever the deal
    parameters (a negative free cash flow pays nothing down). *)
Theorem calculateLBO_debt_never_rises (this : Model) (dp : DealParams.t)
    (r : Result.t) :
  calculateLBO this dp = Ok r ->
  (forall y p, nth_error (Result.projections r) y = Some p ->
     (zero <=? YearProjection.debtBalance p) = true)
  /\ (forall y p q,
        nth_error (Result.projections r) y = Some p ->
        nth_error (Result.projections r) (S y) = Some q ->
        (YearProjection.debtBalance q <=? YearProjection.debtBalance p) = true).
Proof.
  intros Hrun.
  assert (Hfloor : forall y p, nth_error (Result.projections r) y = Some p ->
                     (zero <=? YearProjection.debtBalance p) = true).
  { intros y p Hp.
    pose proof (debtBalance_not_NaN this dp r y p Hrun Hp) as Hnan.
    destruct (projection_of_year this dp r y p Hrun Hp) as (baseline & _ & Hyear).
    apply projectYear_Ok_lbo in Hyear as (_ & _ & _ & _ & Hdebt & _).
    rewrite Hdebt in *. now apply Math_max_zero_nonneg. }
  split; [exact Hfloor |].
  intros y p q Hp Hq.
  pose proof (debtBalance_not_NaN this dp r (S y) q Hrun Hq) as Hnan.
  destruct (projection_of_year this dp r (S y) q Hrun Hq) as (baseline & _ & Hyear).
  rewrite Hp in Hyear.
  apply projectYear_Ok_lbo in Hyear as (_ & _ & Hpay & _ & Hdebt & _).
  rewrite Hdebt, Hpay in *.
  apply paydown_bounds; [exact (Hfloor y p Hp) | exact Hnan].
Qed.

Lemma calculateLBO_debt_never_rises_witness :
  exists r p q,
    calculateLBO oneYearHold zeroEbitdaDeal = Ok r
    /\ nth_error (Result.projections r) 0 = Some p
    /\ nth_error (Result.projections r) 1 = Some q
    /\ (zero <=? YearProjection.debtBalance q) = true
    /\ (YearProjection.debtBalance q <=? YearProjection.debtBalance p) = true.
Proof.
  destruct (calculateLBO oneYearHold zeroEbitdaDeal) as [r | m] eqn:Hrun;
    [| vm_compute in Hrun; discriminate].
  destruct (nth_error (Result.projections r) 0) as [p |] eqn:Hp;
    [| vm_compute in Hrun; injection Hrun as <-; discriminate Hp].
  destruct (nth_error (Result.projections r) 1) as [q |] eqn:Hq;
    [| vm_compute in Hrun; injection Hrun as <-; discriminate Hq].
  exists r, p, q.
  split; [reflexivity |]. split; [exact Hp |]. split; [exact Hq |].
  destruct (calculateLBO_debt_never_rises oneYearHold zeroEbitdaDeal r Hrun)
    as [Hfloor Hmono].
  split; [exact (Hfloor 1%nat q Hq) | exact (Hmono 0%nat p q Hp Hq)].
Defined.

(** C5, counterexample.  The deal of the repository's test with an
    EBITDA margin of zero in year 0, held for one year: the EBITDA of
    year 0 is zero and the call returns a result whose leverage ratio of
    that year, and whose maximum leverage, are [Infinity]. *)
Lemma calculateLBO_zero_ebitda_returns :
  exists r p,
    calculateLBO oneYearHold zeroEbitdaDeal = Ok r
    /\ nth_error (Result.projections r) 0 = Some p
    /\ YearProjection.ebitda p = zero
    /\ CreditMetrics.debtToEbitda (YearProjection.creditMetrics p) = PInf
    /\ CreditSummary.maxDebtToEbitda (Result.creditMetrics r) = PInf.
Proof.
  eexists. eexists. split; [vm_compute; reflexivity |].
  split; [vm_compute; reflexivity |].
  split; [num_eq |]. split; vm_compute; reflexivity.
Qed.

Lemma baselineOf_run (dp : DealParams.t) (baseline : num) :
  baselineOf dp baseline ->
  (if truthy (DealParams.baseRevenue dp)
   then Ok (toNumber (DealParams.baseRevenue dp))
   else
     m <- read (DealParams.ebitdaMargin dp) 0 ;;
     Ok (toNumber (DealParams.ebitda dp) / (m ||| dec 0.2)))
  = Ok baseline.
Proof.
  unfold baselineOf. destruct (truthy (DealParams.baseRevenue dp)).
  - now intros ->.
  - intros (m & -> & ->). reflexivity.
Qed.

(** C5, as the code has it.  Every failure of [calculateLBO] is an
    [Error] whose message starts with "LBO calculation failed: "; a
    failure of the root finder on the projected cash flows is such a
    failure, with the root finder's message after the prefix.  There is no
    guard on the divisions: in every successful call the credit ratios of
    a year are the plain quotients, and a year whose EBITDA is zero has a
    [debtToEbitda] that is [Infinity] or [NaN]. *)
Theorem calculateLBO_failures (this : Model) (dp : DealParams.t) :
  (forall m, calculateLBO this dp = Throw m ->
     exists m', m = ("LBO calculation failed: " ++ m')%string)
  /\ (forall baseline st exit m,
        baselineOf dp baseline ->
        forEach (loopBody dp baseline) (years this) (initial dp) = Ok st ->
        indexZ (projected st) (holdPeriod this) = Some exit ->
        calculateIRR (equityOf dp)
          (map YearProjection.cashToSponsor (tl (projected st)))
          (YearProjection.ebitda exit * toNumber (DealParams.exitMultiple dp)
           - YearProjection.debtBalance exit)
        = Throw m ->
        calculateLBO this dp = Throw ("LBO calculation failed: " ++ m)%string)
  /\ (forall r, calculateLBO this dp = Ok r ->
        forall y p, nth_error (Result.projections r) y = Some p ->
          CreditMetrics.debtToEbitda (YearProjection.creditMetrics p)
          = YearProjection.debtBalance p / YearProjection.ebitda p
          /\ CreditMetrics.fcfToDebt (YearProjection.creditMetrics p)
             = YearProjection.freeCashFlow p / YearProjection.debtBalance p
          /\ (YearProjection.ebitda p = zero ->
              isFinite (CreditMetrics.debtToEbitda (YearProjection.creditMetrics p))
              = false)).
Proof.
  split; [| split].
  - intros m. unfold calculateLBO.
    destruct (calculateLBO_body this dp) as [r | m0]; simpl; [discriminate |].
    intros [= <-]. eauto.
  - intros baseline st exit m Hbase Hloop Hexit Hirr.
    unfold calculateLBO, calculateLBO_body.
    fold (totalDebtOf dp). fold (initial dp). fold (equityOf dp).
    rewrite (baselineOf_run dp baseline Hbase). simpl.
    rewrite Hloop. simpl. rewrite Hexit, Hirr. reflexivity.
  - intros r Hrun y p Hp.
    destruct (projection_of_year this dp r y p Hrun Hp) as (baseline & _ & Hyear).
    apply projectYear_Ok_lbo in Hyear
      as (_ & _ & _ & _ & _ & Hlev & _ & Hfcf & _).
    split; [exact Hlev |]. split; [exact Hfcf |].
    intros Hzero. rewrite Hlev, Hzero. apply div_zero_not_finite.
Qed.

(** A failure of the root finder seen from outside: without an enterprise
    value the equity is [NaN] and the call throws the root finder's error
    under the prefix. *)
Example calculateLBO_root_finder_failure :
  calculateLBO oneYearHold noEnterpriseValue
  = Throw ("LBO calculation failed: " ++ maximumIterationsReached)%string.
Proof. vm_compute. reflexivity. Qed.

End LBOClaims.

(* ================================================================== *)
(** * The rates of the DCF Monte Carlo simulation                       *)
(* ================================================================== *)

Section SimulationRates.
Import DCF DCFExamples.

Lemma toR_quarter : Real.toR (dec 0.25) = (1 / 4)%R.
Proof.
  unfold Real.toR, dec, Q2Qc, this.
  change (Qred 0.25) with (1 # 4)%Q. unfold Q2R. simpl. lra.
Qed.

(** With both draws at a quarter the Box-Muller sample is zero, since
    [cos (2 * PI / 4) = 0]. *)
Lemma boxMuller_quarter (u1 : R) : Real.boxMuller u1 (1 / 4) = 0%R.
Proof.
  unfold Real.boxMuller.
  replace (2 * PI * (1 / 4))%R with (PI / 2)%R by lra.
  rewrite cos_PI2. ring.
Qed.

(** C7, counterexample.  [new DCFModel()] has rates 0.10 and 0.025.  When
    every draw of the iteration is 0.25, a Box-Muller sample is 0 whichever
    two draws it is made of, so the rates described are 0.10 and 0.025;
    the simulation uses 0.09 and 0.02. *)
Lemma simulation_rates_not_normal :
  let u := dec 0.25 in
  let used := simulationModel defaultModel u u in
  discountRate used = dec 0.09
  /\ terminalGrowthRate used = dec 0.02
  /\ Real.normalDiscountRate (Real.toR (discountRate defaultModel))
       (Real.toR u) (Real.toR u) = 0.10%R
  /\ Real.normalTerminalGrowth (Real.toR (terminalGrowthRate defaultModel))
       (Real.toR u) (Real.toR u) = 0.025%R
  /\ Real.toR (discountRate used)
     <> Real.normalDiscountRate (Real.toR (discountRate defaultModel))
          (Real.toR u) (Real.toR u)
  /\ Real.toR (terminalGrowthRate used)
     <> Real.normalTerminalGrowth (Real.toR (terminalGrowthRate defaultModel))
          (Real.toR u) (Real.toR u).
Proof.
  intros u used.
  assert (Hdr : discountRate used = dec 0.09) by (unfold used, u; num_eq).
  assert (Htg : terminalGrowthRate used = dec 0.02) by (unfold used, u; num_eq).
  assert (Hbase : Real.toR (discountRate defaultModel) = 0.10%R).
  { unfold Real.toR, defaultModel, constructor, discountRate, orElse; simpl.
    change (Qred 0.10) with (1 # 10)%Q. unfold Q2R. simpl. lra. }
  assert (Hbase' : Real.toR (terminalGrowthRate defaultModel) = 0.025%R).
  { unfold Real.toR, defaultModel, constructor, terminalGrowthRate, orElse; simpl.
    change (Qred 0.025) with (1 # 40)%Q. unfold Q2R. simpl. lra. }
  assert (Hn : Real.normalDiscountRate (Real.toR (discountRate defaultModel))
                 (Real.toR u) (Real.toR u) = 0.10%R).
  { unfold Real.normalDiscountRate, Real.normalRandom, u.
    rewrite Hbase, toR_quarter, boxMuller_quarter.
    unfold Rmax. destruct (Rle_dec 0.05 (0.10 + 0 * 0.04)); lra. }
  assert (Hn' : Real.normalTerminalGrowth (Real.toR (terminalGrowthRate defaultModel))
                  (Real.toR u) (Real.toR u) = 0.025%R).
  { unfold Real.normalTerminalGrowth, Real.normalRandom, u.
    rewrite Hbase', toR_quarter, boxMuller_quarter.
    unfold Rmax, Rmin.
    destruct (Rle_dec 0.05 (0.025 + 0 * 0.02)); [lra |].
    destruct (Rle_dec 0 (0.025 + 0 * 0.02)); lra. }
  split; [exact Hdr |]. split; [exact Htg |].
  split; [exact Hn |]. split; [exact Hn' |].
  rewrite Hn, Hn', Hdr, Htg. unfold Real.toR, dec, Q2Qc, this.
  change (Qred 0.09) with (9 # 100)%Q. change (Qred 0.02) with (1 # 50)%Q.
  unfold Q2R; simpl. split; lra.
Qed.

Lemma withRates_restore (this : Model) (dr tg : num) :
  withRates (withRates this dr tg) (discountRate this) (terminalGrowthRate this)
  = this.
Proof. now destruct this. Qed.

(** One iteration of the simulation loop, with the instance restored. *)
Lemma simulation_unfold `{MathLib} `{RandomSource} (fd : FinancialData.t)
    (p : Projections.t) (this : Model) (results : list Sample.t) (i k : nat) :
  simulation fd p (this, results) i k
  = match generateRandomProjections this p k with
    | (Ok randomProjections, k') =>
        let used :=
          simulationModel this (Math_random k') (Math_random (S k')) in
        (Ok (this, DCFSpec.record results (calculateDCF used fd randomProjections)),
         S (S k'))
    | (Throw m, k') => (Throw m, k')
    end.
Proof.
  unfold simulation, Rand.bind at 1.
  destruct (generateRandomProjections this p k) as [[rp | m] k'];
    [| reflexivity].
  unfold Rand.bind, Rand.random, Rand.ret, simulationModel.
  rewrite withRates_restore. unfold DCFSpec.record, DCFSpec.sampleOf.
  now destruct (calculateDCF _ fd rp).
Qed.

(** C7, as the code has it.  In an iteration whose random projections are
    generated, the two draws that follow them, [ud] and [ut], give the
    rates of the point estimate: [discountRate] is the base rate plus
    [(ud - 0.5) * 0.04] floored at 5%, and [terminalGrowthRate] the base
    rate plus [(ut - 0.5) * 0.02] kept within 0% and 5%.  For a draw in
    [0, 1) the first offset lies within 2% of the base rate and the second
    within 1%.  The Box-Muller transformation is used for the yearly
    assumptions only. *)
Theorem simulation_rates `{MathLib} `{RandomSource} (fd : FinancialData.t)
    (p : Projections.t) (this : Model) (results : list Sample.t) (i k : nat) :
  simulation fd p (this, results) i k
  = match generateRandomProjections this p k with
    | (Ok randomProjections, k') =>
        let used :=
          simulationModel this (Math_random k') (Math_random (S k')) in
        (Ok (this, DCFSpec.record results (calculateDCF used fd randomProjections)),
         S (S k'))
    | (Throw m, k') => (Throw m, k')
    end
  /\ (forall ud ut,
        discountRate (simulationModel this ud ut)
        = Math_max (dec 0.05) (discountRate this + (ud - dec 0.5) * dec 0.04)
        /\ terminalGrowthRate (simulationModel this ud ut)
           = Math_max zero
               (Math_min (dec 0.05)
                  (terminalGrowthRate this + (ut - dec 0.5) * dec 0.02)))
  /\ (forall b u : Qc,
        discountRate this = Fin b -> (0 <= u)%Qc -> (u < 1)%Qc ->
        exists x,
          randomDiscountRate this (Fin u) = Fin x
          /\ (b - Q2Qc 0.02 <= x)%Qc /\ (x < b + Q2Qc 0.02)%Qc)
  /\ (forall b u : Qc,
        terminalGrowthRate this = Fin b -> (0 <= u)%Qc -> (u < 1)%Qc ->
        exists x,
          randomTerminalGrowth this (Fin u) = Fin x
          /\ (b - Q2Qc 0.01 <= x)%Qc /\ (x < b + Q2Qc 0.01)%Qc).
Proof.
  split; [| split; [| split]].
  - apply simulation_unfold.
  - intros ud ut. split; reflexivity.
  - intros b u Hb Hu0 Hu1. unfold randomDiscountRate. rewrite Hb. simpl.
    eexists. split; [reflexivity |].
    split; qc_lra.
  - intros b u Hb Hu0 Hu1. unfold randomTerminalGrowth. rewrite Hb. simpl.
    eexists. split; [reflexivity |].
    split; qc_lra.
Qed.

End SimulationRates.

(* ================================================================== *)
(** * Failures inside the grids and the simulations                     *)
(* ================================================================== *)

Section BatchFailures.
Import DCF DCFSpec DCFExamples.

(** C8, the failing path.  The DCF sensitivity grid calls [calculateDCF]
    outside any [try]: with projections that leave the depreciation, capex
    and working-capital arrays out, the first cell throws and the whole
    grid ends with that exception instead of a list of rows, leaving the
    instance at the rates of that first cell. *)
Theorem sensitivityAnalysis_aborts :
  calculateDCF (withRates defaultModel (dec 0.08) (dec 0.015))
    testFinancialData growthAndMarginOnly
  = Throw "DCF calculation failed: Cannot read properties of undefined"
  /\ sensitivityAnalysis defaultModel testFinancialData growthAndMarginOnly
       defaultRanges
     = (withRates defaultModel (dec 0.08) (dec 0.015),
        Throw "DCF calculation failed: Cannot read properties of undefined").
Proof. split; reflexivity. Qed.

(** Any cell that throws ends the grid there. *)
Lemma sensitivityInner_throws (fd : FinancialData.t) (p : Projections.t)
    (dr tg : num) (rest : list num) (this : Model) (results : list Row.t)
    (m : string) :
  calculateDCF (withRates this dr tg) fd p = Throw m ->
  sensitivityInner fd p dr (tg :: rest) this results
  = (withRates this dr tg, Throw m).
Proof. intros Hcell. simpl. now rewrite Hcell. Qed.

End BatchFailures.

Section SiblingPaths.
Import LBO LBOSpec.

Variable this : Model.
Variable dp : DealParams.t.

Hypothesis holdPeriod_nonneg : (0 <= holdPeriod this)%Z.
Hypothesis holdPeriod_fits : (holdPeriod this <= maxArrayLength)%Z.

Lemma sensitivityCell_rows (em : num) (results : list Row.t) (rg : num) :
  sensitivityCell this dp em results rg = Ok (results ++ cellRows this dp em rg).
Proof.
  unfold sensitivityCell, arrayFill, cellRows, cellParams.
  destruct (Z.ltb_spec (holdPeriod this) 0) as [Hneg | _]; [lia |].
  destruct (Z.ltb_spec maxArrayLength (holdPeriod this)) as [Hbig | _]; [lia |].
  simpl.
  destruct (calculateLBO this _); [reflexivity |].
  now rewrite app_nil_r.
Qed.

Lemma sensitivity_row (em : num) (rgs : list num) :
  forall results,
    forEach (sensitivityCell this dp em) rgs results
    = Ok (results ++ flat_map (cellRows this dp em) rgs).
Proof.
  induction rgs as [| rg rest IH]; intros results; simpl.
  - now rewrite app_nil_r.
  - rewrite sensitivityCell_rows, IH. now rewrite app_assoc.
Qed.

Lemma sensitivity_grid (ems rgs : list num) :
  forall results,
    forEach
      (fun results em => forEach (sensitivityCell this dp em) rgs results)
      ems results
    = Ok (results
          ++ flat_map (fun em => flat_map (cellRows this dp em) rgs) ems).
Proof.
  induction ems as [| em rest IH]; intros results; simpl.
  - now rewrite app_nil_r.
  - rewrite sensitivity_row, IH. now rewrite app_assoc.
Qed.

(** X21.  The LBO sensitivity grid, the sibling of the DCF grid, catches
    the exception of a cell: with a hold period that is a possible array
    length (not negative and at most [2^32 - 1]) it always returns, and
    its rows are those of the cells whose point estimate returned, in grid
    order. *)
Lemma sensitivityAnalysis_lbo_rows (ranges : Ranges.t) :
  let ems := match Ranges.exitMultiples ranges with
             | Some l => l
             | None => defaultExitMultiples
             end in
  let rgs := match Ranges.revenueGrowthRates ranges with
             | Some l => l
             | None => defaultRevenueGrowthRates
             end in
  sensitivityAnalysis this dp ranges
  = Ok (flat_map (fun em => flat_map (cellRows this dp em) rgs) ems).
Proof.
  intros ems rgs. unfold sensitivityAnalysis. fold ems. fold rgs.
  now rewrite sensitivity_grid.
Qed.

End SiblingPaths.

Section MonteCarloSiblings.
Import LBOSpec.

Context `{MathLib} `{StatsLib} `{RandomSource}.

(** ** LBO simulation: everything is inside the [try] *)

Lemma lbo_simulation_total (this : LBO.Model) (dp : LBO.DealParams.t)
    (ds : option LBO.Distributions.t) (results : list LBO.Sample.t) (i k : nat) :
  exists results' k',
    LBO.simulation this dp ds results i k = (Ok results', k')
    /\ (List.length results <= List.length results' <= S (List.length results))%nat.
Proof.
  unfold LBO.simulation, Rand.bind at 1, Rand.try.
  match goal with
  | |- context [let (r, k') := ?c k in _] => destruct (c k) as [[lboResult | m] k']
  end; unfold Rand.ret; simpl.
  - eexists. eexists. split; [reflexivity |].
    rewrite length_app. simpl. lia.
  - eexists. eexists. split; [reflexivity | lia].
Qed.

Lemma lbo_simulations_total (this : LBO.Model) (dp : LBO.DealParams.t)
    (ds : option LBO.Distributions.t) (iterations : list nat) :
  forall (results : list LBO.Sample.t) (k : nat),
    exists results' k',
      Rand.forEach (LBO.simulation this dp ds) iterations results k
      = (Ok results', k')
      /\ (List.length results <= List.length results'
          <= List.length results + List.length iterations)%nat.
Proof.
  induction iterations as [| i rest IH]; intros results k; simpl.
  - exists results, k. split; [reflexivity | lia].
  - unfold Rand.bind.
    destruct (lbo_simulation_total this dp ds results i k)
      as (results1 & k1 & -> & Hlen1).
    destruct (IH results1 k1) as (results2 & k2 & -> & Hlen2).
    exists results2, k2. split; [reflexivity | lia].
Qed.

Lemma lbo_summarize_count (this : LBO.Model) (results : list LBO.Sample.t)
    (mc : LBO.MonteCarloResult.t) :
  LBO.summarize this results = Ok mc ->
  LBO.MonteCarloResult.simulations mc = List.length results
  /\ LBO.MonteCarloResult.results mc = firstn 100 results.
Proof.
  unfold LBO.summarize, LBO.stats5. intros Hsum.
  repeat match type of Hsum with
         | context [bind ?c _] =>
             destruct c; simpl in Hsum; try discriminate Hsum
         end.
  injection Hsum as <-. now split.
Qed.

(** The LBO simulation never leaves its loop on the exception of a draw:
    when the summary statistics are computed, the count returned is the
    number of samples that succeeded, at most the number requested. *)
Lemma monteCarioLBO_count (this : LBO.Model) (dp : LBO.DealParams.t)
    (ds : option LBO.Distributions.t) (simulations : option Z) (k k' : nat)
    (mc : LBO.MonteCarloResult.t) :
  LBO.monteCarioLBO this dp ds simulations k = (Ok mc, k') ->
  (LBO.MonteCarloResult.simulations mc
   <= Z.to_nat (match simulations with Some n => n | None => 5000%Z end))%nat.
Proof.
  unfold LBO.monteCarioLBO, Rand.bind, Rand.lift.
  match goal with
  | |- context [Rand.forEach ?b ?l ?s k] =>
      destruct (lbo_simulations_total this dp ds l s k)
        as (results & k1 & -> & Hlen)
  end.
  intros [= Hsum <-]. apply lbo_summarize_count in Hsum as [-> _].
  rewrite length_seq in Hlen. simpl in Hlen. lia.
Qed.

(** ** DCF simulation: the point estimate is inside the [try], the
    generation of the random projections is not *)

Lemma randomYear_complete (p : DCF.Projections.t) (acc : DCF.RandomArrays)
    (y k : nat) :
  DCFSpec.complete p ->
  exists acc' k', DCF.randomYear p acc y k = (Ok acc', k').
Proof.
  intros (Hg & Hm & Hd & Hc & Hw). unfold DCF.randomYear.
  destruct (DCF.Projections.revenueGrowth p); [| now elim Hg].
  destruct (DCF.Projections.ebitdaMargin p); [| now elim Hm].
  destruct (DCF.Projections.depreciation p); [| now elim Hd].
  destruct (DCF.Projections.capex p); [| now elim Hc].
  destruct (DCF.Projections.workingCapitalChange p); [| now elim Hw].
  unfold Rand.bind, Rand.lift, DCF.normalRandom, Rand.random, Rand.ret.
  simpl. eauto.
Qed.

Lemma randomYears_complete (p : DCF.Projections.t) (ys : list nat) :
  DCFSpec.complete p ->
  forall (acc : DCF.RandomArrays) (k : nat),
    exists acc' k', Rand.forEach (DCF.randomYear p) ys acc k = (Ok acc', k').
Proof.
  intros Hp. induction ys as [| y rest IH]; intros acc k; simpl.
  - unfold Rand.ret. eauto.
  - unfold Rand.bind.
    destruct (randomYear_complete p acc y k Hp) as (acc1 & k1 & ->).
    apply IH.
Qed.

Lemma generateRandomProjections_complete (this : DCF.Model)
    (p : DCF.Projections.t) (k : nat) :
  DCFSpec.complete p ->
  exists rp k', DCF.generateRandomProjections this p k = (Ok rp, k').
Proof.
  intros Hp. unfold DCF.generateRandomProjections, Rand.bind.
  match goal with
  | |- context [Rand.forEach ?b ?l ?s k] =>
      destruct (randomYears_complete p l Hp s k) as (acc & k1 & ->)
  end.
  unfold Rand.ret. eauto.
Qed.

Lemma dcf_simulations_total (this : DCF.Model) (fd : DCF.FinancialData.t)
    (p : DCF.Projections.t) (iterations : list nat) :
  DCFSpec.complete p ->
  forall (results : list DCF.Sample.t) (k : nat),
    exists results' k',
      Rand.forEach (DCF.simulation fd p) iterations (this, results) k
      = (Ok (this, results'), k')
      /\ (List.length results <= List.length results'
          <= List.length results + List.length iterations)%nat.
Proof.
  intros Hp. induction iterations as [| i rest IH]; intros results k.
  - exists results, k. split; [reflexivity | simpl; lia].
  - cbn [Rand.forEach List.length]. unfold Rand.bind at 1.
    rewrite (simulation_unfold fd p this results i k).
    destruct (generateRandomProjections_complete this p k Hp) as (rp & k1 & ->).
    cbv zeta.
    match goal with
    | |- context [DCFSpec.record results ?o] =>
        destruct (IH (DCFSpec.record results o) (S (S k1)))
          as (results2 & k2 & -> & Hlen2);
        assert (Hlen1 : (List.length results
                         <= List.length (DCFSpec.record results o)
                         <= S (List.length results))%nat)
          by (destruct o; simpl; [rewrite length_app; simpl |]; lia)
    end.
    exists results2, k2. split; [reflexivity | lia].
Qed.

Lemma dcf_summarize_count (results : list DCF.Sample.t)
    (mc : DCF.MonteCarloResult.t) :
  DCF.summarize results = Ok mc ->
  DCF.MonteCarloResult.simulations mc = List.length results
  /\ DCF.MonteCarloResult.results mc = firstn 100 results.
Proof.
  unfold DCF.summarize. intros Hsum.
  repeat match type of Hsum with
         | context [bind ?c _] =>
             destruct c; simpl in Hsum; try discriminate Hsum
         end.
  injection Hsum as <-. now split.
Qed.

(** With the five arrays supplied the DCF simulation stays in its loop,
    restores the instance, and counts the samples that succeeded. *)
Lemma monteCarloDCF_count (this this' : DCF.Model) (fd : DCF.FinancialData.t)
    (p : DCF.Projections.t) (simulations : option Z) (k k' : nat)
    (mc : DCF.MonteCarloResult.t) :
  DCFSpec.complete p ->
  DCF.monteCarloDCF this fd p simulations k = (Ok (this', mc), k') ->
  this' = this
  /\ (DCF.MonteCarloResult.simulations mc
      <= Z.to_nat (match simulations with Some n => n | None => 10000%Z end))%nat.
Proof.
  intros Hp. unfold DCF.monteCarloDCF, Rand.bind, Rand.lift, Rand.ret.
  match goal with
  | |- context [Rand.forEach ?b ?l ?s k] =>
      destruct (dcf_simulations_total this fd p l Hp [] k)
        as (results & k1 & -> & Hlen)
  end.
  simpl. destruct (DCF.summarize results) as [mc' |] eqn:Hsum; [| discriminate].
  intros [= <- <- <-]. split; [reflexivity |].
  apply dcf_summarize_count in Hsum as [-> _].
  rewrite length_seq in Hlen. simpl in Hlen. lia.
Qed.

(** The second unguarded call: [generateRandomProjections] runs before the
    [try], so projections that leave an array out end the simulation at
    its first iteration, whatever the libraries and the draws. *)
Lemma monteCarloDCF_aborts (n : positive) (k : nat) :
  DCF.monteCarloDCF DCFExamples.defaultModel DCFExamples.testFinancialData
    DCFExamples.growthAndMarginOnly (Some (Zpos n)) k
  = (Throw "Cannot read properties of undefined", (k + 4)%nat).
Proof.
  unfold DCF.monteCarloDCF.
  destruct (Z.to_nat (Z.pos n)) as [| m] eqn:Hn; [lia |].
  simpl. unfold Rand.bind, Rand.random, Rand.lift, Rand.ret. simpl.
  do 2 f_equal. lia.
Qed.

End MonteCarloSiblings.

(* ================================================================== *)
(** * Further properties of the DCF point estimate                      *)
(* ================================================================== *)

Section DCFCoverage.
Import DCF DCFSpec DCFExamples GridSpec.

Lemma projectYear_needs_arrays (this : Model) (p : Projections.t) (prev : num)
    (y : nat) (r : YearRecord.t) :
  projectYear this p prev y = Ok r -> complete p.
Proof.
  unfold projectYear, complete.
  destruct (Projections.revenueGrowth p); [| discriminate].
  destruct (Projections.ebitdaMargin p); [| discriminate].
  destruct (Projections.depreciation p); [| discriminate].
  destruct (Projections.capex p); [| discriminate].
  destruct (Projections.workingCapitalChange p); [| discriminate].
  intros _. repeat split; discriminate.
Qed.

Lemma calculateDCF_Ok_inputs (this : Model) (fd : FinancialData.t)
    (p : Projections.t) (r : Result.t) :
  calculateDCF this fd p = Ok r ->
  (1 <= projectionYears this)%Z /\ complete p.
Proof.
  intros Hrun.
  destruct (calculateDCF_Ok this fd p r Hrun) as (HN & Hlen & Hchain & _).
  split; [exact HN |].
  destruct (Result.projectedCashFlows r) as [| r0 rest];
    [simpl in Hlen; lia |].
  destruct Hchain as [Hyear _].
  exact (projectYear_needs_arrays this p _ _ r0 Hyear).
Qed.

Lemma calculateDCF_throws (this : Model) (fd : FinancialData.t)
    (p : Projections.t) :
  ~ ((1 <= projectionYears this)%Z /\ complete p) ->
  exists m, calculateDCF this fd p = Throw m.
Proof.
  intros Hbad. destruct (calculateDCF this fd p) as [r | m] eqn:Hrun; [| eauto].
  elim Hbad. exact (calculateDCF_Ok_inputs this fd p r Hrun).
Qed.

(** X1.  [calculateDCF] returns a result exactly when the model has at least one
    projection year and the projections carry their five arrays; every
    other call throws an [Error] whose message starts with
    "DCF calculation failed: ". *)
Theorem calculateDCF_returns_iff (this : Model) (fd : FinancialData.t)
    (p : Projections.t) :
  ((exists r, calculateDCF this fd p = Ok r)
   <-> (1 <= projectionYears this)%Z /\ complete p)
  /\ (forall m, calculateDCF this fd p = Throw m ->
        exists m', m = ("DCF calculation failed: " ++ m')%string).
Proof.
  split.
  - split.
    + intros [r Hrun]. exact (calculateDCF_Ok_inputs this fd p r Hrun).
    + intros [HN Hp]. now apply calculateDCF_returns.
  - intros m. unfold calculateDCF.
    destruct (calculateDCF_body this fd p) as [r | m0]; simpl; [discriminate |].
    intros [= <-]. eauto.
Qed.

(** X2.  The projected cash flows, the terminal value and the present value
    depend on the financial data through the revenue only: changing the
    shares outstanding or the current price leaves them as they are. *)
Theorem calculateDCF_value_from_revenue (this : Model)
    (fd fd' : FinancialData.t) (p : Projections.t) (r : Result.t) :
  FinancialData.revenue fd' = FinancialData.revenue fd ->
  calculateDCF this fd p = Ok r ->
  exists r',
    calculateDCF this fd' p = Ok r'
    /\ Result.projectedCashFlows r' = Result.projectedCashFlows r
    /\ Result.terminalValue r' = Result.terminalValue r
    /\ Result.presentValue r' = Result.presentValue r.
Proof.
  intros Hrev. unfold calculateDCF, calculateDCF_body. rewrite Hrev.
  destruct (forEach _ _ _) as [st | m]; simpl; [| discriminate].
  destruct (indexZ (cashFlows st) (projectionYears this - 1)) as [final |];
    simpl; [| discriminate].
  intros [= <-]. eexists. split; [reflexivity |]. simpl. auto.
Qed.

Lemma calculateDCF_value_from_revenue_witness :
  exists r r',
    calculateDCF defaultModel testFinancialData testProjections = Ok r
    /\ calculateDCF defaultModel
         {| FinancialData.revenue := Some (dec 1000);
            FinancialData.sharesOutstanding := None;
            FinancialData.currentPrice := Some (dec 7) |}
         testProjections = Ok r'
    /\ Result.presentValue r' = Result.presentValue r.
Proof.
  destruct (calculateDCF defaultModel testFinancialData testProjections)
    as [r | m] eqn:Hrun; [| vm_compute in Hrun; discriminate].
  destruct (calculateDCF_value_from_revenue defaultModel testFinancialData
              {| FinancialData.revenue := Some (dec 1000);
                 FinancialData.sharesOutstanding := None;
                 FinancialData.currentPrice := Some (dec 7) |}
              testProjections r eq_refl Hrun) as (r' & Hrun' & _ & _ & Hpv).
  exists r, r'. split; [reflexivity |]. split; [exact Hrun' | exact Hpv].
Defined.

(** Loops whose bodies agree on the elements visited give the same
    outcome. *)
Lemma forEach_ext {S A : Type} (f g : S -> A -> result S) (xs : list A) :
  (forall s x, In x xs -> f s x = g s x) ->
  forall s, forEach f xs s = forEach g xs s.
Proof.
  induction xs as [| x rest IH]; intros Hfg s; simpl; [reflexivity |].
  rewrite (Hfg s x (or_introl eq_refl)).
  destruct (g s x); [| reflexivity].
  apply IH. intros s' x' Hin. apply Hfg. now right.
Qed.

Lemma read_firstn (n : nat) (a : option (list num)) (i : nat) :
  (i < n)%nat -> read (option_map (firstn n) a) i = read a i.
Proof.
  intros Hi. destruct a as [l |]; simpl; [| reflexivity].
  unfold index. rewrite nth_error_firstn.
  now destruct (Nat.ltb_spec i n); [| lia].
Qed.

(** X3.  Only the first [N] entries of each array are read: entries past the
    projection horizon change neither the result nor the failure. *)
Theorem calculateDCF_reads_first_years (this : Model) (fd : FinancialData.t)
    (p : Projections.t) :
  calculateDCF this fd (truncated (Z.to_nat (projectionYears this)) p)
  = calculateDCF this fd p.
Proof.
  unfold calculateDCF, calculateDCF_body. f_equal. f_equal.
  apply forEach_ext. intros st y Hy. unfold years in Hy.
  apply in_seq in Hy. unfold loopBody, projectYear, truncated; simpl.
  now rewrite !read_firstn by lia.
Qed.

End DCFCoverage.

(* ================================================================== *)
(** * Further properties of the DCF sensitivity grid                    *)
(* ================================================================== *)

Section DCFGridCoverage.
Import DCF DCFSpec DCFExamples GridSpec.

Variable this : Model.
Variable fd : FinancialData.t.
Variable p : Projections.t.

Lemma sensitivityInner_complete (dr : num) (tgs : list num) :
  (1 <= projectionYears this)%Z -> complete p ->
  forall results,
    exists rows,
      sensitivityInner fd p dr tgs this results = (this, Ok (results ++ rows))
      /\ Forall2 (rowAt this fd p) (map (pair dr) tgs) rows.
Proof.
  intros HN Hp. induction tgs as [| tg rest IH]; intros results.
  - exists []. simpl. rewrite app_nil_r. split; [reflexivity | constructor].
  - cbn [sensitivityInner].
    destruct (calculateDCF_returns (withRates this dr tg) fd p HN Hp) as [d Hd].
    rewrite Hd, withRates_restore.
    destruct (IH (results ++ [rowOf dr tg d])) as (rows & Hrun & Hrows).
    exists (rowOf dr tg d :: rows). split.
    + unfold rowOf in *. rewrite Hrun. now rewrite <- app_assoc.
    + simpl. constructor; [| exact Hrows]. exists d. now split.
Qed.

Lemma sensitivityOuter_complete (drs tgs : list num) :
  (1 <= projectionYears this)%Z -> complete p ->
  forall results,
    exists rows,
      sensitivityOuter fd p drs tgs this results = (this, Ok (results ++ rows))
      /\ Forall2 (rowAt this fd p) (list_prod drs tgs) rows.
Proof.
  intros HN Hp. induction drs as [| dr rest IH]; intros results.
  - exists []. simpl. rewrite app_nil_r. split; [reflexivity | constructor].
  - cbn [sensitivityOuter list_prod].
    destruct (sensitivityInner_complete dr tgs HN Hp results)
      as (rows1 & -> & Hrows1).
    destruct (IH (results ++ rows1)) as (rows2 & -> & Hrows2).
    exists (rows1 ++ rows2). split; [now rewrite app_assoc |].
    now apply Forall2_app.
Qed.

(** X4.  With at least one projection year and the five arrays the DCF grid is
    complete: it returns one row per pair of rates, in discount-rate-major
    order, each row carrying the rates of its cell and the intrinsic value
    and upside of the point estimate at those rates; and the instance ends
    with the rates it started with. *)
Theorem sensitivityAnalysis_complete_grid (ranges : Ranges.t) :
  (1 <= projectionYears this)%Z -> complete p ->
  exists rows,
    sensitivityAnalysis this fd p ranges = (this, Ok rows)
    /\ Forall2 (rowAt this fd p)
         (list_prod (discountRatesOf ranges) (terminalGrowthRatesOf ranges))
         rows
    /\ List.length rows
       = (List.length (discountRatesOf ranges)
          * List.length (terminalGrowthRatesOf ranges))%nat.
Proof.
  intros HN Hp. unfold sensitivityAnalysis.
  fold (discountRatesOf ranges). fold (terminalGrowthRatesOf ranges).
  destruct (sensitivityOuter_complete (discountRatesOf ranges)
              (terminalGrowthRatesOf ranges) HN Hp [])
    as (rows & Hrun & Hrows).
  exists rows. split; [exact Hrun |]. split; [exact Hrows |].
  apply Forall2_length in Hrows. now rewrite <- Hrows, length_prod.
Qed.

(** X5.  When the point estimate cannot run (no projection year, or an array
    left out) a grid with at least one cell throws at its first cell, under
    the prefix of [calculateDCF], and leaves the instance at the rates of
    that cell. *)
Theorem sensitivityAnalysis_throws_at_first_cell (ranges : Ranges.t)
    (dr tg : num) (drs tgs : list num) :
  ~ ((1 <= projectionYears this)%Z /\ complete p) ->
  discountRatesOf ranges = dr :: drs ->
  terminalGrowthRatesOf ranges = tg :: tgs ->
  exists m,
    sensitivityAnalysis this fd p ranges
    = (withRates this dr tg, Throw ("DCF calculation failed: " ++ m)%string).
Proof.
  intros Hbad Hdrs Htgs. unfold sensitivityAnalysis.
  fold (discountRatesOf ranges). fold (terminalGrowthRatesOf ranges).
  rewrite Hdrs, Htgs. cbn [sensitivityOuter sensitivityInner].
  assert (Hbad' : ~ ((1 <= projectionYears (withRates this dr tg))%Z /\ complete p))
    by exact Hbad.
  unfold calculateDCF.
  destruct (calculateDCF_body (withRates this dr tg) fd p) as [r | m] eqn:Hbody.
  - elim Hbad'. apply (calculateDCF_Ok_inputs (withRates this dr tg) fd p r).
    unfold calculateDCF. now rewrite Hbody.
  - simpl. eauto.
Qed.

End DCFGridCoverage.

Section DCFGridWitnesses.
Import DCF DCFSpec DCFExamples GridSpec.

Lemma sensitivityAnalysis_complete_grid_witness :
  exists rows,
    sensitivityAnalysis defaultModel testFinancialData testProjections
      defaultRanges = (defaultModel, Ok rows)
    /\ List.length rows = 25%nat.
Proof.
  destruct (sensitivityAnalysis_complete_grid defaultModel testFinancialData
              testProjections defaultRanges)
    as (rows & Hrun & _ & Hlen).
  - vm_compute. discriminate.
  - repeat split; discriminate.
  - exists rows. split; [exact Hrun | exact Hlen].
Defined.

Lemma sensitivityAnalysis_throws_at_first_cell_witness :
  exists m,
    sensitivityAnalysis defaultModel testFinancialData growthAndMarginOnly
      defaultRanges
    = (withRates defaultModel (dec 0.08) (dec 0.015),
       Throw ("DCF calculation failed: " ++ m)%string).
Proof.
  apply (sensitivityAnalysis_throws_at_first_cell defaultModel testFinancialData
           growthAndMarginOnly defaultRanges (dec 0.08) (dec 0.015)
           (map dec [0.09; 0.10; 0.11; 0.12]%Q)
           (map dec [0.020; 0.025; 0.030; 0.035]%Q)).
  - intros [_ (_ & _ & Hd & _)]. now apply Hd.
  - reflexivity.
  - reflexivity.
Defined.

End DCFGridWitnesses.

(* ================================================================== *)
(** * Further properties of the DCF simulation                          *)
(* ================================================================== *)

Section DCFSimulationCoverage.
Import DCF DCFSpec DCFExamples GridSpec.

(** X6.  The rates of a simulation after clamping: the discount rate is at
    least 5%, the terminal growth rate lies between 0% and 5%, so the
    terminal growth rate never exceeds the discount rate and the
    denominator of the terminal value is never negative. *)
Theorem simulationModel_rates_ordered (this : Model) (b g ud ut : Qc) :
  discountRate this = Fin b -> terminalGrowthRate this = Fin g ->
  let used := simulationModel this (Fin ud) (Fin ut) in
  le (dec 0.05) (discountRate used)
  /\ le zero (terminalGrowthRate used)
  /\ le (terminalGrowthRate used) (dec 0.05)
  /\ le (terminalGrowthRate used) (discountRate used)
  /\ projectionYears used = projectionYears this
  /\ taxRate used = taxRate this.
Proof.
  intros Hb Hg used. unfold used, simulationModel, randomDiscountRate,
    randomTerminalGrowth, le, leb, Math_max, Math_min, zero, dec.
  rewrite Hb, Hg. simpl.
  qc_cases; simpl; qc_cases; simpl; qc_cases;
    repeat split; try reflexivity; try (exfalso; qc_lra).
Qed.

Lemma simulationModel_rates_ordered_witness :
  let used := simulationModel defaultModel (dec 0.9) (dec 0.1) in
  le (dec 0.05) (discountRate used)
  /\ le (terminalGrowthRate used) (discountRate used).
Proof.
  destruct (simulationModel_rates_ordered defaultModel (Q2Qc 0.10) (Q2Qc 0.025)
              (Q2Qc 0.9) (Q2Qc 0.1) eq_refl eq_refl)
    as (Hdr & _ & _ & Hle & _).
  split; [exact Hdr | exact Hle].
Defined.

Context `{MathLib} `{RandomSource}.

Lemma Math_abs_not_negative (x : num) : (Math_abs x <? zero) = false.
Proof.
  unfold ltb, zero, dec. destruct x as [a | | |]; simpl; try reflexivity.
  destruct (Qccompare_spec (Qcabs a) (Q2Qc 0)) as [Heq | Hlt | Hgt];
    try reflexivity.
  exfalso. apply (Qclt_not_le _ _ Hlt). apply Qcabs_nonneg.
Qed.

Lemma randomYear_shape (p : Projections.t) (acc : RandomArrays) (n y k : nat) :
  complete p -> WellShaped n acc ->
  exists acc',
    randomYear p acc y k = (Ok acc', (k + 10)%nat) /\ WellShaped (S n) acc'.
Proof.
  intros (Hg & Hm & Hd & Hc & Hw) (L1 & L2 & L3 & L4 & L5 & F1 & F2).
  unfold randomYear.
  destruct (Projections.revenueGrowth p); [| now elim Hg].
  destruct (Projections.ebitdaMargin p); [| now elim Hm].
  destruct (Projections.depreciation p); [| now elim Hd].
  destruct (Projections.capex p); [| now elim Hc].
  destruct (Projections.workingCapitalChange p); [| now elim Hw].
  unfold Rand.bind, Rand.lift, normalRandom, Rand.random, Rand.ret.
  replace (k + 10)%nat with (10 + k)%nat by lia. simpl.
  eexists. split; [reflexivity |].
  unfold WellShaped; simpl. rewrite !length_app; simpl.
  repeat split; try lia.
  - apply Forall_app. split; [exact F1 |].
    constructor; [apply Math_abs_not_negative | constructor].
  - apply Forall_app. split; [exact F2 |].
    constructor; [apply Math_abs_not_negative | constructor].
Qed.

Lemma randomYears_shape (p : Projections.t) (ys : list nat) :
  complete p ->
  forall (acc : RandomArrays) (n k : nat),
    WellShaped n acc ->
    exists acc',
      Rand.forEach (randomYear p) ys acc k
      = (Ok acc', (k + 10 * List.length ys)%nat)
      /\ WellShaped (n + List.length ys) acc'.
Proof.
  intros Hp. induction ys as [| y rest IH]; intros acc n k Hacc.
  - exists acc. simpl. unfold Rand.ret.
    rewrite !Nat.add_0_r. now split.
  - cbn [Rand.forEach List.length]. unfold Rand.bind at 1.
    destruct (randomYear_shape p acc n y k Hp Hacc) as (acc1 & -> & Hacc1).
    destruct (IH acc1 (S n) (k + 10)%nat Hacc1) as (acc2 & -> & Hacc2).
    exists acc2. split; [f_equal; lia |].
    now replace (n + S (List.length rest))%nat with (S n + List.length rest)%nat
      by lia.
Qed.

Lemma generateRandomProjections_runs (this : Model) (p : Projections.t)
    (k : nat) :
  complete p ->
  exists g m d c w,
    generateRandomProjections this p k
    = (Ok {| Projections.revenueGrowth := Some g;
             Projections.ebitdaMargin := Some m;
             Projections.depreciation := Some d;
             Projections.capex := Some c;
             Projections.workingCapitalChange := Some w |},
       (k + 10 * Z.to_nat (projectionYears this))%nat).
Proof.
  intros Hp. unfold generateRandomProjections, Rand.bind.
  match goal with
  | |- context [Rand.forEach ?b ?l ?s k] =>
      destruct (randomYears_shape p l Hp s 0 k) as (acc & Hrun & _)
  end.
  { unfold WellShaped; simpl. repeat split; constructor. }
  rewrite Hrun. rewrite length_seq.
  exists (ra_revenueGrowth acc), (ra_ebitdaMargin acc), (ra_depreciation acc),
    (ra_capex acc), (ra_workingCapitalChange acc).
  reflexivity.
Qed.

(** X7.  Given the five arrays, [generateRandomProjections] takes exactly
    [10 * N] draws and returns five arrays of [N] entries each, whose
    depreciation and capex entries are never negative, whatever the base
    values, the draws and the library. *)
Theorem generateRandomProjections_shape (this : Model) (p : Projections.t)
    (k : nat) :
  complete p ->
  let N := Z.to_nat (projectionYears this) in
  exists g m d c w,
    generateRandomProjections this p k
    = (Ok {| Projections.revenueGrowth := Some g;
             Projections.ebitdaMargin := Some m;
             Projections.depreciation := Some d;
             Projections.capex := Some c;
             Projections.workingCapitalChange := Some w |},
       (k + 10 * N)%nat)
    /\ List.length g = N /\ List.length m = N /\ List.length d = N
    /\ List.length c = N /\ List.length w = N
    /\ Forall (fun x => (x <? zero) = false) d
    /\ Forall (fun x => (x <? zero) = false) c.
Proof.
  intros Hp N. unfold generateRandomProjections, Rand.bind.
  match goal with
  | |- context [Rand.forEach ?b ?l ?s k] =>
      destruct (randomYears_shape p l Hp s 0 k) as (acc & Hrun & Hacc)
  end.
  { unfold WellShaped; simpl. repeat split; constructor. }
  rewrite Hrun. rewrite length_seq in *. fold N in Hacc |- *.
  destruct Hacc as (L1 & L2 & L3 & L4 & L5 & F1 & F2).
  exists (ra_revenueGrowth acc), (ra_ebitdaMargin acc), (ra_depreciation acc),
    (ra_capex acc), (ra_workingCapitalChange acc).
  unfold Rand.ret. simpl in *. repeat split; auto.
Qed.

End DCFSimulationCoverage.

Section DCFSimulationLoop.
Import DCF DCFSpec DCFExamples GridSpec.

Context `{MathLib} `{StatsLib} `{RandomSource}.

Variable this : Model.
Variable fd : FinancialData.t.
Variable p : Projections.t.

Lemma simulation_records (results : list Sample.t) (i k : nat) :
  (1 <= projectionYears this)%Z -> complete p ->
  exists sample,
    simulation fd p (this, results) i k
    = (Ok (this, results ++ [sample]),
       (k + (10 * Z.to_nat (projectionYears this) + 2))%nat).
Proof.
  intros HN Hp. rewrite simulation_unfold.
  destruct (generateRandomProjections_runs this p k Hp)
    as (g & m & d & c & w & ->).
  cbv zeta.
  match goal with
  | |- context [calculateDCF ?used fd ?rp] =>
      destruct (calculateDCF_returns used fd rp HN) as [r ->]
  end.
  { repeat split; discriminate. }
  exists (sampleOf r). simpl. f_equal. lia.
Qed.

(** X8.  With at least one projection year and the five arrays no simulation
    fails: after [n] iterations there are exactly [n] more samples, the
    instance has the rates it started with, and [(10 * N + 2) * n] draws
    have been taken. *)
Theorem simulations_all_recorded (n start : nat) :
  (1 <= projectionYears this)%Z -> complete p ->
  forall (results : list Sample.t) (k : nat),
    exists samples,
      Rand.forEach (simulation fd p) (seq start n) (this, results) k
      = (Ok (this, results ++ samples),
         (k + (10 * Z.to_nat (projectionYears this) + 2) * n)%nat)
      /\ List.length samples = n.
Proof.
  intros HN Hp. revert start.
  induction n as [| n IH]; intros start results k.
  - exists []. simpl. unfold Rand.ret. rewrite app_nil_r.
    split; [f_equal; lia | reflexivity].
  - cbn [seq Rand.forEach]. unfold Rand.bind at 1.
    destruct (simulation_records results start k HN Hp) as (sample & ->).
    destruct (IH (S start) (results ++ [sample])
                (k + (10 * Z.to_nat (projectionYears this) + 2))%nat)
      as (samples & -> & Hlen).
    exists (sample :: samples). split.
    + rewrite <- app_assoc. simpl. f_equal. lia.
    + simpl. now rewrite Hlen.
Qed.

Lemma randomYear_incomplete (acc : RandomArrays) (y k : nat) :
  ~ complete p ->
  exists k',
    randomYear p acc y k = (Throw "Cannot read properties of undefined", k').
Proof.
  intros Hbad. unfold randomYear, complete in *.
  unfold Rand.bind, Rand.lift, normalRandom, Rand.random, Rand.ret.
  destruct (Projections.revenueGrowth p); simpl; [| eauto].
  destruct (Projections.ebitdaMargin p); simpl; [| eauto].
  destruct (Projections.depreciation p); simpl; [| eauto].
  destruct (Projections.capex p); simpl; [| eauto].
  destruct (Projections.workingCapitalChange p); simpl; [| eauto].
  elim Hbad. repeat split; discriminate.
Qed.

(** X9.  When an array is left out the simulation does not reach its [try]:
    with at least one projection year and one iteration requested,
    [monteCarloDCF] throws the [TypeError] of [generateRandomProjections],
    without the prefix of [calculateDCF] and without a result. *)
Theorem monteCarloDCF_throws_on_missing_array (n : positive) (k : nat) :
  (1 <= projectionYears this)%Z -> ~ complete p ->
  exists k',
    monteCarloDCF this fd p (Some (Zpos n)) k
    = (Throw "Cannot read properties of undefined", k').
Proof.
  intros HN Hbad. unfold monteCarloDCF.
  destruct (Z.to_nat (Z.pos n)) as [| m] eqn:Hn; [lia |].
  cbn [seq Rand.forEach]. unfold Rand.bind at 1 2.
  rewrite simulation_unfold.
  unfold generateRandomProjections, Rand.bind at 1.
  destruct (Z.to_nat (projectionYears this)) as [| N] eqn:HNat; [lia |].
  cbn [seq Rand.forEach]. unfold Rand.bind at 1.
  match goal with
  | |- context [randomYear p ?acc ?y k] =>
      destruct (randomYear_incomplete acc y k Hbad) as [k' ->]
  end.
  eauto.
Qed.

End DCFSimulationLoop.

Section DCFSimulationWitnesses.
Import DCF DCFSpec DCFExamples GridSpec SampleLibraries.

Lemma complete_testProjections : complete testProjections.
Proof. repeat split; discriminate. Qed.

Lemma incomplete_growthAndMarginOnly : ~ complete growthAndMarginOnly.
Proof. intros (_ & _ & Hd & _). now apply Hd. Qed.

Lemma generateRandomProjections_shape_witness :
  exists g m d c w,
    @generateRandomProjections flatMath halves defaultModel testProjections 0%nat
    = (Ok {| Projections.revenueGrowth := Some g;
             Projections.ebitdaMargin := Some m;
             Projections.depreciation := Some d;
             Projections.capex := Some c;
             Projections.workingCapitalChange := Some w |}, 50%nat)
    /\ List.length d = 5%nat
    /\ Forall (fun x => (x <? zero) = false) d.
Proof.
  destruct (@generateRandomProjections_shape flatMath halves defaultModel
              testProjections 0%nat complete_testProjections)
    as (g & m & d & c & w & Hrun & _ & _ & Hlen & _ & _ & Hd & _).
  exists g, m, d, c, w. split; [exact Hrun |]. split; [exact Hlen | exact Hd].
Defined.

Lemma simulations_all_recorded_witness :
  exists samples,
    @Rand.forEach _ _
      (@simulation flatMath halves testFinancialData testProjections)
      (seq 0 3) (defaultModel, []) 0%nat
    = (Ok (defaultModel, samples), 156%nat)
    /\ List.length samples = 3%nat.
Proof.
  destruct (@simulations_all_recorded flatMath halves defaultModel
              testFinancialData testProjections 3%nat 0%nat) with (results := @nil Sample.t)
                                                          (k := 0%nat)
    as (samples & Hrun & Hlen).
  - vm_compute. discriminate.
  - exact complete_testProjections.
  - exists samples. split; [exact Hrun | exact Hlen].
Defined.

Lemma monteCarloDCF_throws_on_missing_array_witness :
  exists k',
    @monteCarloDCF flatMath silentStats halves defaultModel testFinancialData
      growthAndMarginOnly (Some 1000%Z) 0%nat
    = (Throw "Cannot read properties of undefined", k').
Proof.
  apply (@monteCarloDCF_throws_on_missing_array flatMath silentStats halves
           defaultModel testFinancialData growthAndMarginOnly 1000%positive 0%nat).
  - vm_compute. discriminate.
  - exact incomplete_growthAndMarginOnly.
Defined.

End DCFSimulationWitnesses.

(* ================================================================== *)
(** * The cost of capital                                               *)
(* ================================================================== *)

Section CostOfCapital.
Import DCF GridSpec SampleLibraries.

Lemma Qc_weights (e d : Qc) :
  (0 <= e)%Qc -> (0 <= d)%Qc -> (0 < e + d)%Qc ->
  (0 <= e / (e + d))%Qc /\ (0 <= d / (e + d))%Qc
  /\ (e / (e + d) + d / (e + d) = 1)%Qc.
Proof.
  intros He Hd Ht.
  assert (Hne : (e + d)%Qc <> Q2Qc 0).
  { intros Heq. rewrite Heq in Ht. now apply (Qclt_not_le _ _ Ht), Qcle_refl. }
  assert (Hinv : (0 < / (e + d))%Qc).
  { unfold Qclt in *. cbn [this Qcinv Q2Qc] in *.
    rewrite ?Qred_correct in *. now apply Qinv_lt_0_compat. }
  split; [| split]; [| | field; exact Hne].
  - unfold Qcdiv, Qcle, Qclt in *. cbn [this Qcmult Q2Qc] in *.
    rewrite ?Qred_correct in *.
    apply Qmult_le_0_compat; [exact He | now apply Qlt_le_weak].
  - unfold Qcdiv, Qcle, Qclt in *. cbn [this Qcmult Q2Qc] in *.
    rewrite ?Qred_correct in *.
    apply Qmult_le_0_compat; [exact Hd | now apply Qlt_le_weak].
Qed.

(** X11.  For a capital structure of finite, non-negative equity and debt that
    are not both zero, the WACC is a weighted average: a finite number
    between the after-tax cost of debt and the cost of equity. *)
Theorem calculateWACC_between (e d ce cd t : Qc) :
  (0 <= e)%Qc -> (0 <= d)%Qc -> (0 < e + d)%Qc ->
  let params := {| WACCParams.marketValueEquity := Some (Fin e);
                   WACCParams.marketValueDebt := Some (Fin d);
                   WACCParams.costOfEquity := Some (Fin ce);
                   WACCParams.costOfDebt := Some (Fin cd);
                   WACCParams.taxRate := Some (Fin t) |} in
  exists w,
    calculateWACC params = Fin w
    /\ (cd * (1 - t) <= ce -> cd * (1 - t) <= w /\ w <= ce)%Qc
    /\ (ce <= cd * (1 - t) -> ce <= w /\ w <= cd * (1 - t))%Qc.
Proof.
  intros He Hd Ht params.
  destruct (Qc_weights e d He Hd Ht) as (Hw1 & Hw2 & Hsum).
  assert (Hne : (e + d)%Qc <> Q2Qc 0).
  { intros Heq. rewrite Heq in Ht. now apply (Qclt_not_le _ _ Ht), Qcle_refl. }
  unfold calculateWACC, params; simpl.
  destruct (Qc_eq_dec (e + d) (Q2Qc 0)) as [Heq | _]; [now elim Hne |].
  eexists. split; [reflexivity |].
  set (w1 := (e / (e + d))%Qc) in *. set (w2 := (d / (e + d))%Qc) in *.
  clearbody w1 w2. clear He Hd Ht Hne.
  apply Qc_eq_Qeq in Hsum.
  unfold Qcle in *. cbn [this Qcplus Qcopp Qcminus Qcmult Q2Qc] in *.
  rewrite ?Qred_correct in *.
  split; intros Hord; split; nra.
Qed.

Lemma calculateWACC_between_witness :
  exists w,
    calculateWACC sixtyForty = Fin w
    /\ (Q2Qc 0.06 * (1 - Q2Qc 0.25) <= w)%Qc /\ (w <= Q2Qc 0.12)%Qc.
Proof.
  destruct (calculateWACC_between (Q2Qc 600) (Q2Qc 400) (Q2Qc 0.12) (Q2Qc 0.06)
              (Q2Qc 0.25)) as (w & Hrun & Hlow & _).
  - vm_compute. discriminate.
  - vm_compute. discriminate.
  - reflexivity.
  - exists w. split; [exact Hrun |]. apply Hlow. vm_compute. discriminate.
Defined.

Lemma not_finite_mul (x y : num) :
  isFinite x = false -> isFinite (x * y) = false.
Proof.
  destruct x as [a | | |], y as [b | | |]; simpl; try discriminate;
    try reflexivity; intros _.
  all: now destruct (b ?= Q2Qc 0)%Qc.
Qed.

Lemma not_finite_add (x y : num) :
  isFinite x = false -> isFinite (x + y) = false.
Proof. now destruct x as [a | | |], y as [b | | |]. Qed.

(** X12.  [calculateWACC] checks nothing and never throws: when equity and debt
    are finite and sum to zero, the weights are quotients by zero and the
    result is [Infinity], [-Infinity] or [NaN]; when a parameter is
    missing the result is [NaN]. *)
Theorem calculateWACC_degenerate (params : WACCParams.t) :
  (forall e d : Qc,
     WACCParams.marketValueEquity params = Some (Fin e) ->
     WACCParams.marketValueDebt params = Some (Fin d) ->
     (e + d = 0)%Qc ->
     isFinite (calculateWACC params) = false)
  /\ (WACCParams.marketValueEquity params = None
      \/ WACCParams.marketValueDebt params = None
      \/ WACCParams.costOfEquity params = None
      \/ WACCParams.costOfDebt params = None
      \/ WACCParams.taxRate params = None ->
      calculateWACC params = NaN).
Proof.
  split.
  - intros e d He Hd Hsum. unfold calculateWACC. rewrite He, Hd.
    apply not_finite_add, not_finite_mul. simpl. rewrite Hsum.
    destruct (Qc_eq_dec 0 (Q2Qc 0)) as [_ | Hne]; [| now elim Hne].
    now destruct (e ?= Q2Qc 0)%Qc.
  - unfold calculateWACC.
    intros [-> | [-> | [-> | [-> | ->]]]]; simpl.
    + reflexivity.
    + now rewrite add_NaN_r.
    + now rewrite mul_NaN_r.
    + now rewrite mul_NaN_r, mul_NaN_l, add_NaN_r.
    + change (one - NaN) with NaN. now rewrite mul_NaN_r, add_NaN_r.
Qed.

(** X13.  The CAPM cost of equity of finite parameters is finite; with a premium
    that is not negative it does not decrease when beta increases, and at
    a beta of zero it is the risk-free rate. *)
Theorem calculateCostOfEquity_monotone (rf mrp beta beta' : Qc) :
  (0 <= mrp)%Qc -> (beta <= beta')%Qc ->
  let cost b :=
    calculateCostOfEquity
      {| CAPMParams.riskFreeRate := Some (Fin rf);
         CAPMParams.beta := Some (Fin b);
         CAPMParams.marketRiskPremium := Some (Fin mrp) |} in
  le (cost beta) (cost beta')
  /\ cost (Q2Qc 0) = Fin rf.
Proof.
  intros Hmrp Hbeta cost. unfold cost, calculateCostOfEquity, le, leb; simpl.
  split.
  - destruct (Qccompare_spec (rf + beta * mrp) (rf + beta' * mrp))
      as [Heq | Hlt | Hgt]; try reflexivity.
    exfalso. unfold Qclt, Qcle in *.
    cbn [this Qcplus Qcopp Qcminus Qcmult Q2Qc] in *.
    rewrite ?Qred_correct in *. nra.
  - apply Fin_eq. cbn [this Qcplus Qcmult Q2Qc].
    rewrite ?Qred_correct. ring.
Qed.

Lemma calculateCostOfEquity_monotone_witness :
  le (calculateCostOfEquity
        {| CAPMParams.riskFreeRate := Some (dec 0.03);
           CAPMParams.beta := Some (dec 0.8);
           CAPMParams.marketRiskPremium := Some (dec 0.06) |})
     (calculateCostOfEquity
        {| CAPMParams.riskFreeRate := Some (dec 0.03);
           CAPMParams.beta := Some (dec 1.2);
           CAPMParams.marketRiskPremium := Some (dec 0.06) |}).
Proof.
  apply (calculateCostOfEquity_monotone (Q2Qc 0.03) (Q2Qc 0.06) (Q2Qc 0.8)
           (Q2Qc 1.2)).
  - vm_compute. discriminate.
  - vm_compute. discriminate.
Defined.

End CostOfCapital.

(* ================================================================== *)
(** * The LBO point estimate: sources, uses and the debt schedule        *)
(* ================================================================== *)

Section LBOCoverage.
Import LBO LBOSpec LBOExamples GridSpec SampleLibraries.

(** The sources, the uses and the summary figures of a successful call. *)
Lemma calculateLBO_Ok_summary (this : Model) (dp : DealParams.t) (r : Result.t) :
  calculateLBO this dp = Ok r ->
  exists exit,
    nth_error (Result.projections r) (Z.to_nat (holdPeriod this)) = Some exit
    /\ Sources.totalDebt (Result.sources r) = totalDebtOf dp
    /\ Sources.equityContribution (Result.sources r) = equityOf dp
    /\ Sources.totalSources (Result.sources r) = totalDebtOf dp + equityOf dp
    /\ Uses.totalUses (Result.uses r)
       = toNumber (DealParams.enterpriseValue dp) + (DealParams.fees dp ||| zero)
    /\ CreditSummary.debtPaydownOverHoldPeriod (Result.creditMetrics r)
       = totalDebtOf dp - YearProjection.debtBalance exit
    /\ CreditSummary.debtPaydownPercent (Result.creditMetrics r)
       = (totalDebtOf dp - YearProjection.debtBalance exit) / totalDebtOf dp
    /\ Returns.entryEquity (Result.returns r) = equityOf dp.
Proof.
  intros Hrun. unfold calculateLBO, calculateLBO_body in Hrun.
  fold (totalDebtOf dp) in Hrun. fold (equityOf dp) in Hrun.
  match type of Hrun with
  | rethrow _ (bind ?b _) = _ => destruct b as [baseline | m]
  end; simpl in Hrun; [| discriminate].
  destruct (forEach _ _ _) as [st | m]; simpl in Hrun; [| discriminate].
  unfold indexZ in Hrun.
  destruct (Z.ltb_spec (holdPeriod this) 0) as [Hneg | Hpos]; [discriminate |].
  destruct (nth_error (projected st) (Z.to_nat (holdPeriod this)))
    as [exit |] eqn:Hexit; [| discriminate].
  destruct (calculateIRR _ _ _) as [irr | m]; simpl in Hrun; [| discriminate].
  injection Hrun as <-; simpl.
  exists exit. now repeat split.
Qed.

(** X14.  Sources equal uses: with a finite enterprise value, finite debt
    tranches and finite fees, the total of the sources of a successful
    call is the total of its uses. *)
Theorem calculateLBO_sources_match_uses (this : Model) (dp : DealParams.t)
    (r : Result.t) :
  calculateLBO this dp = Ok r ->
  isFinite (toNumber (DealParams.enterpriseValue dp)) = true ->
  isFinite (totalDebtOf dp) = true ->
  isFinite (DealParams.fees dp ||| zero) = true ->
  Sources.totalSources (Result.sources r) = Uses.totalUses (Result.uses r)
  /\ Sources.totalDebt (Result.sources r)
     + Sources.equityContribution (Result.sources r)
     = Uses.totalUses (Result.uses r).
Proof.
  intros Hrun Hev Hdebt Hfees.
  apply calculateLBO_Ok_summary in Hrun
    as (exit & _ & -> & -> & -> & -> & _).
  unfold equityOf.
  destruct (isFinite_inv _ Hev) as [ev ->].
  destruct (isFinite_inv _ Hdebt) as [d ->].
  destruct (isFinite_inv _ Hfees) as [f ->].
  simpl. split; f_equal; ring.
Qed.

Lemma calculateLBO_sources_match_uses_witness :
  exists r,
    calculateLBO oneYearHold cashBurnDeal = Ok r
    /\ Sources.totalSources (Result.sources r) = Uses.totalUses (Result.uses r).
Proof.
  assert (Hreturns : exists r, calculateLBO oneYearHold cashBurnDeal = Ok r)
    by (eexists; vm_compute; reflexivity).
  destruct Hreturns as [r Hrun].
  exists r. split; [exact Hrun |].
  apply (calculateLBO_sources_match_uses oneYearHold cashBurnDeal r Hrun);
    reflexivity.
Defined.

(** X15.  The rate of the interest expense: a [weighted] rate that is a number
    other than zero is used as it is; without one, a missing tranche rate
    makes the blend [NaN] and the charge is 8% of the balance, whatever
    the other tranche rates are. *)
Theorem calculateInterestExpense_rate (debt : num) (rates : InterestRates.t) :
  (truthy (InterestRates.weighted rates) = true ->
   calculateInterestExpense debt rates
   = debt * toNumber (InterestRates.weighted rates))
  /\ (truthy (InterestRates.weighted rates) = false ->
      InterestRates.termLoanA rates = None
      \/ InterestRates.termLoanB rates = None
      \/ InterestRates.subordinated rates = None ->
      calculateInterestExpense debt rates = debt * dec 0.08).
Proof.
  unfold calculateInterestExpense, orValue. split.
  - intros Hw. rewrite Hw. now rewrite orElse_truthy.
  - intros Hw Hmissing. rewrite Hw.
    rewrite orElse_falsy; [reflexivity |].
    destruct Hmissing as [-> | [-> | ->]]; simpl.
    + reflexivity.
    + now rewrite add_NaN_r.
    + now rewrite add_NaN_r.
Qed.

Lemma Math_max_zero_nonpos (a : Qc) : (a <= 0)%Qc -> Math_max zero (Fin a) = zero.
Proof.
  intros Ha. unfold Math_max, zero, dec; simpl.
  destruct (Qccompare_spec (Q2Qc 0) a) as [Heq | Hlt | Hgt]; try reflexivity.
  exfalso. qc_lra.
Qed.

Lemma Math_max_zero_id (d : num) :
  (zero <=? d) = true -> Math_max zero (d - zero) = d.
Proof.
  unfold leb, Math_max, zero, dec, sub.
  destruct d as [a | | |]; simpl; try discriminate; try reflexivity.
  assert (Heq : (a + - Q2Qc 0)%Qc = a) by ring. rewrite Heq.
  destruct (Qccompare_spec (Q2Qc 0) a) as [<- | Hlt | Hgt];
    try reflexivity; discriminate.
Qed.

(** The balance of every year of a successful call is a number that is
    not negative. *)
Lemma debtBalance_nonneg (this : Model) (dp : DealParams.t) (r : Result.t)
    (y : nat) (p : YearProjection.t) :
  calculateLBO this dp = Ok r ->
  nth_error (Result.projections r) y = Some p ->
  (zero <=? YearProjection.debtBalance p) = true.
Proof.
  intros Hrun Hp.
  pose proof (debtBalance_not_NaN this dp r y p Hrun Hp) as Hnan.
  destruct (projection_of_year this dp r y p Hrun Hp) as (baseline & _ & Hyear).
  apply projectYear_Ok_lbo in Hyear as (_ & _ & _ & _ & Hdebt & _).
  rewrite Hdebt in *. now apply Math_max_zero_nonneg.
Qed.

(** X16.  A year that burns cash: when the free cash flow of a year after the
    first is negative (and the paydown rate is not), nothing is paid
    down, the balance of the year before is carried over unchanged and
    the whole shortfall is booked as a negative cash flow to the
    sponsor. *)
Theorem calculateLBO_cash_burn_year (this : Model) (dp : DealParams.t)
    (r : Result.t) (y : nat) (q p : YearProjection.t) (f k : Qc) :
  calculateLBO this dp = Ok r ->
  nth_error (Result.projections r) y = Some q ->
  nth_error (Result.projections r) (S y) = Some p ->
  YearProjection.freeCashFlow p = Fin f -> (f < 0)%Qc ->
  DealParams.debtPaydownRate dp ||| dec 0.5 = Fin k -> (0 <= k)%Qc ->
  YearProjection.debtPaydown p = zero
  /\ YearProjection.cashToSponsor p = Fin f
  /\ YearProjection.debtBalance p = YearProjection.debtBalance q.
Proof.
  intros Hrun Hq Hp Hf Hneg Hk Hpos.
  pose proof (debtBalance_nonneg this dp r y q Hrun Hq) as Hfloor.
  destruct (projection_of_year this dp r (S y) p Hrun Hp) as (baseline & _ & Hyear).
  rewrite Hq in Hyear.
  apply projectYear_Ok_lbo in Hyear as (_ & _ & Hpay & Hcash & Hdebt & _).
  rewrite Hf, Hk in Hpay. simpl in Hpay.
  rewrite Math_max_zero_nonpos in Hpay.
  - rewrite Hcash, Hdebt, Hpay, Hf. split; [reflexivity |]. split.
    + unfold zero, dec, sub; simpl. f_equal. ring.
    + now apply Math_max_zero_id.
  - unfold Qcle, Qclt in *. cbn [Qcanon.this Qcmult Q2Qc] in *.
    rewrite ?Qred_correct in *. nra.
Qed.

Lemma calculateLBO_cash_burn_year_witness :
  exists r q p f,
    calculateLBO oneYearHold cashBurnDeal = Ok r
    /\ nth_error (Result.projections r) 0 = Some q
    /\ nth_error (Result.projections r) 1 = Some p
    /\ YearProjection.freeCashFlow p = Fin f /\ (f < 0)%Qc
    /\ YearProjection.debtPaydown p = zero
    /\ YearProjection.debtBalance p = YearProjection.debtBalance q.
Proof.
  assert (Hreturns :
            exists r q p f,
              calculateLBO oneYearHold cashBurnDeal = Ok r
              /\ nth_error (Result.projections r) 0 = Some q
              /\ nth_error (Result.projections r) 1 = Some p
              /\ YearProjection.freeCashFlow p = Fin f /\ (f < 0)%Qc).
  { do 4 eexists. split; [vm_compute; reflexivity |].
    split; [vm_compute; reflexivity |]. split; [vm_compute; reflexivity |].
    split; vm_compute; reflexivity. }
  destruct Hreturns as (r & q & p & f & Hrun & Hq & Hp & Hf & Hneg).
  exists r, q, p, f.
  destruct (calculateLBO_cash_burn_year oneYearHold cashBurnDeal r 0 q p f
              (Q2Qc 0.5) Hrun Hq Hp Hf Hneg) as (Hpay & _ & Hdebt).
  - reflexivity.
  - vm_compute. discriminate.
  - repeat (split; [assumption |]). assumption.
Defined.


(** ** The debt schedule against the debt at entry *)

Lemma leb_trans (x y z : num) :
  (x <=? y) = true -> (y <=? z) = true -> (x <=? z) = true.
Proof.
  destruct x as [a | | |], y as [b | | |], z as [c | | |];
    try discriminate; try reflexivity.
  rewrite !leb_Fin. apply Qcle_trans.
Qed.

(** A number between zero and a finite number is finite. *)
Lemma between_Fin (x : num) (d : Qc) :
  (zero <=? x) = true -> (x <=? Fin d) = true ->
  exists e, x = Fin e /\ (0 <= e)%Qc /\ (e <= d)%Qc.
Proof.
  destruct x as [e | | |]; try discriminate.
  unfold zero, dec. rewrite !leb_Fin. eauto.
Qed.

Lemma Qc_share (e d : Qc) :
  (0 <= e)%Qc -> (e <= d)%Qc -> (0 < d)%Qc ->
  (0 <= (d + - e) / d)%Qc /\ ((d + - e) / d <= Q2Qc 1)%Qc.
Proof.
  intros He Hed Hd.
  unfold Qcdiv, Qcle, Qclt in *.
  cbn [Qcanon.this Qcmult Qcplus Qcopp Qcinv Q2Qc] in *.
  rewrite ?Qred_correct in *.
  split.
  - apply Qle_shift_div_l; [exact Hd | lra].
  - apply Qle_shift_div_r; [exact Hd | lra].
Qed.

Lemma chain_debt_bounded (dp : DealParams.t) (baseline : num)
    (recs : list YearProjection.t) :
  forall (debt : num) (y : nat),
    Chain dp baseline debt y recs ->
    (zero <=? debt) = true ->
    (forall p, In p recs -> YearProjection.debtBalance p <> NaN) ->
    forall p, In p recs ->
      (zero <=? YearProjection.debtBalance p) = true
      /\ (YearProjection.debtBalance p <=? debt) = true.
Proof.
  induction recs as [| r rs IH]; intros debt y Hchain Hdebt Hnan p Hin;
    [destruct Hin |].
  destruct Hchain as [Hyear Hrest].
  apply projectYear_Ok_lbo in Hyear as (_ & _ & Hpay & _ & Hbal & _).
  assert (Hr : (zero <=? YearProjection.debtBalance r) = true
               /\ (YearProjection.debtBalance r <=? debt) = true).
  { pose proof (Hnan r (or_introl eq_refl)) as Hr.
    rewrite Hbal in *. rewrite Hpay in *.
    split; [now apply Math_max_zero_nonneg | now apply paydown_bounds]. }
  destruct Hin as [<- | Hin]; [exact Hr |].
  destruct (IH _ _ Hrest (proj1 Hr) (fun p' Hp' => Hnan p' (or_intror Hp')) p Hin)
    as [Hfloor Hle].
  split; [exact Hfloor | exact (leb_trans _ _ _ Hle (proj2 Hr))].
Qed.

(** X17.  With a positive finite debt at entry, no balance of a successful call
    exceeds the debt at entry, so the debt paid down over the hold period
    lies between zero and the debt at entry, and the share paid down
    between 0 and 1. *)
Theorem calculateLBO_paydown_bounded (this : Model) (dp : DealParams.t)
    (r : Result.t) (d : Qc) :
  calculateLBO this dp = Ok r ->
  totalDebtOf dp = Fin d -> (0 < d)%Qc ->
  (forall y p, nth_error (Result.projections r) y = Some p ->
     le (YearProjection.debtBalance p) (Fin d))
  /\ le zero (CreditSummary.debtPaydownOverHoldPeriod (Result.creditMetrics r))
  /\ le (CreditSummary.debtPaydownOverHoldPeriod (Result.creditMetrics r)) (Fin d)
  /\ le zero (CreditSummary.debtPaydownPercent (Result.creditMetrics r))
  /\ le (CreditSummary.debtPaydownPercent (Result.creditMetrics r)) one.
Proof.
  intros Hrun Hdebt Hd.
  pose proof (calculateLBO_Ok this dp r Hrun)
    as (baseline & _ & _ & _ & _ & Hchain & _).
  rewrite Hdebt in Hchain.
  assert (Hzero : (zero <=? Fin d) = true).
  { unfold zero, dec. apply leb_Fin. now apply Qclt_le_weak. }
  assert (Hall : forall y p, nth_error (Result.projections r) y = Some p ->
                   (zero <=? YearProjection.debtBalance p) = true
                   /\ (YearProjection.debtBalance p <=? Fin d) = true).
  { intros y p Hp.
    apply (chain_debt_bounded dp baseline (Result.projections r) (Fin d) 0%nat
             Hchain Hzero).
    - intros p' Hin. apply In_nth_error in Hin as [y' Hp'].
      exact (debtBalance_not_NaN this dp r y' p' Hrun Hp').
    - eapply nth_error_In, Hp. }
  split; [intros y p Hp; exact (proj2 (Hall y p Hp)) |].
  destruct (calculateLBO_Ok_summary this dp r Hrun)
    as (exit & Hexit & _ & _ & _ & _ & -> & -> & _).
  destruct (Hall _ _ Hexit) as [Hfloor Hle].
  destruct (between_Fin _ _ Hfloor Hle) as (e & -> & He & Hed).
  rewrite Hdebt. unfold le, zero, one, dec, sub; simpl.
  destruct (Qc_eq_dec d (Q2Qc 0)) as [-> | _];
    [exfalso; now apply (Qclt_not_le _ _ Hd), Qcle_refl |].
  destruct (Qc_share e d He Hed Hd) as [Hlow Hhigh].
  rewrite !leb_Fin. repeat split; try assumption.
  - unfold Qcle in *. cbn [Qcanon.this Qcplus Qcopp Q2Qc] in *.
    rewrite ?Qred_correct in *. lra.
  - unfold Qcle in *. cbn [Qcanon.this Qcplus Qcopp Q2Qc] in *.
    rewrite ?Qred_correct in *. lra.
Qed.

Lemma calculateLBO_paydown_bounded_witness :
  exists r,
    calculateLBO oneYearHold cashBurnDeal = Ok r
    /\ le zero (CreditSummary.debtPaydownPercent (Result.creditMetrics r))
    /\ le (CreditSummary.debtPaydownPercent (Result.creditMetrics r)) one.
Proof.
  assert (Hreturns : exists r, calculateLBO oneYearHold cashBurnDeal = Ok r)
    by (eexists; vm_compute; reflexivity).
  destruct Hreturns as [r Hrun].
  exists r. split; [exact Hrun |].
  destruct (calculateLBO_paydown_bounded oneYearHold cashBurnDeal r (Q2Qc 550)
              Hrun) as (_ & _ & _ & Hlow & Hhigh).
  - vm_compute. apply Fin_eq. reflexivity.
  - reflexivity.
  - split; assumption.
Defined.

(** ** Calls that cannot return *)

Lemma calculateLBO_throw_prefix (this : Model) (dp : DealParams.t) (m : string) :
  calculateLBO this dp = Throw m ->
  exists m', m = ("LBO calculation failed: " ++ m')%string.
Proof.
  unfold calculateLBO.
  destruct (calculateLBO_body this dp) as [r | m0]; simpl; [discriminate |].
  intros [= <-]. eauto.
Qed.

Lemma calculateLBO_never_returns (this : Model) (dp : DealParams.t) :
  (forall r, calculateLBO this dp <> Ok r) ->
  exists m, calculateLBO this dp = Throw ("LBO calculation failed: " ++ m)%string.
Proof.
  intros Hnot. destruct (calculateLBO this dp) as [r | m] eqn:Hrun.
  - now elim (Hnot r).
  - apply calculateLBO_throw_prefix in Hrun as [m' ->]. eauto.
Qed.

(** X18.  A negative hold period: the loop does not run, there is no projection
    to exit from and the call fails, whatever the deal. *)
Theorem calculateLBO_negative_holdPeriod (this : Model) (dp : DealParams.t) :
  (holdPeriod this < 0)%Z ->
  exists m, calculateLBO this dp = Throw ("LBO calculation failed: " ++ m)%string.
Proof.
  intros Hneg. apply calculateLBO_never_returns. intros r Hrun.
  apply calculateLBO_Ok in Hrun as (_ & _ & _ & Hpos & _). lia.
Qed.

Lemma calculateLBO_negative_holdPeriod_witness :
  exists m,
    calculateLBO negativeHold testDeal
    = Throw ("LBO calculation failed: " ++ m)%string.
Proof.
  apply (calculateLBO_negative_holdPeriod negativeHold testDeal).
  reflexivity.
Defined.

(** A year whose revenue is [NaN] has a [NaN] cash flow to the sponsor. *)
Lemma projectYear_NaN_revenue (dp : DealParams.t) (baseline debt : num)
    (y : nat) (r : YearProjection.t) :
  projectYear dp baseline debt y = Ok r ->
  YearProjection.revenue r = NaN ->
  YearProjection.cashToSponsor r = NaN.
Proof.
  unfold projectYear.
  destruct (if Nat.eqb y 0 then _ else _) as [rev | m]; [| discriminate].
  simpl.
  destruct (read (DealParams.ebitdaMargin dp) y) as [m |]; [| discriminate].
  simpl.
  destruct (if truthy m then Ok m else read (DealParams.ebitdaMargin dp) 0)
    as [m0 |]; [| discriminate].
  simpl.
  destruct (read (DealParams.capexAsPercentOfRevenue dp) y) as [c |];
    [| discriminate].
  simpl.
  destruct (read (DealParams.workingCapitalChange dp) y) as [w |];
    [| discriminate].
  simpl. intros [= <-]. simpl. intros ->. reflexivity.
Qed.

Lemma pown_NaN (n : nat) : pown NaN (S n) = NaN.
Proof. reflexivity. Qed.

(** The sponsor's cash flows of a successful call hold no [NaN]. *)
Lemma cashToSponsor_not_NaN (this : Model) (dp : DealParams.t) (r : Result.t)
    (y : nat) (p : YearProjection.t) :
  calculateLBO this dp = Ok r ->
  nth_error (Result.projections r) (S y) = Some p ->
  YearProjection.cashToSponsor p <> NaN.
Proof.
  intros Hrun Hp Hnan.
  pose proof (calculateLBO_Ok this dp r Hrun)
    as (baseline & exit & _ & _ & _ & _ & _ & _ & Hirr).
  destruct (calculateIRR_NaN (Returns.entryEquity (Result.returns r))
              (map YearProjection.cashToSponsor (tl (Result.projections r)))
              (Returns.exitEquityValue (Result.returns r))) as [m Hm];
    [| congruence].
  left. rewrite <- Hnan. apply in_map.
  destruct (Result.projections r) as [| p0 rest]; [discriminate |].
  simpl in *. eapply nth_error_In; exact Hp.
Qed.

(** X19.  A growth array shorter than the hold period: the growth of a later
    year is [undefined], the revenue of that year and the cash flows that
    follow from it are [NaN], the root finder cannot converge and the
    call fails. *)
Theorem calculateLBO_short_growth_fails (this : Model) (dp : DealParams.t)
    (l : list num) :
  DealParams.revenueGrowth dp = Some l ->
  (Z.of_nat (List.length l) < holdPeriod this)%Z ->
  exists m, calculateLBO this dp = Throw ("LBO calculation failed: " ++ m)%string.
Proof.
  intros Hgrowth Hshort. apply calculateLBO_never_returns. intros r Hrun.
  pose proof (calculateLBO_Ok this dp r Hrun)
    as (baseline & _ & _ & _ & Hlen & Hchain & _).
  set (y := List.length l).
  destruct (nth_error (Result.projections r) (S y)) as [p |] eqn:Hp;
    [| apply nth_error_None in Hp; unfold y in Hp; lia].
  apply (cashToSponsor_not_NaN this dp r y p Hrun Hp).
  pose proof (Chain_nth_lbo dp baseline _ _ 0 (S y) p Hchain Hp) as Hyear.
  simpl in Hyear.
  apply (projectYear_NaN_revenue _ _ _ _ _ Hyear).
  apply projectYear_Ok_lbo in Hyear as (_ & -> & _). simpl.
  unfold growth, DCFSpec.entry. rewrite Hgrowth. simpl.
  rewrite Nat.sub_0_r. unfold index.
  assert (Hnone : nth_error l y = None) by (apply nth_error_None; unfold y; lia).
  rewrite Hnone. simpl.
  rewrite Math_pow_nonneg by lia.
  replace (Z.to_nat (Z.pos (Pos.of_succ_nat y))) with (S y) by lia.
  rewrite pown_NaN. apply mul_NaN_r.
Qed.

Lemma calculateLBO_short_growth_fails_witness :
  exists m,
    calculateLBO defaultModel shortGrowthDeal
    = Throw ("LBO calculation failed: " ++ m)%string.
Proof.
  apply (calculateLBO_short_growth_fails defaultModel shortGrowthDeal
           (map dec [0.05; 0.04]%Q)).
  - reflexivity.
  - reflexivity.
Defined.

Lemma allCashFlows_NaN_investment (cashFlows : list num) (terminalValue : num) :
  In NaN (allCashFlows NaN cashFlows terminalValue).
Proof.
  unfold allCashFlows. apply in_or_app.
  destruct cashFlows as [| c cs]; [right | left]; now left.
Qed.

Lemma calculateIRR_NaN_investment (cashFlows : list num) (terminalValue : num) :
  exists m, calculateIRR NaN cashFlows terminalValue = Throw m.
Proof. apply newton_NaN, allCashFlows_NaN_investment. Qed.

Lemma equityOf_missing (dp : DealParams.t) :
  DealParams.enterpriseValue dp = None -> equityOf dp = NaN.
Proof. unfold equityOf. now intros ->. Qed.

(** X20.  Without an enterprise value or without an exit multiple the equity
    invested or the equity at exit is [NaN], the root finder cannot
    converge and the call fails. *)
Theorem calculateLBO_missing_terms_fail (this : Model) (dp : DealParams.t) :
  DealParams.enterpriseValue dp = None \/ DealParams.exitMultiple dp = None ->
  exists m, calculateLBO this dp = Throw ("LBO calculation failed: " ++ m)%string.
Proof.
  intros Hmissing. apply calculateLBO_never_returns. intros r Hrun.
  pose proof (calculateLBO_Ok this dp r Hrun)
    as (baseline & exit & _ & _ & _ & _ & _ & Hequity & Hirr).
  destruct (calculateLBO_Ok_summary this dp r Hrun)
    as (_ & _ & _ & _ & _ & _ & _ & _ & Hentry).
  destruct Hmissing as [Hev | Hexit].
  - rewrite Hentry, (equityOf_missing dp Hev) in Hirr.
    destruct (calculateIRR_NaN_investment
                (map YearProjection.cashToSponsor (tl (Result.projections r)))
                (Returns.exitEquityValue (Result.returns r))) as [m Hm].
    rewrite Hm in Hirr. discriminate Hirr.
  - assert (Hnan : Returns.exitEquityValue (Result.returns r) = NaN).
    { rewrite Hequity, Hexit. unfold toNumber. now rewrite mul_NaN_r. }
    destruct (calculateIRR_NaN (Returns.entryEquity (Result.returns r))
                (map YearProjection.cashToSponsor (tl (Result.projections r)))
                (Returns.exitEquityValue (Result.returns r))) as [m Hm];
      [right; exact Hnan |].
    rewrite Hm in Hirr. discriminate Hirr.
Qed.

Lemma calculateLBO_missing_terms_fail_witness :
  exists m,
    calculateLBO oneYearHold noEnterpriseValue
    = Throw ("LBO calculation failed: " ++ m)%string.
Proof.
  apply (calculateLBO_missing_terms_fail oneYearHold noEnterpriseValue).
  left. reflexivity.
Defined.

End LBOCoverage.

(* ================================================================== *)
(** * The LBO grid and the LBO simulation                               *)
(* ================================================================== *)

Section LBOGridCoverage.
Import LBO LBOSpec LBOExamples GridSpec SampleLibraries.

Lemma sensitivityAnalysis_lbo_rows_witness :
  sensitivityAnalysis oneYearHold testDeal
    {| Ranges.exitMultiples := None; Ranges.revenueGrowthRates := None |}
  = Ok (flat_map
          (fun em =>
             flat_map (cellRows oneYearHold testDeal em) defaultRevenueGrowthRates)
          defaultExitMultiples).
Proof.
  apply (sensitivityAnalysis_lbo_rows oneYearHold testDeal).
  - vm_compute. discriminate.
  - vm_compute. discriminate.
Defined.

(** X22.  The LBO grid builds the growth array of a cell before its [try]: with
    a negative hold period and a grid that is not empty, the first cell
    throws the [RangeError] of [Array(-n)] and the analysis throws it on,
    without the prefix of the point estimate and without a row. *)
Theorem sensitivityAnalysis_lbo_negative_holdPeriod (this : Model)
    (dp : DealParams.t) (ranges : Ranges.t) :
  (holdPeriod this < 0)%Z ->
  exitMultiplesOf ranges <> [] ->
  revenueGrowthRatesOf ranges <> [] ->
  sensitivityAnalysis this dp ranges = Throw "Invalid array length".
Proof.
  intros Hneg Hems Hrgs. unfold sensitivityAnalysis.
  fold (exitMultiplesOf ranges). fold (revenueGrowthRatesOf ranges).
  destruct (exitMultiplesOf ranges) as [| em ems]; [now elim Hems |].
  destruct (revenueGrowthRatesOf ranges) as [| rg rgs]; [now elim Hrgs |].
  simpl. unfold sensitivityCell at 1, arrayFill.
  destruct (Z.ltb_spec (holdPeriod this) 0) as [_ | Hpos]; [reflexivity | lia].
Qed.

Lemma sensitivityAnalysis_lbo_negative_holdPeriod_witness :
  sensitivityAnalysis negativeHold testDeal
    {| Ranges.exitMultiples := None; Ranges.revenueGrowthRates := None |}
  = Throw "Invalid array length".
Proof.
  apply (sensitivityAnalysis_lbo_negative_holdPeriod negativeHold testDeal).
  - reflexivity.
  - discriminate.
  - discriminate.
Defined.

End LBOGridCoverage.

Section LBOSimulationCoverage.
Import LBO LBOSpec LBOExamples GridSpec SampleLibraries.

Context `{MathLib} `{StatsLib} `{RandomSource}.

(** X23.  No exception of an iteration leaves the loop of the LBO simulation:
    the call collects at most the requested number of samples and ends
    as the summary statistics of those samples end. *)
Theorem monteCarioLBO_ends_in_summary (this : Model) (dp : DealParams.t)
    (ds : option Distributions.t) (simulations : option Z) (k : nat) :
  exists results k',
    (List.length results
     <= Z.to_nat (match simulations with Some n => n | None => 5000%Z end))%nat
    /\ monteCarioLBO this dp ds simulations k = (summarize this results, k').
Proof.
  unfold monteCarioLBO, Rand.bind, Rand.lift.
  match goal with
  | |- context [Rand.forEach ?b ?l ?s k] =>
      destruct (lbo_simulations_total this dp ds l s k)
        as (results & k1 & -> & Hlen)
  end.
  exists results, k1. split; [| reflexivity].
  rewrite length_seq in Hlen. simpl in Hlen. lia.
Qed.

Lemma simulation_undefined_distributions (this : Model) (dp : DealParams.t)
    (iterations : list nat) :
  forall (results : list Sample.t) (k : nat),
    Rand.forEach (simulation this dp None) iterations results k = (Ok results, k).
Proof.
  induction iterations as [| i rest IH]; intros results k; simpl; [reflexivity |].
  unfold Rand.bind at 1. unfold simulation at 1. simpl. apply IH.
Qed.

Lemma simulation_no_distributions_Ok (this : Model) (dp : DealParams.t)
    (r : Result.t) (iterations : list nat) :
  calculateLBO this dp = Ok r ->
  forall (results : list Sample.t) (k : nat),
    Rand.forEach (simulation this dp (Some noDistributions)) iterations results k
    = (Ok (results ++ repeat (lboSampleOf r) (List.length iterations)), k).
Proof.
  intros Hrun.
  induction iterations as [| i rest IH]; intros results k; simpl.
  - now rewrite app_nil_r.
  - unfold Rand.bind at 1. unfold simulation at 1.
    unfold generateRandomLBOParams, noDistributions, Rand.bind, Rand.try,
      Rand.ret, Rand.lift; simpl.
    rewrite Hrun. fold (lboSampleOf r). rewrite IH, <- app_assoc. reflexivity.
Qed.

Lemma simulation_no_distributions_Throw (this : Model) (dp : DealParams.t)
    (m : string) (iterations : list nat) :
  calculateLBO this dp = Throw m ->
  forall (results : list Sample.t) (k : nat),
    Rand.forEach (simulation this dp (Some noDistributions)) iterations results k
    = (Ok results, k).
Proof.
  intros Hrun.
  induction iterations as [| i rest IH]; intros results k; simpl;
    [reflexivity |].
  unfold Rand.bind at 1. unfold simulation at 1.
  unfold generateRandomLBOParams, noDistributions, Rand.bind, Rand.try,
    Rand.ret, Rand.lift; simpl.
  rewrite Hrun. apply IH.
Qed.

(** X24.  Without distributions nothing is sampled.  Called with [undefined]
    for the distributions, every iteration fails inside its [try] and the
    statistics are taken on no sample at all; called with [{}], every
    iteration repeats the point estimate of the deal as it is, so the
    samples are as many copies of its result, or none when it throws.  In
    both cases no random number is drawn. *)
Theorem monteCarioLBO_without_distributions (this : Model) (dp : DealParams.t)
    (simulations : option Z) (k : nat) :
  let n := Z.to_nat (match simulations with Some n => n | None => 5000%Z end) in
  monteCarioLBO this dp None simulations k = (summarize this [], k)
  /\ monteCarioLBO this dp (Some noDistributions) simulations k
     = (summarize this
          (match calculateLBO this dp with
           | Ok r => repeat (lboSampleOf r) n
           | Throw _ => []
           end), k).
Proof.
  intros n. unfold monteCarioLBO, Rand.bind, Rand.lift. split.
  - now rewrite simulation_undefined_distributions.
  - destruct (calculateLBO this dp) as [r | m] eqn:Hrun.
    + rewrite (simulation_no_distributions_Ok this dp r _ Hrun), length_seq.
      reflexivity.
    + now rewrite (simulation_no_distributions_Throw this dp m _ Hrun).
Qed.

Lemma normalRandom_draws (mean std : num) (k : nat) :
  exists x, normalRandom mean std k = (Ok x, S (S k)).
Proof. unfold normalRandom, Rand.bind, Rand.random, Rand.ret. eauto. Qed.

Lemma randomArray_body (d : Distribution.t) (blank : list num) :
  forall (acc : list num) (k : nat),
    exists xs,
      Rand.forEach
        (fun acc (_ : num) =>
           x <~ normalRandom (toNumber (Distribution.mean d))
                  (toNumber (Distribution.std d)) ;;
           Rand.ret (acc ++ [x]))
        blank acc k
      = (Ok xs, (k + 2 * List.length blank)%nat)
      /\ List.length xs = (List.length acc + List.length blank)%nat.
Proof.
  induction blank as [| b rest IH]; intros acc k; simpl.
  - exists acc. split; [unfold Rand.ret; f_equal; lia | lia].
  - unfold Rand.bind at 1 2.
    destruct (normalRandom_draws (toNumber (Distribution.mean d))
                (toNumber (Distribution.std d)) k) as [x ->].
    unfold Rand.ret at 1.
    destruct (IH (acc ++ [x]) (S (S k))) as (xs & -> & Hlen).
    exists xs. split; [f_equal; lia |].
    rewrite Hlen, length_app. simpl. lia.
Qed.

Lemma randomArray_shape (n : Z) (d : Distribution.t) (k : nat) :
  (0 <= n <= maxArrayLength)%Z ->
  exists xs,
    randomArray n d k = (Ok xs, (k + 2 * Z.to_nat n)%nat)
    /\ List.length xs = Z.to_nat n.
Proof.
  intros Hn. unfold randomArray, arrayFill, Rand.bind at 1, Rand.lift.
  destruct (Z.ltb_spec n 0) as [Hneg | _]; [lia |].
  destruct (Z.ltb_spec maxArrayLength n) as [Hbig | _]; [lia |].
  cbn [orb].
  destruct (randomArray_body d (repeat NaN (Z.to_nat n)) [] k) as (xs & -> & Hlen).
  exists xs. rewrite repeat_length in *. split; [reflexivity | exact Hlen].
Qed.

(** X25.  With a distribution for each of the three sampled parameters and
    a hold period [h] for which both [h] and [h + 1] are possible array
    lengths ([0 <= h < 2^32 - 1]), a sampled deal has a growth for each
    year after the first and a margin for each year of the loop, keeps the
    other terms of the base deal, and costs [4 * h + 4] uniform draws. *)
Theorem generateRandomLBOParams_shape (this : Model) (dp : DealParams.t)
    (d1 d2 d3 : Distribution.t) (k : nat) :
  (0 <= holdPeriod this < maxArrayLength)%Z ->
  exists x growth margins,
    generateRandomLBOParams this dp
      (Some {| Distributions.exitMultiple := Some d1;
               Distributions.revenueGrowth := Some d2;
               Distributions.ebitdaMargin := Some d3 |}) k
    = (Ok (withEbitdaMargin (withExitAndGrowth dp (Some x) (Some growth))
             (Some margins)),
       (k + 4 * Z.to_nat (holdPeriod this) + 4)%nat)
    /\ List.length growth = Z.to_nat (holdPeriod this)
    /\ List.length margins = S (Z.to_nat (holdPeriod this)).
Proof.
  intros Hpos. unfold generateRandomLBOParams; simpl.
  unfold Rand.bind at 1 2.
  destruct (normalRandom_draws (toNumber (Distribution.mean d1))
              (toNumber (Distribution.std d1)) k) as [x ->].
  unfold Rand.ret at 1. unfold Rand.bind at 1 2.
  destruct (randomArray_shape (holdPeriod this) d2 (S (S k)))
    as (growth & -> & Hgrowth); [lia |].
  unfold Rand.ret at 1. unfold Rand.bind at 1.
  destruct (randomArray_shape (holdPeriod this + 1) d3
              (S (S k) + 2 * Z.to_nat (holdPeriod this))%nat)
    as (margins & -> & Hmargins); [lia |].
  exists x, growth, margins. unfold Rand.ret. simpl.
  split; [f_equal; lia |]. split; [exact Hgrowth | lia].
Qed.

End LBOSimulationCoverage.

Section LBOSimulationWitnesses.
Import LBO LBOSpec LBOExamples GridSpec SampleLibraries.

Lemma generateRandomLBOParams_shape_witness :
  exists params,
    @generateRandomLBOParams flatMath halves oneYearHold testDeal
      (Some allDistributions) 0%nat
    = (Ok params, 8%nat)
    /\ option_map (@List.length num) (DealParams.revenueGrowth params) = Some 1%nat
    /\ option_map (@List.length num) (DealParams.ebitdaMargin params) = Some 2%nat.
Proof.
  destruct (@generateRandomLBOParams_shape flatMath halves oneYearHold testDeal
              {| Distribution.mean := Some (dec 10);
                 Distribution.std := Some (dec 1) |}
              {| Distribution.mean := Some (dec 0.05);
                 Distribution.std := Some (dec 0.02) |}
              {| Distribution.mean := Some (dec 0.2);
                 Distribution.std := Some (dec 0.02) |} 0%nat)
    as (x & growth & margins & Hrun & Hgrowth & Hmargins).
  - split; vm_compute; [discriminate | reflexivity].
  - eexists. split; [exact Hrun |]. simpl. now rewrite Hgrowth, Hmargins.
Defined.

End LBOSimulationWitnesses.

(* ================================================================== *)
(** * The constructors                                                  *)
(* ================================================================== *)

Section Constructors.
Import SampleLibraries.

Lemma orElse_not_falsy (v : value) (d : num) :
  truthy (Some d) = true -> truthy (Some (v ||| d)) = true.
Proof.
  intros Hd. unfold orElse. destruct (truthy v) eqn:Hv; [| exact Hd].
  destruct v as [x |]; [exact Hv | discriminate].
Qed.

(** X26.  The instance that a constructor returns has no field equal to
    zero: an option that is 0, [NaN] or absent is replaced by its default
    ([option || default]), so a tax rate, a discount rate or a terminal
    growth rate of 0, a target IRR of 0 or a hold period of 0 cannot be
    asked for through the options.  (Methods called later may still
    overwrite a field of the instance: the DCF grid and the DCF simulation
    set the two rates while they run.) *)
Theorem constructor_replaces_zero (o : DCF.Options.t) (o' : LBO.Options.t) :
  (truthy (Some (DCF.discountRate (DCF.constructor o))) = true
   /\ truthy (Some (DCF.terminalGrowthRate (DCF.constructor o))) = true
   /\ truthy (Some (DCF.taxRate (DCF.constructor o))) = true
   /\ DCF.projectionYears (DCF.constructor o) <> 0%Z
   /\ truthy (Some (LBO.targetIRR (LBO.constructor o'))) = true
   /\ truthy (Some (LBO.maxDebtMultiple (LBO.constructor o'))) = true
   /\ truthy (Some (LBO.minEquityContribution (LBO.constructor o'))) = true
   /\ LBO.holdPeriod (LBO.constructor o') <> 0%Z)
  /\ (DCFSpec.zeroOrMissing (DCF.Options.discountRate o) ->
      DCF.discountRate (DCF.constructor o) = dec 0.10)
  /\ (DCFSpec.zeroOrMissing (DCF.Options.terminalGrowthRate o) ->
      DCF.terminalGrowthRate (DCF.constructor o) = dec 0.025)
  /\ (DCFSpec.zeroOrMissing (DCF.Options.taxRate o) ->
      DCF.taxRate (DCF.constructor o) = dec 0.25)
  /\ (DCF.Options.projectionYears o = Some 0%Z
      \/ DCF.Options.projectionYears o = None ->
      DCF.projectionYears (DCF.constructor o) = 5%Z)
  /\ (DCFSpec.zeroOrMissing (LBO.Options.targetIRR o') ->
      LBO.targetIRR (LBO.constructor o') = dec 0.20)
  /\ (DCFSpec.zeroOrMissing (LBO.Options.maxDebtMultiple o') ->
      LBO.maxDebtMultiple (LBO.constructor o') = dec 6.0)
  /\ (DCFSpec.zeroOrMissing (LBO.Options.minEquityContribution o') ->
      LBO.minEquityContribution (LBO.constructor o') = dec 0.3)
  /\ (LBO.Options.holdPeriod o' = Some 0%Z \/ LBO.Options.holdPeriod o' = None ->
      LBO.holdPeriod (LBO.constructor o') = 5%Z).
Proof.
  assert (Hdefault : forall v d, DCFSpec.zeroOrMissing v -> (v ||| d) = d).
  { intros v d [-> | ->]; [apply orElse_zero | apply orElse_undefined]. }
  unfold DCF.constructor, LBO.constructor; simpl.
  split; [| repeat split; try (now apply Hdefault)].
  - repeat split; try (apply orElse_not_falsy; reflexivity).
    + destruct (DCF.Options.projectionYears o) as [n |]; [| discriminate].
      destruct (Z.eqb_spec n 0); [discriminate | assumption].
    + destruct (LBO.Options.holdPeriod o') as [n |]; [| discriminate].
      destruct (Z.eqb_spec n 0); [discriminate | assumption].
  - now intros [-> | ->].
  - now intros [-> | ->].
Qed.

End Constructors.

(* ================================================================== *)
(** * The root finder at its edges and the leverage test                *)
(* ================================================================== *)

Section RootFinderCoverage.
Import LBO LBOSpec LBOExamples GridSpec SampleLibraries.

Lemma newton_NaN_message (flows : list num) (n : nat) :
  In NaN flows ->
  forall rate, newton flows n rate = Throw maximumIterationsReached.
Proof.
  intros Hin. induction n as [| n IH]; intros rate; simpl; [reflexivity |].
  destruct (NPV_NaN flows rate Hin) as [-> ->]. simpl. apply IH.
Qed.

(** X27.  A [NaN] in the investment, in a cash flow or in the terminal value is
    never reported as such: no comparison with [NaN] holds, so the loop
    neither converges nor finds a flat slope, runs its 1000 iterations and
    throws "maximum iterations reached". *)
Theorem calculateIRR_NaN_exhausts (initialInvestment : num)
    (cashFlows : list num) (terminalValue : num) :
  initialInvestment = NaN \/ In NaN cashFlows \/ terminalValue = NaN ->
  calculateIRR initialInvestment cashFlows terminalValue
  = Throw "IRR calculation failed: maximum iterations reached".
Proof.
  intros Hnan. apply newton_NaN_message.
  destruct Hnan as [-> | Hnan].
  - apply allCashFlows_NaN_investment.
  - now apply allCashFlows_NaN.
Qed.

Lemma calculateIRR_NaN_exhausts_witness :
  calculateIRR (dec 100) [dec 10; NaN] (dec 120)
  = Throw "IRR calculation failed: maximum iterations reached".
Proof.
  apply (calculateIRR_NaN_exhausts (dec 100) [dec 10; NaN] (dec 120)).
  right; left. right; left. reflexivity.
Defined.




Lemma leb_refl (x : num) : x <> NaN -> (x <=? x) = true.
Proof.
  destruct x as [a | | |]; try reflexivity; [| congruence].
  intros _. apply leb_Fin, Qcle_refl.
Qed.

Lemma leb_not_NaN (x y : num) : (x <=? y) = true -> x <> NaN.
Proof. destruct x; try discriminate; now destruct y. Qed.

Lemma cmp_not_NaN (x y : num) (c : comparison) : cmp x y = Some c -> x <> NaN.
Proof. destruct x; try discriminate; congruence. Qed.

Lemma Math_max_upper (a x : num) :
  Math_max a x <> NaN ->
  (a <=? Math_max a x) = true /\ (x <=? Math_max a x) = true.
Proof.
  unfold Math_max. destruct (cmp a x) as [[ | | ] |] eqn:Hc; intros Hnan.
  - split; [apply leb_refl; exact Hnan |].
    unfold leb. now rewrite (cmp_antisym a x), Hc.
  - split; [| apply leb_refl; exact Hnan].
    unfold leb. now rewrite Hc.
  - split; [apply leb_refl; exact Hnan |].
    unfold leb. now rewrite (cmp_antisym a x), Hc.
  - congruence.
Qed.

Lemma Math_max_list_upper (xs : list num) :
  forall acc : num,
    fold_left Math_max xs acc <> NaN ->
    (acc <=? fold_left Math_max xs acc) = true
    /\ Forall (fun x => (x <=? fold_left Math_max xs acc) = true) xs.
Proof.
  induction xs as [| x rest IH]; intros acc Hnan; simpl in *.
  - split; [now apply leb_refl | constructor].
  - destruct (IH _ Hnan) as [Hacc Hrest].
    destruct (Math_max_upper acc x (leb_not_NaN _ _ Hacc)) as [Ha Hx].
    split; [exact (leb_trans _ _ _ Ha Hacc) |].
    constructor; [exact (leb_trans _ _ _ Hx Hacc) | exact Hrest].
Qed.

(** The leverage figures of a successful call. *)
Lemma calculateLBO_Ok_leverage (this : Model) (dp : DealParams.t) (r : Result.t) :
  calculateLBO this dp = Ok r ->
  CreditSummary.maxDebtToEbitda (Result.creditMetrics r)
  = Math_max_list
      (map (fun p => CreditMetrics.debtToEbitda (YearProjection.creditMetrics p))
         (Result.projections r))
  /\ KeyMetrics.leverageWithinLimits (Result.keyMetrics r)
     = (CreditSummary.maxDebtToEbitda (Result.creditMetrics r)
        <=? maxDebtMultiple this).
Proof.
  intros Hrun. unfold calculateLBO, calculateLBO_body in Hrun.
  match type of Hrun with
  | rethrow _ (bind ?b _) = _ => destruct b as [baseline | m]
  end; simpl in Hrun; [| discriminate].
  destruct (forEach _ _ _) as [st | m]; simpl in Hrun; [| discriminate].
  destruct (indexZ _ _) as [exit |]; [| discriminate].
  destruct (calculateIRR _ _ _) as [irr | m]; simpl in Hrun; [| discriminate].
  injection Hrun as <-; simpl. now split.
Qed.

(** X29.  The leverage test looks at every year: when [leverageWithinLimits] is
    true, the debt to EBITDA of each projected year, the year of entry
    included, is at most the model's [maxDebtMultiple], and at most the
    [maxDebtToEbitda] reported. *)
Theorem calculateLBO_leverage_within_limits (this : Model) (dp : DealParams.t)
    (r : Result.t) :
  calculateLBO this dp = Ok r ->
  KeyMetrics.leverageWithinLimits (Result.keyMetrics r) = true ->
  forall y p, nth_error (Result.projections r) y = Some p ->
    le (CreditMetrics.debtToEbitda (YearProjection.creditMetrics p))
       (CreditSummary.maxDebtToEbitda (Result.creditMetrics r))
    /\ le (CreditMetrics.debtToEbitda (YearProjection.creditMetrics p))
          (maxDebtMultiple this).
Proof.
  intros Hrun Hflag y p Hp.
  destruct (calculateLBO_Ok_leverage this dp r Hrun) as [Hmax Hlimit].
  rewrite Hlimit in Hflag.
  assert (Hle : le (CreditMetrics.debtToEbitda (YearProjection.creditMetrics p))
                  (CreditSummary.maxDebtToEbitda (Result.creditMetrics r))).
  { pose proof (leb_not_NaN _ _ Hflag) as Hnan. rewrite Hmax in *.
    unfold Math_max_list in *.
    destruct (Math_max_list_upper _ NInf Hnan) as [_ Hall].
    rewrite Forall_forall in Hall. apply Hall.
    apply (in_map (fun p => CreditMetrics.debtToEbitda (YearProjection.creditMetrics p))).
    eapply nth_error_In, Hp. }
  split; [exact Hle | exact (leb_trans _ _ _ Hle Hflag)].
Qed.

Lemma calculateLBO_leverage_within_limits_witness :
  exists r p,
    calculateLBO oneYearHold cashBurnDeal = Ok r
    /\ nth_error (Result.projections r) 0 = Some p
    /\ le (CreditMetrics.debtToEbitda (YearProjection.creditMetrics p))
          (maxDebtMultiple oneYearHold).
Proof.
  assert (Hreturns :
            exists r p,
              calculateLBO oneYearHold cashBurnDeal = Ok r
              /\ KeyMetrics.leverageWithinLimits (Result.keyMetrics r) = true
              /\ nth_error (Result.projections r) 0 = Some p).
  { do 2 eexists. split; [vm_compute; reflexivity |].
    split; vm_compute; reflexivity. }
  destruct Hreturns as (r & p & Hrun & Hflag & Hp).
  exists r, p. split; [exact Hrun |]. split; [exact Hp |].
  exact (proj2 (calculateLBO_leverage_within_limits oneYearHold cashBurnDeal r
                  Hrun Hflag 0%nat p Hp)).
Defined.

End RootFinderCoverage.

(* ================================================================== *)
(** * The summary of the DCF simulation                                 *)
(* ================================================================== *)

Section DCFSummaryCoverage.
Import DCF DCFSpec DCFExamples GridSpec SampleLibraries.

Context `{StatsLib}.



Lemma cmp_defined (x y : num) :
  x <> NaN -> y <> NaN -> exists c, cmp x y = Some c.
Proof. destruct x, y; simpl; try congruence; eauto. Qed.


Lemma Math_min_not_NaN (a x : num) :
  a <> NaN -> x <> NaN -> Math_min a x <> NaN.
Proof.
  intros Ha Hx. unfold Math_min.
  destruct (cmp_defined a x Ha Hx) as [[ | | ] ->]; assumption.
Qed.








End DCFSummaryCoverage.

Section DCFSummaryWitness.
Import DCF DCFSpec DCFExamples GridSpec SampleLibraries.


End DCFSummaryWitness.
